(** * run_qc_pipeline.py: submission and monitoring of Grid Engine jobs

    A shallow embedding of the job-control core of
    [NGS-general/SolidDataExtractor/run_qc_pipeline.py]: the [Qstat] helper,
    the [QsubJob] class, [QsubScript], [QdelJob], [QstatJobs],
    [UpdateRunningJobs] and [RunPipeline].

    The cluster (the qstat/qsub/qdel executables, the file system, the clock)
    is an abstract world threaded through a state-and-exception monad; every
    process launch and every sleep is appended to a trace, so that statements
    about "what was asked of the scheduler, and when" are statements about
    that trace.  Loops that wait on the cluster carry a bound on the number
    of times they may loop back. *)

From Stdlib Require Import List String Ascii ZArith Bool Arith Lia.
From Stdlib Require Import Sorted.
From Stdlib Require OrderedTypeEx.
Import ListNotations.
Local Open Scope string_scope.

(** ** Python strings *)

Module Py.

(** The characters [str.split()] treats as separators (Python 2 [str]). *)
Definition is_space (c : ascii) : bool :=
  let n := nat_of_ascii c in
  Nat.eqb n 32 || (Nat.leb 9 n && Nat.leb n 13).

Definition is_digit (c : ascii) : bool :=
  let n := nat_of_ascii c in
  Nat.leb 48 n && Nat.leb n 57.

Definition flush (cur : string) (k : list string) : list string :=
  match cur with
  | EmptyString => k
  | _ => cur :: k
  end.

(** [split_from cur s]: the tokens of [s], [cur] being the token read so far. *)
Fixpoint split_from (cur s : string) : list string :=
  match s with
  | EmptyString => flush cur []
  | String c s' =>
      if is_space c then flush cur (split_from EmptyString s')
      else split_from (cur ++ String c EmptyString) s'
  end.

(** [s.split()] *)
Definition split (s : string) : list string := split_from EmptyString s.

Fixpoint all_digits (s : string) : bool :=
  match s with
  | EmptyString => true
  | String c s' => is_digit c && all_digits s'
  end.

(** [s.isdigit()] *)
Definition isdigit (s : string) : bool :=
  match s with
  | EmptyString => false
  | _ => all_digits s
  end.

(** [s.startswith(p)] *)
Definition startswith (s p : string) : bool := String.prefix p s.

(** [sep.join(l)] *)
Definition join (sep : string) (l : list string) : string := String.concat sep l.

(** Truth value of a string: [bool(s)]. *)
Definition truthy (s : string) : bool :=
  match s with
  | EmptyString => false
  | _ => true
  end.

(** [x in l] for a value [x] that is a string or [None] and a list of strings. *)
Definition contains (l : list string) (x : option string) : bool :=
  match x with
  | Some i => existsb (String.eqb i) l
  | None => false
  end.

(** Reversed text after the last occurrence of [c] in [s], and whether [c]
    occurs at all, computed on the reversed character list. *)
Fixpoint until_char (c : ascii) (r : list ascii) : list ascii * option (list ascii) :=
  match r with
  | [] => ([], None)
  | x :: r' =>
      if Ascii.eqb x c then ([], Some r')
      else let (a, b) := until_char c r' in (x :: a, b)
  end.

(** [os.path.basename(p)] (posix): what follows the last slash. *)
Definition basename (p : string) : string :=
  string_of_list_ascii
    (rev (fst (until_char "/"%char (rev (list_ascii_of_string p))))).

(** [os.path.splitext(p)[0]] for a [p] without directory part: the extension
    starts at the last dot, unless only dots precede it. *)
Definition splitext_root (p : string) : string :=
  match until_char "."%char (rev (list_ascii_of_string p)) with
  | (_, None) => p
  | (_, Some before) =>
      if forallb (Ascii.eqb "."%char) before then p
      else string_of_list_ascii (rev before)
  end.

End Py.

(** ** Exceptions, outcomes and the monad *)

Inductive exn : Type :=
| NameError (name : string)   (* global name is not defined *)
| TypeError                   (* e.g. concatenating 'str' and 'NoneType' *)
| IndexError                  (* list index out of range *)
| OSError.                    (* subprocess.Popen could not launch the tool *)

Inductive outcome (A : Type) : Type :=
| Ret (a : A)
| Raise (e : exn)
| Timeout.                    (* a waiting loop exceeded its bound *)
Arguments Ret {A} a.
Arguments Raise {A} e.
Arguments Timeout {A}.

Definition M (S A : Type) : Type := S -> outcome A * S.

Definition ret {S A} (a : A) : M S A := fun s => (Ret a, s).
Definition raise {S A} (e : exn) : M S A := fun s => (Raise e, s).
Definition timeout {S A} : M S A := fun s => (Timeout, s).

Definition bind {S A B} (m : M S A) (k : A -> M S B) : M S B :=
  fun s =>
    match m s with
    | (Ret a, s') => k a s'
    | (Raise e, s') => (Raise e, s')
    | (Timeout, s') => (Timeout, s')
    end.

Notation "x <- m ;; k" := (bind m (fun x => k))
  (at level 61, m at next level, right associativity).
Notation "m ;;; k" := (bind m (fun _ => k))
  (at level 61, right associativity).

Definition returned {A} (o : outcome A) : bool :=
  match o with
  | Ret _ => true
  | _ => false
  end.

(** ** The cluster *)

(** What the program observes of its environment.  [getlogin] and [getcwd]
    are fixed for the life of the process (the program never changes
    directory) and are taken to succeed.  [popen w argv cwd] launches [argv] (in directory [cwd] when
    given), waits for it and yields the lines it wrote on standard output, or
    [None] when the executable could not be launched. *)
Record Cluster (W : Type) : Type := {
  getlogin : string;
  getcwd : string;
  path_exists : W -> string -> bool;
  popen : W -> list string -> option string -> option (list string) * W;
  sleep : W -> Z -> W
}.
Arguments getlogin {W}.
Arguments getcwd {W}.
Arguments path_exists {W}.
Arguments popen {W}.
Arguments sleep {W}.

Inductive event : Type :=
| EvPopen (argv : list string) (cwd : option string) (out : option (list string))
| EvSleep (secs : Z).

Record St (W : Type) : Type := mkSt {
  world : W;
  trace : list event
}.
Arguments mkSt {W}.
Arguments world {W}.
Arguments trace {W}.

(** ** Module globals *)

Inductive value : Type :=
| VModule                     (* an imported module *)
| VDef (d : string)           (* the class or function defined under that name *)
| VInt (z : Z)
| VStr (s : string)
| VNone
| VObject.                    (* any other object *)

Definition namespace := list (string * value).

Fixpoint lookup (g : namespace) (n : string) : option value :=
  match g with
  | [] => None
  | (k, v) :: g' => if String.eqb k n then Some v else lookup g' n
  end.

(** Names bound by executing the body of the module: its imports, classes
    and functions. *)
Definition module_namespace : namespace :=
  [ ("sys", VModule); ("os", VModule); ("time", VModule);
    ("subprocess", VModule); ("logging", VModule);
    ("Qstat", VDef "Qstat"); ("QsubJob", VDef "QsubJob");
    ("RunScript", VDef "RunScript"); ("QsubScript", VDef "QsubScript");
    ("QdelJob", VDef "QdelJob"); ("QstatJobs", VDef "QstatJobs");
    ("RunPipeline", VDef "RunPipeline");
    ("UpdateRunningJobs", VDef "UpdateRunningJobs");
    ("GetSolidDataFiles", VDef "GetSolidDataFiles");
    ("GetFastqFiles", VDef "GetFastqFiles") ].

(** Names bound in addition by the [__main__] block by the time it calls
    [RunPipeline], [limit], [test] and [input_type] being the values of
    --limit, --test and --input. *)
Definition main_namespace (limit test : Z) (input_type : string) : namespace :=
  (module_namespace ++
   [ ("max_concurrent_jobs", VInt limit); ("poll_interval", VInt 30);
     ("max_total_jobs", VInt test); ("logging_level", VObject);
     ("script", VObject); ("data_dirs", VObject);
     ("input_type", VStr input_type); ("arg", VObject); ("dirn", VObject);
     ("data_dir", VObject); ("run_data", VObject) ])%list.

(** How the module is loaded: imported by another program, or run as a
    program with the given option values. *)
Inductive run_mode : Type :=
| Imported
| Main (limit test : Z) (input_type : string).

Definition globals (m : run_mode) : namespace :=
  match m with
  | Imported => module_namespace
  | Main limit test input_type => main_namespace limit test input_type
  end.

(** ** The program *)

Record QsubJob : Type := mkJob {
  name : string;
  working_dir : option string;
  script : string;
  args : list string;
  job_id : option string;
  log : option string;
  submitted : bool;
  terminated : bool;
  finished : bool;
  home_dir : string
}.

Definition set_job_id (v : option string) (j : QsubJob) : QsubJob :=
  mkJob (name j) (working_dir j) (script j) (args j) v (log j)
        (submitted j) (terminated j) (finished j) (home_dir j).
Definition set_log (v : option string) (j : QsubJob) : QsubJob :=
  mkJob (name j) (working_dir j) (script j) (args j) (job_id j) v
        (submitted j) (terminated j) (finished j) (home_dir j).
Definition set_submitted (v : bool) (j : QsubJob) : QsubJob :=
  mkJob (name j) (working_dir j) (script j) (args j) (job_id j) (log j)
        v (terminated j) (finished j) (home_dir j).
Definition set_terminated (v : bool) (j : QsubJob) : QsubJob :=
  mkJob (name j) (working_dir j) (script j) (args j) (job_id j) (log j)
        (submitted j) v (finished j) (home_dir j).
Definition set_finished (v : bool) (j : QsubJob) : QsubJob :=
  mkJob (name j) (working_dir j) (script j) (args j) (job_id j) (log j)
        (submitted j) (terminated j) v (home_dir j).

(** The job ids of a qstat listing: the first token of every line whose
    first token is a number; a line without tokens is skipped (the
    [IndexError] is caught). *)
Fixpoint qstat_job_ids (lines : list string) : list string :=
  match lines with
  | [] => []
  | line :: rest =>
      match Py.split line with
      | tok :: _ =>
          if Py.isdigit tok then tok :: qstat_job_ids rest
          else qstat_job_ids rest
      | [] => qstat_job_ids rest
      end
  end.


(** The job id of a qsub report: the third token of the last line that
    starts with 'Your job'; [IndexError] when such a line has no third
    token. *)
Fixpoint qsub_job_id (lines : list string) (job_id : option string)
  : outcome (option string) :=
  match lines with
  | [] => Ret job_id
  | line :: rest =>
      if Py.startswith line "Your job" then
        match nth_error (Py.split line) 2 with
        | Some tok => qsub_job_id rest (Some tok)
        | None => Raise IndexError
        end
      else qsub_job_id rest job_id
  end.

(** The argument vector [QsubScript] hands to [subprocess.Popen]. *)
Definition qsub_argv (name : string) (working_dir : option string)
  (script : string) (args : list string) : list string :=
  let cmd := Py.join " " (script :: args) in
  let qsub := ["qsub"; "-b"; "y"; "-V"; "-N"; name] in
  let qsub :=
    match working_dir with
    | Some d => if Py.truthy d then qsub ++ ["-wd"; d] else qsub ++ ["-cwd"]
    | None => qsub ++ ["-cwd"]
    end%list in
  (qsub ++ [cmd])%list.

(** The name [RunPipeline] gives its jobs:
    [os.path.splitext(os.path.basename(script))[0]]. *)
Definition job_name_of (script : string) : string :=
  Py.splitext_root (Py.basename script).

(** ** Reading a trace *)

Definition is_launch (tool : string) (e : event) : bool :=
  match e with
  | EvPopen (a :: _) _ _ => String.eqb a tool
  | _ => false
  end.

(** The submissions of a trace, in order. *)
Definition qsub_launches (t : list event) : list (list string) :=
  flat_map (fun e => match e with
                     | EvPopen argv _ _ => if is_launch "qsub" e then [argv] else []
                     | EvSleep _ => []
                     end) t.


(** [lists_without i e]: [e] is a queue listing that does not report [i]. *)
Definition lists_without (i : string) (e : event) : Prop :=
  match e with
  | EvPopen argv _ (Some lines) =>
      is_launch "qstat" e = true /\ ~ In i (qstat_job_ids lines)
  | _ => False
  end.

(** The identifiers given to the submissions of a trace. *)
Definition submitted_ids (t : list event) : list string :=
  flat_map (fun e => match e with
                     | EvPopen _ _ (Some lines) =>
                         if is_launch "qsub" e then
                           match qsub_job_id lines None with
                           | Ret (Some i) => [i]
                           | _ => []
                           end
                         else []
                     | _ => []
                     end) t.

(** The jobs submitted in [pre] that the listing [lines] reports. *)
Definition outstanding (pre : list event) (lines : list string) : list string :=
  filter (fun i => existsb (String.eqb i) (submitted_ids pre)) (qstat_job_ids lines).

(** A queue listing or a sleep: what waiting on the cluster consists of. *)
Definition is_poll (e : event) : bool :=
  match e with
  | EvPopen _ _ _ => is_launch "qstat" e
  | EvSleep _ => true
  end.

(** [grows_by s s' d]: from [s] to [s'] the trace grew by [d]. *)
Definition grows_by {W : Type} (s s' : St W) (d : list event) : Prop :=
  trace s' = (trace s ++ d)%list.

(** [polled s s']: from [s] to [s'] the program did nothing on the cluster
    but list the queue and sleep. *)
Definition polled {W : Type} (s s' : St W) : Prop :=
  exists d, grows_by s s' d /\ Forall (fun e => is_poll e = true) d.

Section Program.

Context {W : Type} (C : Cluster W).

Definition Proc (A : Type) : Type := M (St W) A.
(** A method of [QsubJob]: it runs on the object [self] and the cluster, and
    what it assigned to [self] before raising stays assigned. *)
Definition Method (A : Type) : Type := M (QsubJob * St W) A.

Definition on_cluster {A} (p : Proc A) : Method A :=
  fun js => let (o, s') := p (snd js) in (o, (fst js, s')).
Definition self : Method QsubJob := fun js => (Ret (fst js), js).
Definition assign (f : QsubJob -> QsubJob) : Method unit :=
  fun js => (Ret tt, (f (fst js), snd js)).
Definition of_outcome {S A} (o : outcome A) : M S A := fun s => (o, s).

(** *** Primitives *)

Definition Popen (argv : list string) (cwd : option string) : Proc (list string) :=
  fun s =>
    let (out, w') := popen C (world s) argv cwd in
    let s' := mkSt w' (trace s ++ [EvPopen argv cwd out]) in
    match out with
    | Some lines => (Ret lines, s')
    | None => (Raise OSError, s')
    end.

Definition time_sleep (secs : Z) : Proc unit :=
  fun s => (Ret tt, mkSt (sleep C (world s) secs) (trace s ++ [EvSleep secs])).

Definition os_getlogin : Proc string := ret (getlogin C).
Definition os_getcwd : Proc string := ret (getcwd C).
Definition os_path_exists (p : string) : Proc bool :=
  fun s => (Ret (path_exists C (world s) p), s).

Definition load_global (g : namespace) (n : string) : Proc value :=
  match lookup g n with
  | Some v => ret v
  | None => raise (NameError n)
  end.

(** *** class Qstat *)

Definition Qstat_list (user : option string) : Proc (list string) :=
  u <- match user with
       | Some u => if Py.truthy u then ret u else os_getlogin
       | None => os_getlogin
       end ;;
  lines <- Popen ["qstat"; "-u"; u] None ;;
  ret (qstat_job_ids lines).

Definition Qstat_njobs (user : option string) : Proc nat :=
  l <- Qstat_list user ;;
  ret (List.length l).

Definition Qstat_hasJob (job_id : option string) : Proc bool :=
  l <- Qstat_list None ;;
  ret (Py.contains l job_id).

(** *** Module functions *)

Definition QsubScript (name : string) (working_dir : option string)
  (script : string) (args : list string) : Proc (option string) :=
  cwd <- os_getcwd ;;
  lines <- Popen (qsub_argv name working_dir script args) (Some cwd) ;;
  of_outcome (qsub_job_id lines None).

Definition QdelJob (job_id : option string) : Proc unit :=
  match job_id with
  | Some i => Popen ["qdel"; i] None ;;; ret tt
  | None => raise TypeError
  end.


(** Calling the value a global name is bound to, with one argument. *)
Definition call1 (f : value) (arg : option string) : Proc unit :=
  match f with
  | VDef d => if String.eqb d "QdelJob" then QdelJob arg else raise TypeError
  | _ => raise TypeError
  end.

(** *** class QsubJob *)

Definition QsubJob_init (name : string) (dirn : option string)
  (script : string) (args : list string) : Proc QsubJob :=
  cwd <- os_getcwd ;;
  ret (mkJob name dirn script args None None false false false cwd).

(** [while not self.qstat.hasJob(self.job_id) and not os.path.exists(self.log):
       time.sleep(5)] *)
Fixpoint wait_started (fuel : nat) (job_id : option string) (log : string)
  : Proc unit :=
  queued <- Qstat_hasJob job_id ;;
  if queued then ret tt
  else
    logged <- os_path_exists log ;;
    if logged then ret tt
    else
      time_sleep 5 ;;;
      match fuel with
      | O => timeout
      | S fuel' => wait_started fuel' job_id log
      end.

Definition start (fuel : nat) : Method (option string) :=
  j <- self ;;
  (if negb (submitted j) && negb (finished j) then
     id <- on_cluster (QsubScript (name j) (working_dir j) (script j) (args j)) ;;
     assign (set_job_id id) ;;;
     assign (set_submitted true) ;;;
     log <- match id with
            | Some i => ret (name j ++ ".o" ++ i)
            | None => raise TypeError
            end ;;
     assign (set_log (Some log)) ;;;
     on_cluster (wait_started fuel id log)
   else ret tt) ;;;
  j <- self ;;
  ret (job_id j).

Definition isRunning : Method bool :=
  j <- self ;;
  if negb (submitted j) then ret false
  else
    (if negb (finished j) then
       queued <- on_cluster (Qstat_hasJob (job_id j)) ;;
       if negb queued then assign (set_finished true) else ret tt
     else ret tt) ;;;
    j <- self ;;
    ret (negb (finished j)).

Definition terminate (g : namespace) : Method unit :=
  running <- isRunning ;;
  if negb running then
    f <- on_cluster (load_global g "Qdeljob") ;;
    j <- self ;;
    on_cluster (call1 f (job_id j)) ;;;
    assign (set_terminated true)
  else ret tt.

(** [while self.isRunning(): time.sleep(5)] *)
Fixpoint wait_stopped (fuel : nat) : Method unit :=
  running <- isRunning ;;
  if running then
    on_cluster (time_sleep 5) ;;;
    match fuel with
    | O => timeout
    | S fuel' => wait_stopped fuel'
    end
  else ret tt.

Definition resubmit (g : namespace) (fuel : nat) : Method (option string) :=
  running <- isRunning ;;
  (if running then terminate g ;;; wait_stopped fuel else ret tt) ;;;
  assign (set_submitted false) ;;;
  assign (set_terminated false) ;;;
  assign (set_finished false) ;;;
  start fuel.

(** *** RunPipeline *)

(** Running a method on an object held by the caller.  An exception is not
    caught by any caller in this program, so the object is dropped with it. *)
Definition call {A} (m : Method A) (j : QsubJob) : Proc (A * QsubJob) :=
  fun s =>
    match m (j, s) with
    | (Ret a, (j', s')) => (Ret (a, j'), s')
    | (Raise e, (_, s')) => (Raise e, s')
    | (Timeout, (_, s')) => (Timeout, s')
    end.

Fixpoint UpdateRunningJobs (running_jobs : list QsubJob) : Proc (list QsubJob) :=
  match running_jobs with
  | [] => ret []
  | job :: rest =>
      r <- call isRunning job ;;
      unfinished_jobs <- UpdateRunningJobs rest ;;
      ret (if fst r then snd r :: unfinished_jobs else unfinished_jobs)
  end.

(** [time.sleep(poll_interval)], [poll_interval] being a global of the module. *)
Definition sleep_poll_interval (g : namespace) : Proc unit :=
  v <- load_global g "poll_interval" ;;
  match v with
  | VInt z => time_sleep z
  | _ => raise TypeError
  end.

(** [while qstat.njobs() >= max_concurrent_jobs: time.sleep(poll_interval)] *)
Fixpoint wait_for_space (g : namespace) (fuel : nat) (max_concurrent_jobs : Z)
  : Proc unit :=
  n <- Qstat_njobs None ;;
  if (Z.of_nat n >=? max_concurrent_jobs)%Z then
    sleep_poll_interval g ;;;
    match fuel with
    | O => timeout
    | S fuel' => wait_for_space g fuel' max_concurrent_jobs
    end
  else ret tt.

(** The body of [for data in run_data], over the rest of [run_data]. *)
Fixpoint submit_all (g : namespace) (fuel : nat) (script job_name : string)
  (working_dir : option string) (max_concurrent_jobs : Z)
  (run_data : list (list string)) (running_jobs : list QsubJob)
  : Proc (list QsubJob) :=
  match run_data with
  | [] => ret running_jobs
  | data :: rest =>
      running_jobs <- UpdateRunningJobs running_jobs ;;
      wait_for_space g fuel max_concurrent_jobs ;;;
      job <- QsubJob_init job_name working_dir script data ;;
      r <- call (start fuel) job ;;
      submit_all g fuel script job_name working_dir max_concurrent_jobs rest
                 (running_jobs ++ [snd r])%list
  end.

(** [while len(running_jobs) > 0: ...] *)
Fixpoint wait_for_jobs (g : namespace) (fuel : nat) (running_jobs : list QsubJob)
  : Proc unit :=
  match running_jobs with
  | [] => ret tt
  | _ :: _ =>
      running_jobs <- UpdateRunningJobs running_jobs ;;
      sleep_poll_interval g ;;;
      match fuel with
      | O => timeout
      | S fuel' => wait_for_jobs g fuel' running_jobs
      end
  end.

Definition RunPipeline (g : namespace) (fuel : nat) (script : string)
  (run_data : list (list string)) (working_dir : option string)
  (max_concurrent_jobs : Z) : Proc unit :=
  let job_name := job_name_of script in
  running_jobs <-
    submit_all g fuel script job_name working_dir max_concurrent_jobs run_data [] ;;
  wait_for_jobs g fuel running_jobs.

(** *** Vocabulary of the statements *)

(** The state after launching [argv] and getting [out] in world [w']. *)
Definition launched (s : St W) (argv : list string) (cwd : option string)
  (out : option (list string)) (w' : W) : St W :=
  mkSt w' (trace s ++ [EvPopen argv cwd out]).

(** The query every [Qstat] method of this program ends up launching. *)
Definition qstat_argv : list string := ["qstat"; "-u"; getlogin C].

(** The submission of the task of job [j]. *)
Definition qsub_of (j : QsubJob) : list string :=
  qsub_argv (name j) (working_dir j) (script j) (args j).

(** [room max e]: [e] is a listing of the queue of the user that reports
    fewer than [max] jobs. *)
Definition room (max : Z) (e : event) : Prop :=
  exists lines,
    e = EvPopen qstat_argv None (Some lines) /\
    (Z.of_nat (List.length (qstat_job_ids lines)) < max)%Z.

(** [gated_after max R d]: in [d] every submission comes right after a
    listing with room, the first event coming after one if [R]. *)
Fixpoint gated_after (max : Z) (R : Prop) (d : list event) : Prop :=
  match d with
  | [] => True
  | e :: d' => (is_launch "qsub" e = true -> R) /\ gated_after max (room max e) d'
  end.

(** The first half of [resubmit]: wait until the job has left the queue. *)
Definition resubmit_stop (g : namespace) (fuel : nat) : Method unit :=
  running <- isRunning ;;
  if running then terminate g ;;; wait_stopped fuel else ret tt.

(** The flags as [resubmit] resets them; the identifier and the log name
    are not reset. *)
Definition reset_flags (j : QsubJob) : QsubJob :=
  set_finished false (set_terminated false (set_submitted false j)).

(** *** Histories of a job *)

Inductive operation : Type :=
| Start (fuel : nat)
| Terminate
| Resubmit (fuel : nat)
| IsRunning.

Definition ignore {A} (m : Method A) : Method unit := m ;;; ret tt.

Definition perform (g : namespace) (op : operation) : Method unit :=
  match op with
  | Start fuel => ignore (start fuel)
  | Terminate => terminate g
  | Resubmit fuel => ignore (resubmit g fuel)
  | IsRunning => ignore isRunning
  end.

(** [reached m strict j]: [j] is the state of a job object after it was
    created and some operations were run on it, each in some state of the
    cluster; with [strict = true], each of them returned. *)
Inductive reached (m : run_mode) (strict : bool) : QsubJob -> Prop :=
| reached_new : forall (n : string) (d : option string) (sc : string)
                       (a : list string) (s s' : St W) (j : QsubJob),
    QsubJob_init n d sc a s = (Ret j, s') ->
    reached m strict j
| reached_op : forall (j j' : QsubJob) (op : operation) (s s' : St W)
                      (o : outcome unit),
    reached m strict j ->
    perform (globals m) op (j, s) = (o, (j', s')) ->
    (strict = true -> returned o = true) ->
    reached m strict j'.

End Program.

(** A job that counts as running: submitted and not known to be finished. *)
Definition live (j : QsubJob) : Prop :=
  submitted j = true /\ finished j = false.


(** [kept j j']: [j'] is [j] up to the identifier, the log name and the
    flags, and its [terminated] flag was not raised. *)
Definition kept (j j' : QsubJob) : Prop :=
  name j' = name j /\ working_dir j' = working_dir j /\
  script j' = script j /\ args j' = args j /\ home_dir j' = home_dir j /\
  (terminated j = false -> terminated j' = false).

(** The identifier is set exactly when the job is submitted. *)
Definition id_iff_submitted (j : QsubJob) : Prop :=
  job_id j <> None <-> submitted j = true.

(** A qsub report without any line starting 'Your job'. *)
Definition no_job_line (lines : list string) : Prop :=
  Forall (fun l => Py.startswith l "Your job" = false) lines.

(** ** A scripted cluster

    Every launched tool prints the next entry of a tape, whatever it is asked;
    once the tape is used up the tools print nothing.  No log file ever
    shows up and sleeping changes nothing. *)

Definition tape := list (option (list string)).

Definition scripted : Cluster tape := {|
  getlogin := "me";
  getcwd := "/home/me";
  path_exists := fun _ _ => false;
  popen := fun w _ _ =>
    match w with
    | [] => (Some [], [])
    | out :: w' => (out, w')
    end;
  sleep := fun w _ => w
|}.

Definition on_tape (t : tape) : St tape := mkSt t [].

Definition qstat_header : list string :=
  [ "job-ID  prior   name       user         state submit/start at     queue";
    "-----------------------------------------------------------------------" ].

Definition queued (ids : list string) : option (list string) :=
  Some (List.app qstat_header
          (map (fun i => i ++ " 0.50000 qc me r 11/03/2011 10:00:00 all.q") ids)).

Definition accepted (i : string) : option (list string) :=
  Some [ "Your job " ++ i ++ " (" ++ "qc" ++ ") has been submitted" ].

Definition running_job : QsubJob :=
  mkJob "qc" (Some "/data/run1") "/home/me/qc.sh" ["a.csfasta"; "a_QV.qual"]
        (Some "42") (Some "qc.o42") true false false "/home/me".

Definition new_job : QsubJob :=
  mkJob "qc" (Some "/data/run1") "/home/me/qc.sh" ["a.csfasta"; "a_QV.qual"]
        None None false false false "/home/me".

(** ** Statements of the specification that the program does not meet *)

(** A submission whose report has no 'Your job' line fails, and [start] on
    it raises without recording a submission. *)
Definition no_id_submission_fails : Prop :=
  forall (W : Type) (C : Cluster W) (fuel : nat) (j : QsubJob) (s : St W)
         (lines : list string) (w' : W),
    submitted j = false -> finished j = false ->
    popen C (world s) (qsub_of j) (Some (getcwd C)) = (Some lines, w') ->
    no_job_line lines ->
    (exists e, fst (QsubScript C (name j) (working_dir j) (script j) (args j) s) = Raise e) /\
    (exists e j' s', start C fuel (j, s) = (Raise e, (j', s')) /\ submitted j' = false).

(** A queue listing without job lines never makes a submitted job finished. *)
Definition empty_listing_is_no_information : Prop :=
  forall (W : Type) (C : Cluster W) (j : QsubJob) (s : St W)
         (lines : list string) (w' : W),
    submitted j = true -> finished j = false ->
    popen C (world s) (qstat_argv C) None = (Some lines, w') ->
    qstat_job_ids lines = [] ->
    finished (fst (snd (isRunning C (j, s)))) = false.

(** Whatever was done to a job, its identifier is set exactly when it is
    submitted. *)
Definition id_iff_submitted_always : Prop :=
  forall (W : Type) (C : Cluster W) (m : run_mode) (j : QsubJob),
    reached C m false j -> id_iff_submitted j.

(** Resubmitting a submitted job records an identifier other than the one
    it had. *)
Definition resubmit_gives_new_id : Prop :=
  forall (W : Type) (C : Cluster W) (m : run_mode) (fuel : nat)
         (j j' : QsubJob) (s s' : St W) (r : option string),
    submitted j = true ->
    resubmit C (globals m) fuel (j, s) = (Ret r, (j', s')) ->
    job_id j' <> job_id j.


(** No queue listing made by [RunPipeline] reports more of the jobs it has
    submitted so far than the ceiling. *)
Definition outstanding_never_above_ceiling : Prop :=
  forall (W : Type) (C : Cluster W) (m : run_mode) (fuel : nat) (sc : string)
         (run_data : list (list string)) (wd : option string) (max : Z)
         (s s' : St W) (o : outcome unit) (d : list event),
    RunPipeline C (globals m) fuel sc run_data wd max s = (o, s') ->
    grows_by s s' d ->
    forall (pre post : list event) (argv : list string) (cwd : option string)
           (lines : list string),
      d = (pre ++ EvPopen argv cwd (Some lines) :: post)%list ->
      is_launch "qstat" (EvPopen argv cwd (Some lines)) = true ->
      (Z.of_nat (List.length (outstanding pre lines)) <= max)%Z.

(** ** Further vocabulary *)

(** [subseq l1 l2]: [l1] is [l2] with some elements left out, the others in
    the same order. *)
Inductive subseq {A : Type} : list A -> list A -> Prop :=
| subseq_nil : subseq [] []
| subseq_keep : forall (x : A) (l1 l2 : list A),
    subseq l1 l2 -> subseq (x :: l1) (x :: l2)
| subseq_drop : forall (x : A) (l1 l2 : list A),
    subseq l1 l2 -> subseq l1 (x :: l2).

(** An event that is a queue listing (a qstat launch that produced output or
    not), as opposed to a sleep or any other launch. *)
Definition is_listing (e : event) : bool :=
  match e with
  | EvPopen _ _ _ => is_launch "qstat" e
  | EvSleep _ => false
  end.

(** [launches_no tool s s']: from [s] to [s'] the program did not launch
    [tool]. *)
Definition launches_no {W : Type} (tool : string) (s s' : St W) : Prop :=
  exists d, grows_by s s' d /\ Forall (fun e => is_launch tool e = false) d.

(** A job that [isRunning] asks the queue about. *)
Definition is_live (j : QsubJob) : bool := submitted j && negb (finished j).

(** ** Finding the input files

    [GetSolidDataFiles] and [GetFastqFiles] of run_qc_pipeline.py, with what
    they use of [os.path] and of Python strings and lists. *)

Module PyPath.

(** [s[n:]] and [s[:n]] for [n >= 0]. *)
Fixpoint drop (n : nat) (s : string) : string :=
  match n, s with
  | O, _ => s
  | S n', String _ s' => drop n' s'
  | S _, EmptyString => EmptyString
  end.

Fixpoint take (n : nat) (s : string) : string :=
  match n, s with
  | O, _ => EmptyString
  | S n', String c s' => String c (take n' s')
  | S _, EmptyString => EmptyString
  end.

(** [s.rfind(c)] for a character [c], [i] being the index of the head of [s]
    and [last] the last index found so far; [None] stands for -1. *)
Fixpoint rfind_from (c : ascii) (s : string) (i : nat) (last : option nat)
  : option nat :=
  match s with
  | EmptyString => last
  | String x s' => rfind_from c s' (S i) (if Ascii.eqb x c then Some i else last)
  end.

Definition rfind (s : string) (c : ascii) : option nat := rfind_from c s 0 None.

(** [s.rindex(sub)]: the highest index at which [sub] occurs in [s]; [None]
    stands for the [ValueError] raised when it does not occur. *)
Fixpoint rindex_from (sub s : string) (i : nat) (last : option nat) : option nat :=
  let last' := if String.prefix sub s then Some i else last in
  match s with
  | EmptyString => last'
  | String _ s' => rindex_from sub s' (S i) last'
  end.

Definition rindex (s sub : string) : option nat := rindex_from sub s 0 None.

Fixpoint all_dots (s : string) : bool :=
  match s with
  | EmptyString => true
  | String c s' => Ascii.eqb c "."%char && all_dots s'
  end.

(** [os.path.splitext(p)] (posix): the extension starts at the last dot, if
    that dot comes after the last slash and after a character of the file
    name that is not a dot. *)
Definition splitext (p : string) : string * string :=
  match rfind p "."%char with
  | None => (p, EmptyString)
  | Some dot =>
      let start := match rfind p "/"%char with
                   | Some sep => S sep
                   | None => O
                   end in
      if Nat.leb start dot && negb (all_dots (take (dot - start) (drop start p)))
      then (take dot p, drop dot p)
      else (p, EmptyString)
  end.

(** [s.endswith(suffix)] *)
Definition endswith (s suffix : string) : bool :=
  String.eqb (drop (String.length s - String.length suffix) s) suffix.

(** [os.path.join(a, b)] (posix). *)
Definition join (a b : string) : string :=
  if String.prefix "/" b then b
  else if String.eqb a "" || endswith a "/" then a ++ b
  else a ++ "/" ++ b.

(** [l.sort()] on strings: ascending in the order of [str], which compares
    character codes.  The order being total and antisymmetric, the sorted
    list does not depend on the sorting algorithm. *)
Fixpoint insert (x : string) (l : list string) : list string :=
  match l with
  | [] => [x]
  | y :: l' => if String.leb x y then x :: l else y :: insert x l'
  end.

Fixpoint sort (l : list string) : list string :=
  match l with
  | [] => []
  | x :: l' => insert x (sort l')
  end.

End PyPath.

(** Exceptions outside the job control: those of the job control, the
    [ValueError] of [str.rindex] and the exit of the program. *)
Inductive error : Type :=
| Std (e : exn)
| ValueError
| SystemExit (status : Z).    (* sys.exit(status) *)

Inductive result (A : Type) : Type :=
| Ok (a : A)
| Error (e : error).
Arguments Ok {A} a.
Arguments Error {A} e.

(** The csfasta name [GetSolidDataFiles] derives from the root of a qual
    name: the root without its last '_QV'.  The handler of the source is for
    [IndexError], which [rindex] does not raise: a root without '_QV' ends
    the function with [ValueError]. *)
Definition csfasta_of (root : string) : result string :=
  match PyPath.rindex root "_QV" with
  | Some i => Ok (PyPath.take i root ++ PyPath.drop (i + 3) root ++ ".csfasta")
  | None => Error ValueError
  end.

(** The body of [for filen in all_files] in [GetSolidDataFiles], [present]
    telling which paths exist. *)
Fixpoint solid_pairs (present : string -> bool) (data_dir : string)
  (all_files : list string) (data_files : list (list string))
  : result (list (list string)) :=
  match all_files with
  | [] => Ok data_files
  | filen :: rest =>
      let ext := snd (PyPath.splitext filen) in
      let root := fst (PyPath.splitext filen) in
      if String.eqb ext ".qual" then
        match csfasta_of root with
        | Ok csfasta =>
            if present (PyPath.join data_dir csfasta)
            then solid_pairs present data_dir rest
                             (data_files ++ [[csfasta; filen]])%list
            else solid_pairs present data_dir rest data_files
        | Error e => Error e
        end
      else solid_pairs present data_dir rest data_files
  end.

(** The body of [for filen in all_files] in [GetFastqFiles]. *)
Fixpoint fastq_files (all_files : list string) (data_files : list (list string))
  : list (list string) :=
  match all_files with
  | [] => data_files
  | filen :: rest =>
      if String.eqb (snd (PyPath.splitext filen)) ".fastq"
      then fastq_files rest (data_files ++ [[filen]])%list
      else fastq_files rest data_files
  end.

Section Discovery.

Context {W : Type} (C : Cluster W).
(** [os.listdir]: the names in a directory, [None] when it cannot be read. *)
Variable listdir : W -> string -> option (list string).

(** [os.listdir(data_dir)] followed by [all_files.sort()], [data_dir] being
    the global of that name, not the argument of the function. *)
Definition sorted_listing (g : namespace) (w : W) : result (string * list string) :=
  match lookup g "data_dir" with
  | None => Error (Std (NameError "data_dir"))
  | Some (VStr data_dir) =>
      match listdir w data_dir with
      | Some all_files => Ok (data_dir, PyPath.sort all_files)
      | None => Error (Std OSError)
      end
  | Some _ => Error (Std TypeError)
  end.

Definition GetSolidDataFiles (g : namespace) (dirn : string) (w : W)
  : result (list (list string)) :=
  match sorted_listing g w with
  | Ok (data_dir, all_files) =>
      solid_pairs (path_exists C w) data_dir all_files []
  | Error e => Error e
  end.

Definition GetFastqFiles (g : namespace) (dirn : string) (w : W)
  : result (list (list string)) :=
  match sorted_listing g w with
  | Ok (_, all_files) => Ok (fastq_files all_files [])
  | Error e => Error e
  end.

End Discovery.

(** The globals inside [for data_dir in data_dirs] of the [__main__] block. *)
Definition in_data_dir (data_dir : string) (g : namespace) : namespace :=
  ("data_dir", VStr data_dir) :: g.

(** A directory of the scripted examples. *)
Definition run1_files : list string :=
  ["b_QV.qual"; "a.csfasta"; "notes.txt"; "a_QV.qual"; "b.csfasta"; "c.fastq"].

Definition run1_listdir (w : tape) (d : string) : option (list string) :=
  if String.eqb d "/data/run1" then Some run1_files else None.

(** A directory with a qual file that does not follow the naming. *)
Definition odd_listdir (w : tape) (d : string) : option (list string) :=
  if String.eqb d "/data/run1" then Some ["a.csfasta"; "a.qual"] else None.

(** The scripted cluster, with the files of that directory in place. *)
Definition stocked : Cluster tape := {|
  getlogin := "me";
  getcwd := "/home/me";
  path_exists := fun _ p =>
    existsb (fun f => String.eqb p ("/data/run1/" ++ f)) run1_files;
  popen := popen scripted;
  sleep := sleep scripted
|}.

(** ** The loop over the data directories

    The end of the [__main__] block of run_qc_pipeline.py, from
    [for data_dir in data_dirs] on, the options being parsed: [limit] is
    [max_concurrent_jobs], [test] is [max_total_jobs]. *)

Inductive main_outcome : Type :=
| AllFinished                 (* 'All pipelines finished' was printed *)
| Failed (e : error)
| TimedOut.

Section MainLoop.

Context {W : Type} (C : Cluster W).
Variable listdir : W -> string -> option (list string).

(** What [run_data] is bound to after
    [if input_type == "solid": ... elif input_type == "fastq": ...],
    [previous] being what it was bound to before, if at all. *)
Definition collect (input_type : string) (g : namespace) (data_dir : string)
  (previous : option (list (list string))) (w : W)
  : result (option (list (list string))) :=
  if String.eqb input_type "solid" then
    match GetSolidDataFiles C listdir g data_dir w with
    | Ok l => Ok (Some l)
    | Error e => Error e
    end
  else if String.eqb input_type "fastq" then
    match GetFastqFiles listdir g data_dir w with
    | Ok l => Ok (Some l)
    | Error e => Error e
    end
  else Ok previous.

Fixpoint main_loop (limit test : Z) (input_type script : string) (fuel : nat)
  (data_dirs : list string) (run_data : option (list (list string)))
  (s : St W) : main_outcome * St W :=
  match data_dirs with
  | [] => (AllFinished, s)
  | data_dir :: rest =>
      let g := in_data_dir data_dir (globals (Main limit test input_type)) in
      match collect input_type g data_dir run_data (world s) with
      | Error e => (Failed e, s)
      | Ok None => (Failed (Std (NameError "run_data")), s)
      | Ok (Some []) =>
          main_loop limit test input_type script fuel rest (Some []) s
      | Ok (Some found) =>
          let batch := if (test >? 0)%Z then firstn (Z.to_nat test) found
                       else found in
          match RunPipeline C g fuel script batch (Some data_dir) limit s with
          | (Ret _, s') =>
              main_loop limit test input_type script fuel rest (Some batch) s'
          | (Raise e, s') => (Failed (Std e), s')
          | (Timeout, s') => (TimedOut, s')
          end
      end
  end.

End MainLoop.

(** ** build_analysis_dir.py

    The [Experiment] class, [match], [getLinkName] and the processing of the
    command line of build_analysis_dir.py. *)

Module Build.

(** [s.split(c)] for a one-character separator: never empty. *)
Fixpoint split_on_from (c : ascii) (cur s : string) : list string :=
  match s with
  | EmptyString => [cur]
  | String x s' =>
      if Ascii.eqb x c then cur :: split_on_from c EmptyString s'
      else split_on_from c (cur ++ String x EmptyString) s'
  end.

Definition split_on (c : ascii) (s : string) : list string :=
  split_on_from c EmptyString s.

(** [c in s] for a character. *)
Fixpoint has_char (c : ascii) (s : string) : bool :=
  match s with
  | EmptyString => false
  | String x s' => Ascii.eqb x c || has_char c s'
  end.

(** Truth value of an attribute that is [None] or a string. *)
Definition truthy (o : option string) : bool :=
  match o with
  | Some s => Py.truthy s
  | None => false
  end.

(** ["%s" % o] *)
Definition str (o : option string) : string :=
  match o with
  | Some s => s
  | None => "None"
  end.

Record Experiment : Type := mkExperiment {
  name : option string;
  type : option string;
  sample : option string;
  library : option string
}.

Definition dirname (e : Experiment) : result (option string) :=
  if truthy (type e) then
    match name e, type e with
    | Some n, Some t => Ok (Some (Py.join "_" [n; t]))
    | _, _ => Error (Std TypeError)
    end
  else Ok (name e).

Definition describe (e : Experiment) : string :=
  let options := ["--name=" ++ str (name e)] in
  let options :=
    if truthy (type e) then List.app options ["--type=" ++ str (type e)]
    else options in
  let sample := if truthy (sample e) then str (sample e) else "*" in
  let library := if truthy (library e) then str (library e) else "*" in
  let options := List.app options ["--source=" ++ sample ++ "/" ++ library] in
  Py.join " " options.

(** [match(pattern, word)] *)
Definition match_ (pattern : option string) (word : string) : bool :=
  match pattern with
  | None => true
  | Some p =>
      if negb (Py.truthy p) || String.eqb p "*" then true
      else if PyPath.endswith p "*"
           then Py.startswith word (PyPath.take (String.length p - 1) p)
           else String.eqb word p
  end.

(** [getLinkName(filen, sample, library)], the attributes it reads of the
    sample and the library ([sample.parent_run.run_info.instrument],
    [sample.parent_run.run_info.datestamp], [sample.name], [library.name])
    being given as strings. *)
Definition getLinkName (filen instrument datestamp sample_name library_name : string)
  : string :=
  let link_filen_elements := [instrument; datestamp; sample_name; library_name] in
  let ext := snd (PyPath.splitext filen) in
  let link_filen_elements :=
    if String.eqb ext ".qual" then (link_filen_elements ++ ["QV"])%list
    else link_filen_elements in
  Py.join "_" link_filen_elements ++ ext.

(** What processing the command line builds up. *)
Record Options : Type := mkOptions {
  expts : list Experiment;
  dry_run : bool;
  solid_run_dir : option string
}.

(** [expts[-1]], and the list with its last element changed. *)
Definition last_expt (l : list Experiment) : option Experiment :=
  match rev l with
  | e :: _ => Some e
  | [] => None
  end.

Fixpoint update_last (f : Experiment -> Experiment) (l : list Experiment)
  : list Experiment :=
  match l with
  | [] => []
  | [e] => [f e]
  | e :: l' => e :: update_last f l'
  end.

(** [arg.split('=')[1]] *)
Definition value_of (arg : string) : result string :=
  match nth_error (split_on "="%char arg) 1 with
  | Some v => Ok v
  | None => Error (Std IndexError)
  end.

(** Setting sample and library from the value of --source. *)
Definition set_source (source : string) (e : Experiment) : Experiment :=
  if has_char "/"%char source then
    mkExperiment (name e) (type e)
                 (nth_error (split_on "/"%char source) 0)
                 (nth_error (split_on "/"%char source) 1)
  else mkExperiment (name e) (type e) (Some source) (library e).

(** The body of [for arg in sys.argv[1:]]. *)
Definition parse_arg (st : Options) (arg : string) : result Options :=
  match solid_run_dir st with
  | Some _ => Error (SystemExit 1)
  | None =>
      if Py.startswith arg "--name=" then
        match value_of arg with
        | Ok v =>
            Ok (mkOptions (expts st ++ [mkExperiment (Some v) None None None])
                          (dry_run st) None)
        | Error e => Error e
        end
      else if Py.startswith arg "--type=" then
        match last_expt (expts st) with
        | None => Error (SystemExit 1)
        | Some expt =>
            if negb (truthy (type expt)) then
              match value_of arg with
              | Ok v =>
                  Ok (mkOptions
                        (update_last
                           (fun e => mkExperiment (name e) (Some v) (sample e) (library e))
                           (expts st))
                        (dry_run st) None)
              | Error e => Error e
              end
            else Error (SystemExit 1)
        end
      else if Py.startswith arg "--source=" then
        match last_expt (expts st) with
        | None => Error (SystemExit 1)
        | Some expt =>
            let expts' :=
              if truthy (sample expt)
              then (expts st ++ [mkExperiment (name expt) (type expt) None None])%list
              else expts st in
            match value_of arg with
            | Ok source =>
                Ok (mkOptions (update_last (set_source source) expts')
                              (dry_run st) None)
            | Error e => Error e
            end
        end
      else if String.eqb arg "--dry-run" then
        Ok (mkOptions (expts st) true None)
      else if String.eqb arg "--debug" then Ok st
      else if negb (Py.startswith arg "--") then
        Ok (mkOptions (expts st) (dry_run st) (Some arg))
      else Error (SystemExit 1)
  end.

Fixpoint parse_loop (st : Options) (args : list string) : result Options :=
  match args with
  | [] => Ok st
  | arg :: rest =>
      match parse_arg st arg with
      | Ok st' => parse_loop st' rest
      | Error e => Error e
      end
  end.

(** The processing of [sys.argv] up to the checks that there is something
    to do (a run directory that is not found is only reported). *)
Definition parse_args (argv : list string) : result Options :=
  if Nat.ltb (List.length argv) 2 then Error (SystemExit 1)
  else
    match parse_loop (mkOptions [] false None) (tl argv) with
    | Ok st =>
        if negb (truthy (solid_run_dir st)) then Error (SystemExit 1)
        else match expts st with
             | [] => Error (SystemExit 1)
             | _ :: _ => Ok st
             end
    | Error e => Error e
    end.

(** A string without whitespace, '=' or '/': as the value of an option it
    makes one word of the command line and is read back whole. *)
Fixpoint plain (s : string) : bool :=
  match s with
  | EmptyString => true
  | String c s' =>
      negb (Py.is_space c) && negb (Ascii.eqb c "="%char) &&
      negb (Ascii.eqb c "/"%char) && plain s'
  end.

Definition plain_or_none (o : option string) : bool :=
  match o with
  | Some s => plain s
  | None => true
  end.

End Build.

(** A word for [str.split()]: not empty and without whitespace. *)
Fixpoint no_space (s : string) : bool :=
  match s with
  | EmptyString => true
  | String c s' => negb (Py.is_space c) && no_space s'
  end.

Definition is_word (s : string) : bool := Py.truthy s && no_space s.

(** * Properties *)

(** ** Parsing *)

Example split_qstat_line :
  Py.split "620848 -499.50000 qc       myname" = ["620848"; "-499.50000"; "qc"; "myname"].
Proof. reflexivity. Qed.

Example split_blank : Py.split "   " = [].
Proof. reflexivity. Qed.

Example job_name_of_script :
  Py.splitext_root (Py.basename "/home/me/scripts/qc.sh") = "qc".
Proof. reflexivity. Qed.

Example splitext_dotfile : Py.splitext_root ".bashrc" = ".bashrc".
Proof. reflexivity. Qed.

Example job_ids_of_listing :
  qstat_job_ids (List.app qstat_header ["620848 -499.50000 qc me"; ""; "  17 x"]) =
  ["620848"; "17"].
Proof. reflexivity. Qed.

Example job_id_of_report :
  qsub_job_id ["Your job 620848 (qc) has been submitted"] None = Ret (Some "620848").
Proof. reflexivity. Qed.

Example job_id_truncated_report : qsub_job_id ["Your job"] None = Raise IndexError.
Proof. reflexivity. Qed.

Lemma lookup_Qdeljob (m : run_mode) : lookup (globals m) "Qdeljob" = None.
Proof. destruct m; reflexivity. Qed.

Lemma lookup_QdelJob (m : run_mode) : lookup (globals m) "QdelJob" = Some (VDef "QdelJob").
Proof. destruct m; reflexivity. Qed.

Lemma lookup_poll_interval_main (limit test : Z) (it : string) :
  lookup (globals (Main limit test it)) "poll_interval" = Some (VInt 30).
Proof. reflexivity. Qed.

Lemma lookup_poll_interval_imported : lookup (globals Imported) "poll_interval" = None.
Proof. reflexivity. Qed.

Section Facts.

Context {W : Type} (C : Cluster W).

(** *** Qstat *)

Lemma Qstat_list_default (s : St W) :
  Qstat_list C None s =
  let (out, w') := popen C (world s) (qstat_argv C) None in
  (match out with
   | Some lines => Ret (qstat_job_ids lines)
   | None => Raise OSError
   end, launched s (qstat_argv C) None out w').
Proof.
  unfold Qstat_list, os_getlogin, bind, ret, Popen, launched, qstat_argv.
  destruct (popen C (world s) ["qstat"; "-u"; getlogin C] None) as [[lines|] w'];
    reflexivity.
Qed.

Lemma Qstat_njobs_default (s : St W) :
  Qstat_njobs C None s =
  let (out, w') := popen C (world s) (qstat_argv C) None in
  (match out with
   | Some lines => Ret (List.length (qstat_job_ids lines))
   | None => Raise OSError
   end, launched s (qstat_argv C) None out w').
Proof.
  unfold Qstat_njobs, bind. rewrite Qstat_list_default.
  destruct (popen C (world s) (qstat_argv C) None) as [[lines|] w']; reflexivity.
Qed.

Lemma Qstat_hasJob_eq (i : option string) (s : St W) :
  Qstat_hasJob C i s =
  let (out, w') := popen C (world s) (qstat_argv C) None in
  (match out with
   | Some lines => Ret (Py.contains (qstat_job_ids lines) i)
   | None => Raise OSError
   end, launched s (qstat_argv C) None out w').
Proof.
  unfold Qstat_hasJob, bind. rewrite Qstat_list_default.
  destruct (popen C (world s) (qstat_argv C) None) as [[lines|] w']; reflexivity.
Qed.



(** *** QsubScript *)

Lemma qsub_job_id_no_job_line (lines : list string) (i : option string) :
  no_job_line lines -> qsub_job_id lines i = Ret i.
Proof.
  induction 1 as [|l ls Hl _ IH]; simpl; [reflexivity|].
  rewrite Hl. exact IH.
Qed.

Lemma QsubScript_eq (n : string) (wd : option string) (sc : string)
  (a : list string) (s : St W) :
  QsubScript C n wd sc a s =
  let (out, w') := popen C (world s) (qsub_argv n wd sc a) (Some (getcwd C)) in
  (match out with
   | Some lines => qsub_job_id lines None
   | None => Raise OSError
   end, launched s (qsub_argv n wd sc a) (Some (getcwd C)) out w').
Proof.
  unfold QsubScript, os_getcwd, bind, ret, Popen, of_outcome, launched.
  destruct (popen C (world s) (qsub_argv n wd sc a) (Some (getcwd C)))
    as [[lines|] w']; [|reflexivity].
  destruct (qsub_job_id lines None); reflexivity.
Qed.

(** *** QsubJob.isRunning *)

Lemma isRunning_eq (j : QsubJob) (s : St W) :
  isRunning C (j, s) =
  if negb (submitted j) then (Ret false, (j, s))
  else if finished j then (Ret false, (j, s))
  else
    let (out, w') := popen C (world s) (qstat_argv C) None in
    let s' := launched s (qstat_argv C) None out w' in
    match out with
    | Some lines =>
        if Py.contains (qstat_job_ids lines) (job_id j)
        then (Ret true, (j, s'))
        else (Ret false, (set_finished true j, s'))
    | None => (Raise OSError, (j, s'))
    end.
Proof.
  unfold isRunning, bind, self, on_cluster, assign, ret; simpl.
  destruct (submitted j); simpl; [|reflexivity].
  destruct (finished j) eqn:Hf; simpl; [rewrite Hf; reflexivity|].
  rewrite Qstat_hasJob_eq.
  destruct (popen C (world s) (qstat_argv C) None) as [[lines|] w']; simpl;
    [|reflexivity].
  destruct (Py.contains (qstat_job_ids lines) (job_id j)); simpl;
    [rewrite Hf|]; reflexivity.
Qed.

Lemma grows_by_refl (s : St W) : grows_by s s [].
Proof. unfold grows_by. now rewrite app_nil_r. Qed.

Lemma grows_by_trans (s1 s2 s3 : St W) (d1 d2 : list event) :
  grows_by s1 s2 d1 -> grows_by s2 s3 d2 -> grows_by s1 s3 (d1 ++ d2).
Proof. unfold grows_by. intros H1 H2. now rewrite H2, H1, app_assoc. Qed.

Lemma grows_by_launched (s : St W) argv cwd out w' :
  grows_by s (launched s argv cwd out w') [EvPopen argv cwd out].
Proof. reflexivity. Qed.

Lemma is_poll_qstat (out : option (list string)) :
  is_poll (EvPopen (qstat_argv C) None out) = true.
Proof. reflexivity. Qed.

Lemma is_poll_not_launch (tool : string) (e : event) :
  String.eqb "qstat" tool = false -> is_poll e = true -> is_launch tool e = false.
Proof.
  destruct e as [[|a argv] cwd out|z]; simpl; try reflexivity.
  intros Ht Ha. apply String.eqb_eq in Ha. subst a. exact Ht.
Qed.

Lemma polled_refl (s : St W) : polled s s.
Proof. exists []. split; [apply grows_by_refl|constructor]. Qed.

Lemma polled_trans (s1 s2 s3 : St W) : polled s1 s2 -> polled s2 s3 -> polled s1 s3.
Proof.
  intros (d1 & H1 & P1) (d2 & H2 & P2). exists (d1 ++ d2)%list.
  split; [now apply grows_by_trans with s2|now apply Forall_app].
Qed.

Lemma polled_qstat (s : St W) (out : option (list string)) (w' : W) :
  polled s (launched s (qstat_argv C) None out w').
Proof. eexists. split; [apply grows_by_launched|]. repeat constructor. Qed.

Lemma polled_sleep (s s' : St W) (z : Z) (o : outcome unit) :
  time_sleep C z s = (o, s') -> o = Ret tt /\ polled s s'.
Proof.
  unfold time_sleep. intros [= <- <-]. split; [reflexivity|].
  exists [EvSleep z]. split; [reflexivity|repeat constructor].
Qed.

Lemma polled_no_launch (tool : string) (s s' : St W) :
  String.eqb "qstat" tool = false -> polled s s' ->
  exists d, grows_by s s' d /\ Forall (fun e => is_launch tool e = false) d.
Proof.
  intros Ht (d & Hd & Hp). exists d. split; [exact Hd|].
  eapply Forall_impl; [|exact Hp]. intros e. now apply is_poll_not_launch.
Qed.

Lemma kept_refl (j : QsubJob) : kept j j.
Proof. unfold kept. tauto. Qed.

Lemma kept_trans (j1 j2 j3 : QsubJob) : kept j1 j2 -> kept j2 j3 -> kept j1 j3.
Proof. unfold kept. intuition congruence. Qed.

Lemma kept_set_finished (b : bool) (j : QsubJob) : kept j (set_finished b j).
Proof. unfold kept. simpl. tauto. Qed.

Lemma kept_reset_flags (j : QsubJob) : kept j (reset_flags j).
Proof. unfold kept. simpl. tauto. Qed.

(** Whatever its outcome, [isRunning] does nothing on the cluster but at most
    one queue listing, and touches no attribute but [finished], which it
    sets only on a submitted job and when answering false. *)
Lemma isRunning_polls (j j' : QsubJob) (s s' : St W) (o : outcome bool) :
  isRunning C (j, s) = (o, (j', s')) ->
  (j' = j \/ (j' = set_finished true j /\ submitted j = true /\ o = Ret false)) /\
  polled s s'.
Proof.
  rewrite isRunning_eq.
  destruct (submitted j); simpl.
  2:{ intros [= <- <- <-]. split; [now left|apply polled_refl]. }
  destruct (finished j).
  { intros [= <- <- <-]. split; [now left|apply polled_refl]. }
  destruct (popen C (world s) (qstat_argv C) None) as [out w'].
  pose proof (polled_qstat s out w') as Hd.
  destruct out as [lines|].
  - destruct (Py.contains (qstat_job_ids lines) (job_id j));
      intros [= <- <- <-]; (split; [auto|exact Hd]).
  - intros [= <- <- <-]. split; [auto|exact Hd].
Qed.


(** An answer [true] comes from a submitted, unfinished job that the queue
    lists, and leaves the job as it was. *)
Lemma isRunning_true (j j' : QsubJob) (s s' : St W) :
  isRunning C (j, s) = (Ret true, (j', s')) ->
  j' = j /\ submitted j = true /\ finished j = false.
Proof.
  rewrite isRunning_eq.
  destruct (submitted j); simpl; [|discriminate].
  destruct (finished j); [discriminate|].
  destruct (popen C (world s) (qstat_argv C) None) as [[lines|] w'];
    [|discriminate].
  destruct (Py.contains (qstat_job_ids lines) (job_id j)); [|discriminate].
  intros [= <- <-]. auto.
Qed.

(** *** QsubJob.terminate *)

Lemma terminate_eq (m : run_mode) (j : QsubJob) (s : St W) :
  terminate C (globals m) (j, s) =
  match isRunning C (j, s) with
  | (Ret true, js') => (Ret tt, js')
  | (Ret false, js') => (Raise (NameError "Qdeljob"), js')
  | (Raise e, js') => (Raise e, js')
  | (Timeout, js') => (Timeout, js')
  end.
Proof.
  unfold terminate, bind.
  destruct (isRunning C (j, s)) as [[[|]| |] js']; simpl; try reflexivity.
  unfold on_cluster, load_global. rewrite lookup_Qdeljob.
  destruct js'; reflexivity.
Qed.

(** C8. When [isRunning()] answers false, [terminate()] raises
    [NameError] on the name [Qdeljob] (the module only binds [QdelJob]):
    nothing is launched beyond the queue listing of [isRunning], in
    particular no qdel, and the [terminated] flag keeps its value. *)
Theorem terminate_raises_NameError (m : run_mode) (j j' : QsubJob) (s s' : St W) :
  isRunning C (j, s) = (Ret false, (j', s')) ->
  terminate C (globals m) (j, s) = (Raise (NameError "Qdeljob"), (j', s')) /\
  terminated j' = terminated j /\
  exists d, grows_by s s' d /\ Forall (fun e => is_launch "qdel" e = false) d.
Proof.
  intros H. split; [rewrite terminate_eq, H; reflexivity|].
  destruct (isRunning_polls _ _ _ _ _ H) as [Hj Hp].
  split; [destruct Hj as [->|(-> & _)]; reflexivity|].
  now apply polled_no_launch.
Qed.

(** *** QsubJob.start *)

(** What [start] leaves in [self] once the scheduler has given the id [i]. *)
Lemma start_noop (fuel : nat) (j : QsubJob) (s : St W) :
  negb (submitted j) && negb (finished j) = false ->
  start C fuel (j, s) = (Ret (job_id j), (j, s)).
Proof.
  intros H. unfold start, bind, self, ret; simpl. rewrite H. reflexivity.
Qed.

Lemma start_eq (fuel : nat) (j : QsubJob) (s : St W) :
  submitted j = false -> finished j = false ->
  start C fuel (j, s) =
  let (out, w1) := popen C (world s) (qsub_of j) (Some (getcwd C)) in
  let s1 := launched s (qsub_of j) (Some (getcwd C)) out w1 in
  match out with
  | None => (Raise OSError, (j, s1))
  | Some lines =>
      match qsub_job_id lines None with
      | Ret (Some i) =>
          let log := name j ++ ".o" ++ i in
          let j1 := set_log (Some log) (set_submitted true (set_job_id (Some i) j)) in
          match wait_started C fuel (Some i) log s1 with
          | (Ret _, s2) => (Ret (Some i), (j1, s2))
          | (Raise e, s2) => (Raise e, (j1, s2))
          | (Timeout, s2) => (Timeout, (j1, s2))
          end
      | Ret None => (Raise TypeError, (set_submitted true (set_job_id None j), s1))
      | Raise e => (Raise e, (j, s1))
      | Timeout => (Timeout, (j, s1))
      end
  end.
Proof.
  intros Hs Hf.
  unfold start, bind, self, ret, on_cluster, assign, raise; simpl.
  rewrite Hs, Hf; simpl. rewrite QsubScript_eq. fold (qsub_of j).
  destruct (popen C (world s) (qsub_of j) (Some (getcwd C))) as [[lines|] w1];
    simpl; [|reflexivity].
  destruct (qsub_job_id lines None) as [[i|]| |]; simpl; try reflexivity.
  match goal with
  | |- context [wait_started C fuel ?a ?b ?c] =>
      destruct (wait_started C fuel a b c) as [[[]| |] s2]; reflexivity
  end.
Qed.

(** C3 (amended). When the qsub report has no line starting 'Your job',
    [QsubScript] returns [None] without raising, and [start] on a job not
    yet submitted raises [TypeError] right after the submission, with no
    identifier and no log name recorded. *)
Theorem submission_without_id (fuel : nat) (j : QsubJob) (s : St W)
  (lines : list string) (w' : W) :
  popen C (world s) (qsub_of j) (Some (getcwd C)) = (Some lines, w') ->
  no_job_line lines ->
  let s' := launched s (qsub_of j) (Some (getcwd C)) (Some lines) w' in
  QsubScript C (name j) (working_dir j) (script j) (args j) s = (Ret None, s') /\
  (submitted j = false -> finished j = false ->
   exists j', start C fuel (j, s) = (Raise TypeError, (j', s')) /\
              job_id j' = None /\ log j' = log j).
Proof.
  intros Hp Hl s'. split.
  - rewrite QsubScript_eq. fold (qsub_of j). rewrite Hp.
    rewrite (qsub_job_id_no_job_line _ _ Hl). reflexivity.
  - intros Hs Hf. rewrite (start_eq _ _ _ Hs Hf), Hp.
    rewrite (qsub_job_id_no_job_line _ _ Hl).
    eexists. split; [reflexivity|]. split; reflexivity.
Qed.

(** C6 (amended). A queue listing without any job line is taken as an empty
    queue: [Qstat.list] returns the empty list and [isRunning] marks a
    submitted job finished and answers false.  Only when qstat cannot be
    launched at all does the error propagate and leave the job as it was. *)
Theorem empty_listing_means_finished (j : QsubJob) (s : St W)
  (out : option (list string)) (w' : W) :
  submitted j = true -> finished j = false ->
  popen C (world s) (qstat_argv C) None = (out, w') ->
  let s' := launched s (qstat_argv C) None out w' in
  (forall lines, out = Some lines -> qstat_job_ids lines = [] ->
     Qstat_list C None s = (Ret [], s') /\
     isRunning C (j, s) = (Ret false, (set_finished true j, s'))) /\
  (out = None -> isRunning C (j, s) = (Raise OSError, (j, s'))).
Proof.
  intros Hs Hf Hp s'. split.
  - intros lines -> Hl. split.
    + rewrite Qstat_list_default, Hp, Hl. reflexivity.
    + rewrite isRunning_eq, Hs, Hf, Hp, Hl; simpl.
      destruct (job_id j); reflexivity.
  - intros ->. rewrite isRunning_eq, Hs, Hf, Hp. reflexivity.
Qed.

(** *** Waiting loops of QsubJob *)

Lemma polled_after_sleep (s : St W) (z : Z) :
  polled s (mkSt (sleep C (world s) z) (trace s ++ [EvSleep z])).
Proof. exists [EvSleep z]. split; [reflexivity|repeat constructor]. Qed.

Lemma wait_started_polls (fuel : nat) :
  forall (i : option string) (lg : string) (s s' : St W) (o : outcome unit),
    wait_started C fuel i lg s = (o, s') -> polled s s'.
Proof.
  induction fuel as [|fuel IH]; intros i lg s s' o; cbn [wait_started];
    unfold bind at 1; rewrite Qstat_hasJob_eq;
    destruct (popen C (world s) (qstat_argv C) None) as [out w'];
    pose proof (polled_qstat s out w') as Hq;
    (destruct out as [lines|]; [|intros [= <- <-]; exact Hq]);
    (destruct (Py.contains (qstat_job_ids lines) i); [intros [= <- <-]; exact Hq|]);
    unfold bind at 1, os_path_exists at 1;
    match goal with
    | |- context [path_exists C ?w ?l] => destruct (path_exists C w l)
    end; try (intros [= <- <-]; exact Hq);
    unfold bind at 1, time_sleep at 1.
  - intros [= <- <-]. eapply polled_trans; [exact Hq|apply polled_after_sleep].
  - intros H. apply IH in H.
    eapply polled_trans; [exact Hq|].
    eapply polled_trans; [apply polled_after_sleep|exact H].
Qed.

Lemma wait_stopped_polls (fuel : nat) :
  forall (j j' : QsubJob) (s s' : St W) (o : outcome unit),
    wait_stopped C fuel (j, s) = (o, (j', s')) ->
    (j' = j \/ (j' = set_finished true j /\ submitted j = true)) /\ polled s s'.
Proof.
  induction fuel as [|fuel IH]; intros j j' s s' o; cbn [wait_stopped];
    unfold bind at 1;
    destruct (isRunning C (j, s)) as [[[|]| |] [j1 s1]] eqn:Hr;
    pose proof (isRunning_polls _ _ _ _ _ Hr) as [Hj Hp];
    try (intros [= <- <- <-]; split; [intuition|exact Hp]);
    apply isRunning_true in Hr; destruct Hr as (-> & _);
    unfold bind at 1, on_cluster at 1, time_sleep at 1; simpl.
  - intros [= <- <- <-]. split; [now left|].
    eapply polled_trans; [exact Hp|apply polled_after_sleep].
  - intros H. apply IH in H. destruct H as [H1 H2]. split; [exact H1|].
    eapply polled_trans; [exact Hp|].
    eapply polled_trans; [apply polled_after_sleep|exact H2].
Qed.

Lemma terminate_polls (m : run_mode) (j j' : QsubJob) (s s' : St W) (o : outcome unit) :
  terminate C (globals m) (j, s) = (o, (j', s')) ->
  (j' = j \/ (j' = set_finished true j /\ submitted j = true)) /\ polled s s'.
Proof.
  rewrite terminate_eq.
  destruct (isRunning C (j, s)) as [o1 [j1 s1]] eqn:Hr.
  pose proof (isRunning_polls _ _ _ _ _ Hr) as [Hj Hp].
  destruct o1 as [[|]| |]; intros [= <- <- <-]; (split; [intuition|exact Hp]).
Qed.

(** A job that [terminate] finds running is left as it is: the call returns
    without having asked for anything. *)
Lemma terminate_returns (m : run_mode) (j j' : QsubJob) (s s' : St W) :
  terminate C (globals m) (j, s) = (Ret tt, (j', s')) ->
  j' = j /\ submitted j = true /\ finished j = false.
Proof.
  rewrite terminate_eq.
  destruct (isRunning C (j, s)) as [[[|]| |] [j1 s1]] eqn:Hr; try discriminate.
  intros [= <- <-]. now apply isRunning_true in Hr.
Qed.

(** *** QsubJob.resubmit *)

Lemma resubmit_eq (g : namespace) (fuel : nat) (j : QsubJob) (s : St W) :
  resubmit C g fuel (j, s) =
  match resubmit_stop C g fuel (j, s) with
  | (Ret _, (j1, s1)) => start C fuel (reset_flags j1, s1)
  | (Raise e, js) => (Raise e, js)
  | (Timeout, js) => (Timeout, js)
  end.
Proof.
  unfold resubmit, resubmit_stop, bind.
  destruct (isRunning C (j, s)) as [[[|]| |] [j1 s1]]; try reflexivity.
  - destruct (terminate C g (j1, s1)) as [[[]| |] [j2 s2]]; try reflexivity.
    destruct (wait_stopped C fuel (j2, s2)) as [[[]| |] [j3 s3]]; reflexivity.
Qed.

Lemma resubmit_stop_polls (m : run_mode) (fuel : nat) (j j' : QsubJob)
  (s s' : St W) (o : outcome unit) :
  resubmit_stop C (globals m) fuel (j, s) = (o, (j', s')) ->
  (j' = j \/ (j' = set_finished true j /\ submitted j = true)) /\ polled s s'.
Proof.
  unfold resubmit_stop, bind.
  destruct (isRunning C (j, s)) as [o1 [j1 s1]] eqn:Hr.
  pose proof (isRunning_polls _ _ _ _ _ Hr) as [Hj Hp].
  destruct o1 as [[|]| |];
    try (intros [= <- <- <-]; split; [intuition|exact Hp]).
  apply isRunning_true in Hr. destruct Hr as (-> & _).
  destruct (terminate C (globals m) (j, s1)) as [o2 [j2 s2]] eqn:Ht.
  pose proof (terminate_polls _ _ _ _ _ _ Ht) as [Hj2 Hp2].
  pose proof (polled_trans _ _ _ Hp Hp2) as Hp12.
  destruct o2 as [[]| |];
    try (intros [= <- <- <-]; split; [exact Hj2|exact Hp12]).
  apply terminate_returns in Ht. destruct Ht as (-> & _).
  intros H. apply wait_stopped_polls in H. destruct H as [H1 H2].
  split; [exact H1|]. now apply polled_trans with s2.
Qed.

(** *** Shape of a submission *)

Lemma qsub_launches_app (d1 d2 : list event) :
  qsub_launches (d1 ++ d2) = (qsub_launches d1 ++ qsub_launches d2)%list.
Proof. unfold qsub_launches. apply flat_map_app. Qed.

Lemma qsub_launches_polls (d : list event) :
  Forall (fun e => is_poll e = true) d -> qsub_launches d = [].
Proof.
  induction 1 as [|e d He _ IH]; [reflexivity|].
  unfold qsub_launches in *. cbn [flat_map]. rewrite IH, app_nil_r.
  destruct e as [argv cwd out|z]; [|reflexivity].
  rewrite (is_poll_not_launch "qsub" (EvPopen argv cwd out) eq_refl He).
  reflexivity.
Qed.

Lemma qsub_launches_qsub (j : QsubJob) (cwd : option string) (out : option (list string)) :
  qsub_launches [EvPopen (qsub_of j) cwd out] = [qsub_of j].
Proof.
  unfold qsub_of, qsub_argv.
  destruct (working_dir j) as [d|]; [destruct (Py.truthy d)|]; reflexivity.
Qed.

Lemma qsub_of_kept (j j' : QsubJob) : kept j j' -> qsub_of j' = qsub_of j.
Proof. unfold kept, qsub_of. intros (-> & -> & -> & -> & _). reflexivity. Qed.

(** [start] on a job neither submitted nor finished: one qsub launch for
    the task of the job, then polling; if it returns, the job carries the
    identifier read from the report and is submitted. *)
Lemma start_shape (fuel : nat) (j j' : QsubJob) (s s' : St W)
  (o : outcome (option string)) :
  submitted j = false -> finished j = false ->
  start C fuel (j, s) = (o, (j', s')) ->
  kept j j' /\ finished j' = false /\
  exists out w1,
    popen C (world s) (qsub_of j) (Some (getcwd C)) = (out, w1) /\
    polled (launched s (qsub_of j) (Some (getcwd C)) out w1) s' /\
    forall r, o = Ret r ->
      exists lines i,
        out = Some lines /\ qsub_job_id lines None = Ret (Some i) /\
        r = Some i /\ job_id j' = Some i /\ submitted j' = true.
Proof.
  intros Hs Hf. rewrite (start_eq _ _ _ Hs Hf).
  destruct (popen C (world s) (qsub_of j) (Some (getcwd C))) as [out w1].
  set (s1 := launched s (qsub_of j) (Some (getcwd C)) out w1).
  assert (Hk1 : kept j j) by apply kept_refl.
  assert (Hk2 : kept j (set_submitted true (set_job_id None j)))
    by (unfold kept; simpl; tauto).
  destruct out as [lines|].
  2:{ intros [= <- <- <-]. repeat split; try assumption; try apply Hk1.
      exists None, w1. repeat split; [apply polled_refl|discriminate]. }
  destruct (qsub_job_id lines None) as [[i|]| |] eqn:Hid.
  - cbv zeta.
    destruct (wait_started C fuel (Some i) (name j ++ ".o" ++ i) s1)
      as [o2 s2] eqn:Hw.
    pose proof (wait_started_polls _ _ _ _ _ _ Hw) as Hp.
    assert (Hk3 : kept j (set_log (Some (name j ++ ".o" ++ i))
                            (set_submitted true (set_job_id (Some i) j))))
      by (unfold kept; simpl; tauto).
    destruct o2 as [[]| |]; intros [= <- <- <-];
      (split; [exact Hk3|]); (split; [exact Hf|]);
      exists (Some lines), w1; (split; [reflexivity|]); (split; [exact Hp|]);
      try discriminate.
    intros r [= <-]. exists lines, i. repeat split. exact Hid.
  - intros [= <- <- <-]. split; [exact Hk2|]. split; [exact Hf|].
    exists (Some lines), w1. repeat split; [apply polled_refl|discriminate].
  - intros [= <- <- <-]. split; [exact Hk1|]. split; [exact Hf|].
    exists (Some lines), w1. repeat split; [apply polled_refl|discriminate].
  - intros [= <- <- <-]. split; [exact Hk1|]. split; [exact Hf|].
    exists (Some lines), w1. repeat split; [apply polled_refl|discriminate].
Qed.

Lemma start_kept (fuel : nat) (j j' : QsubJob) (s s' : St W)
  (o : outcome (option string)) :
  start C fuel (j, s) = (o, (j', s')) -> kept j j'.
Proof.
  destruct (negb (submitted j) && negb (finished j)) eqn:Hc.
  - apply andb_prop in Hc. destruct Hc as [Hs Hf].
    apply negb_true_iff in Hs, Hf. intros H.
    now destruct (start_shape _ _ _ _ _ _ Hs Hf H).
  - rewrite (start_noop _ _ _ Hc). intros [= <- <- <-]. apply kept_refl.
Qed.

Lemma resubmit_kept (m : run_mode) (fuel : nat) (j j' : QsubJob) (s s' : St W)
  (o : outcome (option string)) :
  resubmit C (globals m) fuel (j, s) = (o, (j', s')) -> kept j j'.
Proof.
  rewrite resubmit_eq.
  destruct (resubmit_stop C (globals m) fuel (j, s)) as [o1 [j1 s1]] eqn:H1.
  assert (Hk : kept j j1).
  { destruct (resubmit_stop_polls _ _ _ _ _ _ _ H1) as [[->|(-> & _)] _];
      [apply kept_refl|apply kept_set_finished]. }
  destruct o1 as [[]| |]; try (intros [= <- <- <-]; exact Hk).
  intros H. apply start_kept in H.
  eapply kept_trans; [exact Hk|].
  eapply kept_trans; [apply kept_reset_flags|exact H].
Qed.


(** *** Histories of a job *)

Lemma QsubJob_init_eq (n : string) (d : option string) (sc : string)
  (a : list string) (s s' : St W) (j : QsubJob) :
  QsubJob_init C n d sc a s = (Ret j, s') ->
  j = mkJob n d sc a None None false false false (getcwd C) /\ s' = s.
Proof. unfold QsubJob_init, os_getcwd, bind, ret. intros [= <- <-]. auto. Qed.

Lemma resubmit_returns (m : run_mode) (fuel : nat) (j j' : QsubJob)
  (s s' : St W) (r : option string) :
  resubmit C (globals m) fuel (j, s) = (Ret r, (j', s')) ->
  finished j' = false /\ submitted j' = true /\ job_id j' = r /\ r <> None.
Proof.
  rewrite resubmit_eq.
  destruct (resubmit_stop C (globals m) fuel (j, s)) as [[[]| |] [j1 s1]];
    try discriminate.
  intros H. apply start_shape in H; try reflexivity.
  destruct H as (_ & Hf & out & w1 & _ & _ & Hr).
  destruct (Hr r eq_refl) as (lines & i & _ & _ & -> & Hi & Hs).
  repeat split; try assumption. discriminate.
Qed.

Lemma perform_returns_inv (m : run_mode) (op : operation) (j j' : QsubJob)
  (s s' : St W) :
  perform C (globals m) op (j, s) = (Ret tt, (j', s')) ->
  id_iff_submitted j /\ (finished j = true -> submitted j = true) ->
  id_iff_submitted j' /\ (finished j' = true -> submitted j' = true).
Proof.
  unfold id_iff_submitted.
  destruct op as [fuel| |fuel|]; unfold perform, ignore, bind.
  - destruct (start C fuel (j, s)) as [[r| |] [j1 s1]] eqn:H1; try discriminate.
    intros [= <- <-] [Hi Hf].
    destruct (negb (submitted j) && negb (finished j)) eqn:Hc.
    + apply andb_prop in Hc. destruct Hc as [Hs Hf0].
      apply negb_true_iff in Hs, Hf0.
      destruct (start_shape _ _ _ _ _ _ Hs Hf0 H1) as (_ & Hf1 & out & w1 & _ & _ & Hr).
      destruct (Hr r eq_refl) as (lines & i & _ & _ & _ & Hid & Hsub).
      rewrite Hid, Hsub, Hf1. repeat split; auto; discriminate.
    + rewrite (start_noop _ _ _ Hc) in H1. injection H1 as _ <- _. now split.
  - intros H. apply terminate_returns in H. destruct H as (-> & _). auto.
  - destruct (resubmit C (globals m) fuel (j, s)) as [[r| |] [j1 s1]] eqn:H1;
      try discriminate.
    intros [= <- <-] _. apply resubmit_returns in H1.
    destruct H1 as (Hf & Hs & Hid & Hr). rewrite Hid, Hs, Hf.
    repeat split; auto; discriminate.
  - destruct (isRunning C (j, s)) as [[r| |] [j1 s1]] eqn:H1; try discriminate.
    intros [= <- <-] [Hi Hf].
    destruct (isRunning_polls _ _ _ _ _ H1) as [[->|(-> & Hs & _)] _]; simpl; auto.
Qed.

(** C4 (amended). After the creation of a job and any sequence of [start],
    [terminate], [resubmit] and [isRunning] calls that all returned, in any
    states of the cluster, the identifier is set if and only if the
    [submitted] flag is. *)
Theorem id_iff_submitted_when_returned (m : run_mode) (j : QsubJob) :
  reached C m true j -> id_iff_submitted j.
Proof.
  intros H.
  enough (Hinv : id_iff_submitted j /\ (finished j = true -> submitted j = true))
    by apply Hinv.
  induction H as [n d sc a s s' j Hnew|j j' op s s' o _ IH Hop Hret].
  - apply QsubJob_init_eq in Hnew. destruct Hnew as [-> _].
    unfold id_iff_submitted; simpl. repeat split; intros; try discriminate.
    contradiction.
  - specialize (Hret eq_refl). destruct o as [[]| |]; try discriminate.
    exact (perform_returns_inv _ _ _ _ _ _ Hop IH).
Qed.



(** C7 (amended). [resubmit], whatever its outcome, leaves the name, the
    working directory, the script and the arguments of the job as they were
    and launches at most one submission, the command line of which is the
    one of the job; when it returns, it has launched exactly that one and the
    job carries the identifier read from its report. *)
Theorem resubmit_same_task (m : run_mode) (fuel : nat) (j j' : QsubJob)
  (s s' : St W) (o : outcome (option string)) :
  resubmit C (globals m) fuel (j, s) = (o, (j', s')) ->
  name j' = name j /\ working_dir j' = working_dir j /\
  script j' = script j /\ args j' = args j /\
  exists d, grows_by s s' d /\
    (qsub_launches d = [] \/ qsub_launches d = [qsub_of j]) /\
    forall r, o = Ret r ->
      qsub_launches d = [qsub_of j] /\
      exists lines i,
        In (EvPopen (qsub_of j) (Some (getcwd C)) (Some lines)) d /\
        qsub_job_id lines None = Ret (Some i) /\
        r = Some i /\ job_id j' = Some i /\ submitted j' = true.
Proof.
  intros H. pose proof (resubmit_kept _ _ _ _ _ _ _ H) as Hk.
  destruct Hk as (Hn & Hw & Hsc & Ha & _). repeat (split; [assumption|]).
  rewrite resubmit_eq in H.
  destruct (resubmit_stop C (globals m) fuel (j, s)) as [o1 [j1 s1]] eqn:H1.
  destruct (resubmit_stop_polls _ _ _ _ _ _ _ H1) as [Hj1 (d1 & Hd1 & Hp1)].
  assert (Hq : qsub_of (reset_flags j1) = qsub_of j).
  { apply qsub_of_kept. eapply kept_trans; [|apply kept_reset_flags].
    destruct Hj1 as [->|(-> & _)]; [apply kept_refl|apply kept_set_finished]. }
  destruct o1 as [[]| |].
  2,3: injection H as <- <- <-; exists d1; split; [exact Hd1|];
       (split; [left; now apply qsub_launches_polls|discriminate]).
  apply start_shape in H; try reflexivity.
  destruct H as (_ & _ & out & w1 & Hpo & (d2 & Hd2 & Hp2) & Hr).
  rewrite Hq in *.
  set (e := EvPopen (qsub_of j) (Some (getcwd C)) out) in *.
  assert (Hl : qsub_launches (d1 ++ e :: d2) = [qsub_of j]).
  { change (e :: d2) with ([e] ++ d2)%list.
    rewrite !qsub_launches_app, (qsub_launches_polls _ Hp1),
      (qsub_launches_polls _ Hp2).
    unfold e. rewrite qsub_launches_qsub. reflexivity. }
  exists (d1 ++ e :: d2)%list. split; [|split].
  - change (e :: d2) with ([e] ++ d2)%list.
    eapply grows_by_trans; [exact Hd1|].
    eapply grows_by_trans; [apply grows_by_launched|exact Hd2].
  - now right.
  - intros r Hor. split; [exact Hl|].
    destruct (Hr r Hor) as (lines & i & -> & Hid & -> & Hji & Hsub).
    exists lines, i. split; [apply in_or_app; right; now left|].
    repeat split; assumption.
Qed.

(** *** The poll interval *)

Lemma sleep_poll_interval_unbound (g : namespace) (s : St W) :
  lookup g "poll_interval" = None ->
  sleep_poll_interval C g s = (Raise (NameError "poll_interval"), s).
Proof.
  intros H. unfold sleep_poll_interval, bind, load_global. rewrite H. reflexivity.
Qed.

Lemma wait_for_space_unbound (g : namespace) (fuel : nat) (max : Z)
  (s s1 : St W) (n : nat) :
  lookup g "poll_interval" = None ->
  Qstat_njobs C None s = (Ret n, s1) -> (Z.of_nat n >= max)%Z ->
  wait_for_space C g fuel max s = (Raise (NameError "poll_interval"), s1).
Proof.
  intros Hg Hn Hmax.
  assert (Hge : (Z.of_nat n >=? max)%Z = true) by (apply Z.geb_le; lia).
  destruct fuel; simpl; unfold bind; rewrite Hn, Hge;
    rewrite (sleep_poll_interval_unbound _ _ Hg); reflexivity.
Qed.

Lemma wait_for_jobs_unbound (g : namespace) (fuel : nat)
  (running unfinished : list QsubJob) (s s1 : St W) :
  lookup g "poll_interval" = None ->
  running <> [] ->
  UpdateRunningJobs C running s = (Ret unfinished, s1) ->
  wait_for_jobs C g fuel running s = (Raise (NameError "poll_interval"), s1).
Proof.
  intros Hg Hr Hu. destruct running as [|job rest]; [contradiction|].
  destruct fuel; cbn [wait_for_jobs]; unfold bind; rewrite Hu;
    rewrite (sleep_poll_interval_unbound _ _ Hg); reflexivity.
Qed.

Lemma wait_for_jobs_unbound_no_return (g : namespace) (fuel : nat)
  (running : list QsubJob) (s : St W) :
  lookup g "poll_interval" = None ->
  running <> [] ->
  returned (fst (wait_for_jobs C g fuel running s)) = false.
Proof.
  intros Hg Hr.
  destruct (UpdateRunningJobs C running s) as [[u| |] s1] eqn:Hu.
  - rewrite (wait_for_jobs_unbound _ _ _ _ _ _ Hg Hr Hu). reflexivity.
  - destruct running as [|job rest]; [contradiction|].
    destruct fuel; cbn [wait_for_jobs]; unfold bind; rewrite Hu; reflexivity.
  - destruct running as [|job rest]; [contradiction|].
    destruct fuel; cbn [wait_for_jobs]; unfold bind; rewrite Hu; reflexivity.
Qed.

(** The jobs handed to the final wait are not all gone when anything was
    submitted: the last job started is appended after the last refresh. *)
Lemma submit_all_nonempty (g : namespace) (fuel : nat) (sc jn : string)
  (wd : option string) (max : Z) (run_data : list (list string)) :
  forall (running out : list QsubJob) (s s' : St W),
    running <> [] \/ run_data <> [] ->
    submit_all C g fuel sc jn wd max run_data running s = (Ret out, s') ->
    out <> [].
Proof.
  induction run_data as [|data rest IH]; intros running out s s' Hne.
  - simpl. intros [= <- <-]. destruct Hne as [H|H]; [exact H|contradiction].
  - cbn [submit_all]. unfold bind at 1.
    destruct (UpdateRunningJobs C running s) as [[u| |] s1]; try discriminate.
    unfold bind at 1.
    destruct (wait_for_space C g fuel max s1) as [[[]| |] s2]; try discriminate.
    unfold bind at 1.
    destruct (QsubJob_init C jn wd sc data s2) as [[job| |] s3]; try discriminate.
    unfold bind at 1.
    destruct (call (start C fuel) job s3) as [[r| |] s4]; try discriminate.
    apply IH. left. destruct u; discriminate.
Qed.

(** C9. With [poll_interval] not bound in the globals of the module (the
    module was imported: the name is assigned in the [__main__] block only),
    [RunPipeline] raises [NameError] where it would sleep on that interval,
    the state being the one the queue listing before it left: in any round of
    the submission loop in which the queue is found full, and in the final
    wait when a job was submitted and the refresh of the running jobs
    returned.  Hence the call returns only for an empty batch. *)
Theorem poll_interval_NameError (g : namespace) (fuel : nat) (sc : string)
  (wd : option string) (max : Z) :
  lookup g "poll_interval" = None ->
  (forall (data : list string) (rest : list (list string))
          (running unfinished : list QsubJob) (s s1 s2 : St W) (n : nat),
     UpdateRunningJobs C running s = (Ret unfinished, s1) ->
     Qstat_njobs C None s1 = (Ret n, s2) -> (Z.of_nat n >= max)%Z ->
     submit_all C g fuel sc (job_name_of sc) wd max (data :: rest) running s =
     (Raise (NameError "poll_interval"), s2)) /\
  (forall (run_data : list (list string))
          (running unfinished : list QsubJob) (s s1 s2 : St W),
     run_data <> [] ->
     submit_all C g fuel sc (job_name_of sc) wd max run_data [] s = (Ret running, s1) ->
     UpdateRunningJobs C running s1 = (Ret unfinished, s2) ->
     RunPipeline C g fuel sc run_data wd max s =
     (Raise (NameError "poll_interval"), s2)) /\
  (forall (run_data : list (list string)) (s : St W),
     returned (fst (RunPipeline C g fuel sc run_data wd max s)) = true ->
     run_data = []).
Proof.
  intros Hg. split; [|split].
  - intros data rest running unfinished s s1 s2 n Hu Hn Hmax.
    cbn [submit_all]. unfold bind at 1. rewrite Hu.
    unfold bind at 1. rewrite (wait_for_space_unbound _ _ _ _ _ _ Hg Hn Hmax).
    reflexivity.
  - intros run_data running unfinished s s1 s2 Hd Hs Hu.
    unfold RunPipeline, bind. rewrite Hs.
    apply wait_for_jobs_unbound with (unfinished := unfinished); try assumption.
    eapply submit_all_nonempty; [|exact Hs]. now right.
  - intros run_data s. unfold RunPipeline, bind.
    destruct (submit_all C g fuel sc (job_name_of sc) wd max run_data [] s)
      as [[out| |] s1] eqn:Hs; try discriminate.
    destruct run_data as [|data rest]; [reflexivity|].
    assert (Hout : out <> []).
    { eapply submit_all_nonempty; [|exact Hs]. right. discriminate. }
    rewrite (wait_for_jobs_unbound_no_return _ fuel _ s1 Hg Hout). discriminate.
Qed.

(** *** Admission *)

Lemma gated_after_weaken (max : Z) (R R' : Prop) (d : list event) :
  (R -> R') -> gated_after C max R d -> gated_after C max R' d.
Proof. destruct d; simpl; intuition. Qed.

Lemma gated_after_polls (max : Z) (d : list event) :
  Forall (fun e => is_poll e = true) d -> forall R, gated_after C max R d.
Proof.
  induction 1 as [|e d He _ IH]; intros R; simpl; [exact I|].
  split; [|apply IH].
  intros Hq. rewrite (is_poll_not_launch "qsub" e eq_refl He) in Hq. discriminate.
Qed.

Lemma gated_after_app (max : Z) (d1 d2 : list event) :
  forall R, gated_after C max R d1 -> gated_after C max False d2 ->
            gated_after C max R (d1 ++ d2).
Proof.
  induction d1 as [|e d1 IH]; intros R H1 H2; simpl.
  - eapply gated_after_weaken; [|exact H2]. contradiction.
  - destruct H1 as [H1 H1']. split; [exact H1|]. now apply IH.
Qed.

Lemma gated_after_spec (max : Z) (d : list event) :
  forall R, gated_after C max R d ->
  forall pre e post, d = (pre ++ e :: post)%list -> is_launch "qsub" e = true ->
    (pre = [] /\ R) \/ exists pre' q, pre = (pre' ++ [q])%list /\ room C max q.
Proof.
  induction d as [|x d IH]; intros R H pre e post E Hq.
  - destruct pre; discriminate.
  - destruct H as [H H']. destruct pre as [|y pre]; simpl in E.
    + injection E as -> ->. left. split; [reflexivity|now apply H].
    + injection E as -> ->. right.
      destruct (IH _ H' pre e post eq_refl Hq) as [[-> Hr]|(pre' & q & -> & Hr)].
      * exists [], y. now split.
      * exists (y :: pre'), q. now split.
Qed.

Lemma UpdateRunningJobs_polls (running : list QsubJob) :
  forall (s s' : St W) (o : outcome (list QsubJob)),
    UpdateRunningJobs C running s = (o, s') -> polled s s'.
Proof.
  induction running as [|job rest IH]; intros s s' o; cbn [UpdateRunningJobs].
  - intros [= <- <-]. apply polled_refl.
  - unfold bind at 1, call.
    destruct (isRunning C (job, s)) as [o1 [j1 s1]] eqn:Hr.
    apply isRunning_polls in Hr. destruct Hr as [_ Hp].
    destruct o1 as [r| |]; try (intros [= <- <-]; exact Hp).
    unfold bind at 1.
    destruct (UpdateRunningJobs C rest s1) as [o2 s2] eqn:Hu.
    apply IH in Hu. pose proof (polled_trans _ _ _ Hp Hu) as Hp2.
    destruct o2; intros [= <- <-]; exact Hp2.
Qed.

Lemma sleep_poll_interval_polls (g : namespace) (s s' : St W) (o : outcome unit) :
  sleep_poll_interval C g s = (o, s') -> polled s s'.
Proof.
  unfold sleep_poll_interval, bind, load_global.
  destruct (lookup g "poll_interval") as [[| |z| | |]|]; simpl;
    try (intros [= <- <-]; apply polled_refl).
  intros H. now apply polled_sleep in H.
Qed.

(** The wait for room in the queue only polls, and when it returns the last
    thing it did was a listing with room. *)
Lemma wait_for_space_shape (g : namespace) (max : Z) (fuel : nat) :
  forall (s s' : St W) (o : outcome unit),
    wait_for_space C g fuel max s = (o, s') ->
    exists d, grows_by s s' d /\ Forall (fun e => is_poll e = true) d /\
      (o = Ret tt -> exists d' q, d = (d' ++ [q])%list /\ room C max q).
Proof.
  induction fuel as [|fuel IH]; intros s s' o; cbn [wait_for_space];
    unfold bind at 1; rewrite Qstat_njobs_default;
    destruct (popen C (world s) (qstat_argv C) None) as [out w'];
    set (s1 := launched s (qstat_argv C) None out w');
    assert (H1 : grows_by s s1 [EvPopen (qstat_argv C) None out])
      by apply grows_by_launched;
    assert (P1 : Forall (fun e => is_poll e = true) [EvPopen (qstat_argv C) None out])
      by (repeat constructor);
    (destruct out as [lines|];
     [|intros [= <- <-]; eexists; split; [exact H1|]; split; [exact P1|discriminate]]);
    destruct (Z.of_nat (List.length (qstat_job_ids lines)) >=? max)%Z eqn:Hge.
  2,4: intros [= <- <-]; eexists; split; [exact H1|]; split; [exact P1|];
       intros _; exists [], (EvPopen (qstat_argv C) None (Some lines));
       split; [reflexivity|]; exists lines; split; [reflexivity|];
       rewrite Z.geb_leb in Hge; apply Z.leb_gt in Hge; exact Hge.
  - unfold bind at 1.
    destruct (sleep_poll_interval C g s1) as [o2 s2] eqn:H2.
    apply sleep_poll_interval_polls in H2. destruct H2 as (d2 & H2 & P2).
    destruct o2 as [[]| |]; intros [= <- <-];
      exists ([EvPopen (qstat_argv C) None (Some lines)] ++ d2)%list;
      (split; [now apply grows_by_trans with s1|]);
      (split; [now apply Forall_app|discriminate]).
  - unfold bind at 1.
    destruct (sleep_poll_interval C g s1) as [o2 s2] eqn:H2.
    apply sleep_poll_interval_polls in H2. destruct H2 as (d2 & H2 & P2).
    pose proof (grows_by_trans _ _ _ _ _ H1 H2) as H12.
    destruct o2 as [[]| |].
    2,3: intros [= <- <-]; eexists; (split; [exact H12|]);
         (split; [now apply Forall_app|discriminate]).
    intros H. apply IH in H. destruct H as (d3 & H3 & P3 & Hr).
    exists (([EvPopen (qstat_argv C) None (Some lines)] ++ d2) ++ d3)%list.
    split; [now apply grows_by_trans with s2|].
    split; [apply Forall_app; split; [now apply Forall_app|exact P3]|].
    intros Ho. destruct (Hr Ho) as (d' & q & -> & Hq).
    exists (([EvPopen (qstat_argv C) None (Some lines)] ++ d2) ++ d')%list, q.
    split; [now rewrite app_assoc|exact Hq].
Qed.

Lemma wait_for_jobs_polls (g : namespace) (fuel : nat) :
  forall (running : list QsubJob) (s s' : St W) (o : outcome unit),
    wait_for_jobs C g fuel running s = (o, s') -> polled s s'.
Proof.
  induction fuel as [|fuel IH]; intros [|job rest] s s' o; cbn [wait_for_jobs];
    try (intros [= <- <-]; apply polled_refl);
    unfold bind at 1;
    destruct (UpdateRunningJobs C (job :: rest) s) as [o1 s1] eqn:H1;
    apply UpdateRunningJobs_polls in H1;
    (destruct o1 as [u| |]; try (intros [= <- <-]; exact H1));
    unfold bind at 1;
    destruct (sleep_poll_interval C g s1) as [o2 s2] eqn:H2;
    apply sleep_poll_interval_polls in H2;
    pose proof (polled_trans _ _ _ H1 H2) as H12;
    (destruct o2 as [[]| |]; try (intros [= <- <-]; exact H12)).
  - intros H. apply IH in H. now apply polled_trans with s2.
Qed.

(** What [RunPipeline] gets from starting a job it has just created. *)
Lemma call_start_shape (fuel : nat) (job : QsubJob) (s s' : St W)
  (o : outcome (option string * QsubJob)) :
  submitted job = false -> finished job = false ->
  call (start C fuel) job s = (o, s') ->
  exists out w1,
    popen C (world s) (qsub_of job) (Some (getcwd C)) = (out, w1) /\
    polled (launched s (qsub_of job) (Some (getcwd C)) out w1) s' /\
    forall r, o = Ret r ->
      live (snd r) /\
      exists lines i,
        out = Some lines /\ qsub_job_id lines None = Ret (Some i) /\
        job_id (snd r) = Some i.
Proof.
  intros Hs Hf. unfold call.
  destruct (start C fuel (job, s)) as [o1 [j1 s1]] eqn:H.
  apply (start_shape _ _ _ _ _ _ Hs Hf) in H.
  destruct H as (_ & Hf1 & out & w1 & Hpo & Hp & Hr).
  destruct o1 as [r| |]; intros [= <- <-]; exists out, w1;
    (split; [exact Hpo|]); (split; [exact Hp|]); try discriminate.
  intros r' [= <-]. simpl.
  destruct (Hr r eq_refl) as (lines & i & -> & Hid & _ & Hji & Hsub).
  split; [now split|]. now exists lines, i.
Qed.

Lemma submit_all_gated (g : namespace) (fuel : nat) (sc jn : string)
  (wd : option string) (max : Z) (run_data : list (list string)) :
  forall (running : list QsubJob) (s s' : St W) (o : outcome (list QsubJob)),
    submit_all C g fuel sc jn wd max run_data running s = (o, s') ->
    exists d, grows_by s s' d /\ gated_after C max False d.
Proof.
  induction run_data as [|data rest IH]; intros running s s' o; cbn [submit_all].
  { intros [= <- <-]. exists []. split; [apply grows_by_refl|exact I]. }
  unfold bind at 1.
  destruct (UpdateRunningJobs C running s) as [o1 s1] eqn:H1.
  apply UpdateRunningJobs_polls in H1. destruct H1 as (d1 & H1 & P1).
  destruct o1 as [u| |];
    try (intros [= <- <-]; exists d1; split; [exact H1|now apply gated_after_polls]).
  unfold bind at 1.
  destruct (wait_for_space C g fuel max s1) as [o2 s2] eqn:H2.
  apply wait_for_space_shape in H2. destruct H2 as (d2 & H2 & P2 & R2).
  pose proof (grows_by_trans _ _ _ _ _ H1 H2) as H12.
  assert (P12 : Forall (fun e => is_poll e = true) (d1 ++ d2))
    by now apply Forall_app.
  destruct o2 as [[]| |];
    try (intros [= <- <-]; exists (d1 ++ d2)%list; split;
         [exact H12|now apply gated_after_polls]).
  destruct (R2 eq_refl) as (d' & q & -> & Hq).
  apply Forall_app in P2. destruct P2 as [P2 _].
  unfold bind at 1, QsubJob_init at 1, os_getcwd, bind at 1, ret at 1 2.
  set (job := mkJob jn wd sc data None None false false false (getcwd C)).
  unfold bind at 1.
  destruct (call (start C fuel) job s2) as [o3 s3] eqn:H3.
  apply call_start_shape in H3; try reflexivity.
  destruct H3 as (out & w1 & _ & (d4 & H4 & P4) & _).
  set (e := EvPopen (qsub_of job) (Some (getcwd C)) out) in *.
  assert (H14 : grows_by s s3 ((d1 ++ d' ++ [q]) ++ [e] ++ d4)).
  { eapply grows_by_trans; [exact H12|].
    eapply grows_by_trans; [apply grows_by_launched|exact H4]. }
  assert (G14 : gated_after C max False ((d1 ++ d' ++ [q]) ++ [e] ++ d4)).
  { rewrite <- !app_assoc.
    apply gated_after_app; [now apply gated_after_polls|].
    apply gated_after_app; [now apply gated_after_polls|].
    simpl. split; [destruct Hq as (lines & -> & _); discriminate|].
    split; [intros _; exact Hq|]. now apply gated_after_polls. }
  destruct o3 as [r| |]; try (intros [= <- <-]; eexists; split; eassumption).
  intros H. apply IH in H. destruct H as (d5 & H5 & G5).
  eexists. split; [eapply grows_by_trans; eassumption|].
  now apply gated_after_app.
Qed.

(** The gate of [RunPipeline]: whatever its outcome, every submission it
    launched came right after a listing of the queue of the user that
    reported strictly fewer jobs than the ceiling.  This is all the code
    does for the ceiling. *)
Theorem submissions_gated (g : namespace) (fuel : nat) (sc : string)
  (run_data : list (list string)) (wd : option string) (max : Z) (s : St W) :
  exists d,
    grows_by s (snd (RunPipeline C g fuel sc run_data wd max s)) d /\
    forall pre e post,
      d = (pre ++ e :: post)%list -> is_launch "qsub" e = true ->
      exists pre' lines,
        pre = (pre' ++ [EvPopen ["qstat"; "-u"; getlogin C] None (Some lines)])%list /\
        (Z.of_nat (List.length (qstat_job_ids lines)) < max)%Z.
Proof.
  assert (H : exists d,
             grows_by s (snd (RunPipeline C g fuel sc run_data wd max s)) d /\
             gated_after C max False d).
  { unfold RunPipeline, bind.
    destruct (submit_all C g fuel sc (job_name_of sc) wd max run_data [] s)
      as [o1 s1] eqn:H1.
    apply submit_all_gated in H1. destruct H1 as (d1 & H1 & G1).
    destruct o1 as [running| |]; try (exists d1; split; assumption).
    destruct (wait_for_jobs C g fuel running s1) as [o2 s2] eqn:H2.
    apply wait_for_jobs_polls in H2. destruct H2 as (d2 & H2 & P2).
    exists (d1 ++ d2)%list. split; [now apply grows_by_trans with s1|].
    apply gated_after_app; [exact G1|now apply gated_after_polls]. }
  destruct H as (d & Hd & G). exists d. split; [exact Hd|].
  intros pre e post E Hq.
  destruct (gated_after_spec _ _ _ G pre e post E Hq)
    as [[_ []]|(pre' & q & -> & lines & -> & Hlt)].
  now exists pre', lines.
Qed.

(** *** Retirement *)





Lemma contains_false (l : list string) (i : string) :
  Py.contains l (Some i) = false -> ~ In i l.
Proof.
  simpl. intros H Hin.
  assert (Ht : existsb (String.eqb i) l = true).
  { apply existsb_exists. exists i. split; [exact Hin|apply String.eqb_refl]. }
  congruence.
Qed.



Lemma is_launch_qsub_of (j : QsubJob) (cwd : option string) (out : option (list string)) :
  is_launch "qsub" (EvPopen (qsub_of j) cwd out) = true.
Proof.
  unfold qsub_of, qsub_argv.
  destruct (working_dir j) as [d|]; [destruct (Py.truthy d)|]; reflexivity.
Qed.





End Facts.

(** ** The claims on the scripted cluster *)

Lemma terminate_raises_NameError_witness :
  isRunning scripted (running_job, on_tape [queued []]) =
    (Ret false, (set_finished true running_job,
                 launched (on_tape [queued []]) (qstat_argv scripted) None (queued []) [])) /\
  terminate scripted (globals (Main 4 0 "solid")) (running_job, on_tape [queued []]) =
    (Raise (NameError "Qdeljob"),
     (set_finished true running_job,
      launched (on_tape [queued []]) (qstat_argv scripted) None (queued []) [])).
Proof.
  split; [reflexivity|].
  apply (proj1 (terminate_raises_NameError scripted (Main 4 0 "solid")
                  running_job (set_finished true running_job)
                  (on_tape [queued []]) _ eq_refl)).
Defined.

Lemma submission_without_id_witness :
  popen scripted (world (on_tape [Some []])) (qsub_of new_job) (Some (getcwd scripted)) =
    (Some [], []) /\
  no_job_line [] /\
  QsubScript scripted (name new_job) (working_dir new_job) (script new_job)
             (args new_job) (on_tape [Some []]) =
    (Ret None,
     launched (on_tape [Some []]) (qsub_of new_job) (Some (getcwd scripted)) (Some []) []) /\
  exists j',
    start scripted 0 (new_job, on_tape [Some []]) =
      (Raise TypeError,
       (j', launched (on_tape [Some []]) (qsub_of new_job) (Some (getcwd scripted))
              (Some []) [])) /\
    job_id j' = None /\ log j' = log new_job.
Proof.
  split; [reflexivity|]. split; [constructor|].
  pose proof (submission_without_id scripted 0 new_job (on_tape [Some []]) [] []
                eq_refl (Forall_nil _)) as [H1 H2].
  split; [exact H1|exact (H2 eq_refl eq_refl)].
Defined.

(** C3, as worded, fails: with an empty qsub report [QsubScript] returns
    normally. *)
Lemma no_id_submission_returns : ~ no_id_submission_fails.
Proof.
  intros H.
  destruct (H tape scripted 0%nat new_job (on_tape [Some []]) [] []
              eq_refl eq_refl eq_refl (Forall_nil _)) as [[e He] _].
  discriminate He.
Qed.

Lemma empty_listing_means_finished_witness :
  submitted running_job = true /\ finished running_job = false /\
  popen scripted (world (on_tape [Some []])) (qstat_argv scripted) None = (Some [], []) /\
  isRunning scripted (running_job, on_tape [Some []]) =
    (Ret false, (set_finished true running_job,
                 launched (on_tape [Some []]) (qstat_argv scripted) None (Some []) [])).
Proof.
  repeat (split; [reflexivity|]).
  apply (proj1 (empty_listing_means_finished scripted running_job (on_tape [Some []])
                  (Some []) [] eq_refl eq_refl eq_refl) [] eq_refl eq_refl).
Defined.

(** C6, as worded, fails: a queue listing with no line at all makes a
    submitted job finished. *)
Lemma empty_listing_finishes_job : ~ empty_listing_is_no_information.
Proof.
  intros H.
  specialize (H tape scripted running_job (on_tape [Some []]) [] []
                eq_refl eq_refl eq_refl eq_refl).
  discriminate H.
Qed.

Lemma poll_interval_NameError_witness :
  lookup (globals Imported) "poll_interval" = None /\
  submit_all scripted (globals Imported) 1 "/home/me/qc.sh"
    (job_name_of "/home/me/qc.sh") (Some "/data/run1") 1
    [["a.csfasta"; "a_QV.qual"]] [] (on_tape [queued ["7"]]) =
  (Raise (NameError "poll_interval"),
   launched (on_tape [queued ["7"]]) (qstat_argv scripted) None (queued ["7"]) []) /\
  fst (RunPipeline scripted (globals Imported) 1 "/home/me/qc.sh"
         [["a.csfasta"; "a_QV.qual"]] (Some "/data/run1") 4
         (on_tape [queued []; accepted "42"; queued ["42"]; queued ["42"]])) =
  Raise (NameError "poll_interval").
Proof.
  split; [reflexivity|]. split.
  - apply (proj1 (poll_interval_NameError scripted (globals Imported) 1
                    "/home/me/qc.sh" (Some "/data/run1") 1 eq_refl)
             ["a.csfasta"; "a_QV.qual"] [] [] [] (on_tape [queued ["7"]])
             (on_tape [queued ["7"]])
             (launched (on_tape [queued ["7"]]) (qstat_argv scripted) None
                (queued ["7"]) [])
             1%nat eq_refl eq_refl).
    discriminate.
  - set (t := [queued []; accepted "42"; queued ["42"]; queued ["42"]]).
    pose (r := submit_all scripted (globals Imported) 1 "/home/me/qc.sh"
                 (job_name_of "/home/me/qc.sh") (Some "/data/run1") 4
                 [["a.csfasta"; "a_QV.qual"]] [] (on_tape t)).
    assert (E1 : r = (Ret [running_job], snd r)) by (vm_compute; reflexivity).
    pose (u := UpdateRunningJobs scripted [running_job] (snd r)).
    assert (E2 : u = (Ret [running_job], snd u)) by (vm_compute; reflexivity).
    rewrite (proj1 (proj2 (poll_interval_NameError scripted (globals Imported) 1
                             "/home/me/qc.sh" (Some "/data/run1") 4 eq_refl))
               [["a.csfasta"; "a_QV.qual"]] [running_job] [running_job]
               (on_tape t) (snd r) (snd u) ltac:(discriminate) E1 E2).
    reflexivity.
Defined.

Lemma reached_running_job (strict : bool) : reached scripted Imported strict running_job.
Proof.
  apply (reached_op scripted Imported strict new_job running_job (Start 0)
           (on_tape [accepted "42"; queued ["42"]])
           (snd (snd (start scripted 0 (new_job, on_tape [accepted "42"; queued ["42"]]))))
           (Ret tt)).
  - apply (reached_new scripted Imported strict "qc" (Some "/data/run1")
             "/home/me/qc.sh" ["a.csfasta"; "a_QV.qual"] (on_tape []) (on_tape [])).
    reflexivity.
  - vm_compute. reflexivity.
  - reflexivity.
Qed.

Lemma id_iff_submitted_when_returned_witness :
  reached scripted Imported true running_job /\ id_iff_submitted running_job.
Proof.
  split; [apply reached_running_job|].
  apply (id_iff_submitted_when_returned scripted Imported running_job
           (reached_running_job true)).
Defined.

(** C4, as worded, fails: [start] on a submission without identifier raises
    after it has set [submitted], and leaves a submitted job without
    identifier. *)
Lemma submitted_without_id : ~ id_iff_submitted_always.
Proof.
  intros H.
  assert (Hr : reached scripted Imported false
                 (set_submitted true (set_job_id None new_job))).
  { apply (reached_op scripted Imported false new_job _ (Start 0)
             (on_tape [Some []])
             (snd (snd (start scripted 0 (new_job, on_tape [Some []]))))
             (Raise TypeError)).
    - apply (reached_new scripted Imported false "qc" (Some "/data/run1")
               "/home/me/qc.sh" ["a.csfasta"; "a_QV.qual"] (on_tape []) (on_tape [])).
      reflexivity.
    - vm_compute. reflexivity.
    - discriminate. }
  apply (H tape scripted Imported _) in Hr.
  destruct Hr as [_ Hr]. now apply Hr.
Qed.


Lemma resubmit_same_task_witness :
  exists j' s',
    resubmit scripted (globals Imported) 0
      (running_job, on_tape [queued []; accepted "43"; queued ["43"]]) =
      (Ret (Some "43"), (j', s')) /\
    name j' = name running_job /\ working_dir j' = working_dir running_job /\
    script j' = script running_job /\ args j' = args running_job.
Proof.
  assert (H : resubmit scripted (globals Imported) 0
                (running_job, on_tape [queued []; accepted "43"; queued ["43"]]) =
              (Ret (Some "43"),
               (snd (resubmit scripted (globals Imported) 0
                       (running_job, on_tape [queued []; accepted "43"; queued ["43"]])))))
    by (vm_compute; reflexivity).
  destruct (snd (resubmit scripted (globals Imported) 0
                   (running_job, on_tape [queued []; accepted "43"; queued ["43"]])))
    as [j' s'].
  exists j', s'. split; [exact H|].
  destruct (resubmit_same_task scripted Imported 0 running_job j'
              (on_tape [queued []; accepted "43"; queued ["43"]]) s' _ H)
    as (Hn & Hw & Hs & Ha & _).
  repeat split; assumption.
Defined.

(** C7, as worded, fails: the recorded identifier is the one the scheduler
    prints, and nothing in [resubmit] makes it differ from the former one. *)
Lemma resubmit_same_id : ~ resubmit_gives_new_id.
Proof.
  intros H.
  assert (E : resubmit scripted (globals Imported) 0
                (running_job, on_tape [queued []; accepted "42"; queued ["42"]]) =
              (Ret (Some "42"),
               (running_job,
                snd (snd (resubmit scripted (globals Imported) 0
                            (running_job,
                             on_tape [queued []; accepted "42"; queued ["42"]]))))))
    by (vm_compute; reflexivity).
  exact (H tape scripted Imported 0%nat running_job running_job _ _ _
           eq_refl E eq_refl).
Qed.

(** C2. The ceiling is not kept.  The docstring of [RunPipeline] promises
    that no more than [max_concurrent_jobs] jobs run for the user at any
    time, but the count of a single listing decides each submission: with
    a ceiling of one, when one listing of the queue comes out empty while
    job 41 is still queued, the second task is submitted as job 42, and
    the following listing reports both jobs of this run. *)
Lemma outstanding_above_ceiling : ~ outstanding_never_above_ceiling.
Proof.
  intros H.
  pose (t := [queued []; accepted "41"; queued ["41"];
              queued ["41"]; Some []; accepted "42"; queued ["41"; "42"];
              queued []; queued []]).
  pose (r := RunPipeline scripted (globals (Main 1 0 "solid")) 1 "/home/me/qc.sh"
               [["a.csfasta"; "a_QV.qual"]; ["b.csfasta"; "b_QV.qual"]]
               (Some "/data/run1") 1 (on_tape t)).
  pose (d := trace (snd r)).
  assert (G : grows_by (on_tape t) (snd r) d) by reflexivity.
  assert (E : d = (firstn 6 d ++
                   EvPopen (qstat_argv scripted) None (queued ["41"; "42"]) ::
                   skipn 7 d)%list) by (vm_compute; reflexivity).
  assert (R : r = (Ret tt, snd r)) by (vm_compute; reflexivity).
  specialize (H tape scripted (Main 1 0 "solid") 1%nat "/home/me/qc.sh"
                [["a.csfasta"; "a_QV.qual"]; ["b.csfasta"; "b_QV.qual"]]
                (Some "/data/run1") 1%Z (on_tape t) (snd r) (Ret tt) d
                R G _ _ _ _ _ E eq_refl).
  vm_compute in H. now apply H.
Qed.




(** * More properties of the program *)

Section MoreFacts.

Context {W : Type} (C : Cluster W).

(** ** Parsing the output of the tools *)

(** X1. The identifiers [Qstat.list] reads off a listing are exactly the
    first tokens of its lines that consist of digits: header lines, blank
    lines and lines starting with anything else contribute nothing. *)
Theorem qstat_job_ids_first_tokens (lines : list string) (i : string) :
  In i (qstat_job_ids lines) <->
  exists line rest,
    In line lines /\ Py.split line = i :: rest /\ Py.isdigit i = true.
Proof.
  induction lines as [|l ls IH]; simpl.
  - split; [intros []|intros (line & rest & [] & _)].
  - destruct (Py.split l) as [|tok toks] eqn:Hs.
    + rewrite IH. split.
      * intros (line & rest & Hin & H). exists line, rest. split; [now right|exact H].
      * intros (line & rest & [<-|Hin] & Hl & Hd); [congruence|].
        now exists line, rest.
    + destruct (Py.isdigit tok) eqn:Hd.
      * simpl. rewrite IH. split.
        -- intros [<-|(line & rest & Hin & H)].
           ++ exists l, toks. split; [now left|now split].
           ++ exists line, rest. split; [now right|exact H].
        -- intros (line & rest & [<-|Hin] & Hl & Hd').
           ++ left. congruence.
           ++ right. now exists line, rest.
      * rewrite IH. split.
        -- intros (line & rest & Hin & H). exists line, rest. split; [now right|exact H].
        -- intros (line & rest & [<-|Hin] & Hl & Hd'); [congruence|].
           now exists line, rest.
Qed.

Lemma qsub_job_id_app (l1 l2 : list string) :
  forall a,
    qsub_job_id (l1 ++ l2) a =
    match qsub_job_id l1 a with
    | Ret x => qsub_job_id l2 x
    | Raise e => Raise e
    | Timeout => Timeout
    end.
Proof.
  induction l1 as [|l l1 IH]; intros a; cbn [qsub_job_id app]; [reflexivity|].
  destruct (Py.startswith l "Your job"); [|apply IH].
  destruct (nth_error (Py.split l) 2); [apply IH|reflexivity].
Qed.

Lemma qsub_job_id_outcome (lines : list string) :
  forall a, (exists x, qsub_job_id lines a = Ret x) \/
            qsub_job_id lines a = Raise IndexError.
Proof.
  induction lines as [|l ls IH]; intros a; cbn [qsub_job_id];
    [left; now exists a|].
  destruct (Py.startswith l "Your job"); [|apply IH].
  destruct (nth_error (Py.split l) 2); [apply IH|now right].
Qed.

(** X2. Of several lines starting with 'Your job' in a qsub report, the last
    one gives the identifier: its third token, whatever the earlier ones
    said, as long as each of them has a third token. *)
Theorem qsub_job_id_last_line (before after : list string) (line tok : string)
  (a x : option string) :
  qsub_job_id before a = Ret x ->
  Py.startswith line "Your job" = true ->
  nth_error (Py.split line) 2 = Some tok ->
  no_job_line after ->
  qsub_job_id (before ++ line :: after) a = Ret (Some tok).
Proof.
  intros Hb Hs Ht Ha. rewrite qsub_job_id_app, Hb. cbn [qsub_job_id].
  rewrite Hs, Ht.
  now apply qsub_job_id_no_job_line.
Qed.

(** X3. A qsub report with a line that starts with 'Your job' but has fewer
    than three tokens makes the parse raise [IndexError], wherever that line
    is and whatever the other lines are. *)
Theorem qsub_job_id_short_line (lines : list string) (line : string)
  (a : option string) :
  In line lines ->
  Py.startswith line "Your job" = true ->
  nth_error (Py.split line) 2 = None ->
  qsub_job_id lines a = Raise IndexError.
Proof.
  intros Hin Hs Ht. apply in_split in Hin. destruct Hin as (l1 & l2 & ->).
  rewrite qsub_job_id_app.
  destruct (qsub_job_id_outcome l1 a) as [[x ->]| ->]; [|reflexivity].
  cbn [qsub_job_id]. now rewrite Hs, Ht.
Qed.

(** ** Qstat *)

(** X4. [Qstat.list(user)] and [Qstat.njobs(user)] ask qstat about [user]
    when it is a non-empty string, and about the login name of the process
    when it is the empty string, just as when it is [None]. *)
Theorem Qstat_user_forwarding (u : string) (s : St W) :
  (Py.truthy u = true ->
   exists out w',
     popen C (world s) ["qstat"; "-u"; u] None = (out, w') /\
     Qstat_njobs C (Some u) s =
     (match out with
      | Some lines => Ret (List.length (qstat_job_ids lines))
      | None => Raise OSError
      end, launched s ["qstat"; "-u"; u] None out w')) /\
  Qstat_list C (Some "") s = Qstat_list C None s /\
  Qstat_njobs C (Some "") s = Qstat_njobs C None s.
Proof.
  split; [|split; reflexivity].
  intros Hu. unfold Qstat_njobs, Qstat_list, bind, Popen, launched.
  rewrite Hu. unfold ret at 1.
  destruct (popen C (world s) ["qstat"; "-u"; u] None) as [out w'].
  exists out, w'. split; [reflexivity|]. destruct out; reflexivity.
Qed.

(** ** QsubJob *)

(** X5. [isRunning()] on a job that was never submitted answers false
    without asking the cluster anything and without touching the job. *)
Theorem isRunning_never_submitted (j : QsubJob) (s : St W) :
  submitted j = false -> isRunning C (j, s) = (Ret false, (j, s)).
Proof. intros H. rewrite isRunning_eq, H. reflexivity. Qed.

(** X6. Once [isRunning()] has answered false it answers false for good:
    every later call returns false at once, without listing the queue, even
    if the queue would list the job again. *)
Theorem isRunning_false_for_good (j j' : QsubJob) (s s' : St W) :
  isRunning C (j, s) = (Ret false, (j', s')) ->
  forall s2 : St W, isRunning C (j', s2) = (Ret false, (j', s2)).
Proof.
  rewrite isRunning_eq. intros H s2. rewrite isRunning_eq.
  destruct (submitted j) eqn:Hs; simpl in H.
  2:{ injection H as <- _. rewrite Hs. reflexivity. }
  destruct (finished j) eqn:Hf.
  { injection H as <- _. rewrite Hs, Hf. reflexivity. }
  destruct (popen C (world s) (qstat_argv C) None) as [[lines|] w'];
    [|discriminate].
  destruct (Py.contains (qstat_job_ids lines) (job_id j)); [discriminate|].
  injection H as <- _. simpl. rewrite Hs. reflexivity.
Qed.

(** X7. [start()] submits a job once: after a call that returned, any
    further call returns the same identifier without launching anything and
    leaves the job as it is. *)
Theorem start_once (fuel : nat) (j j' : QsubJob) (s s' : St W)
  (r : option string) :
  start C fuel (j, s) = (Ret r, (j', s')) ->
  forall (fuel2 : nat) (s2 : St W), start C fuel2 (j', s2) = (Ret r, (j', s2)).
Proof.
  intros H fuel2 s2.
  destruct (negb (submitted j) && negb (finished j)) eqn:Hc.
  - apply andb_prop in Hc. destruct Hc as [Hs Hf].
    apply negb_true_iff in Hs, Hf.
    destruct (start_shape _ _ _ _ _ _ _ Hs Hf H) as (_ & _ & out & w1 & _ & _ & Hr).
    destruct (Hr r eq_refl) as (lines & i & _ & _ & -> & Hid & Hsub).
    rewrite <- Hid. apply start_noop. rewrite Hsub. reflexivity.
  - rewrite (start_noop _ _ _ _ Hc) in H. injection H as <- <- _.
    now apply start_noop.
Qed.

Lemma contains_true (l : list string) (i : string) :
  Py.contains l (Some i) = true -> In i l.
Proof.
  simpl. intros H. apply existsb_exists in H. destruct H as (x & Hx & Hi).
  apply String.eqb_eq in Hi. now subst.
Qed.

Lemma wait_started_evidence (fuel : nat) :
  forall (i : string) (lg : string) (s s' : St W),
    wait_started C fuel (Some i) lg s = (Ret tt, s') ->
    exists pre lines,
      grows_by s s' (pre ++ [EvPopen (qstat_argv C) None (Some lines)]) /\
      Forall (fun e => is_poll e = true) pre /\
      (In i (qstat_job_ids lines) \/ path_exists C (world s') lg = true).
Proof.
  induction fuel as [|fuel IH]; intros i lg s s'; cbn [wait_started];
    unfold bind at 1; rewrite Qstat_hasJob_eq;
    destruct (popen C (world s) (qstat_argv C) None) as [out w'];
    (destruct out as [lines|]; [|discriminate]);
    set (s1 := launched s (qstat_argv C) None (Some lines) w');
    (destruct (Py.contains (qstat_job_ids lines) (Some i)) eqn:Hc;
     [intros [= <-]; exists [], lines; split; [apply grows_by_launched|];
      split; [constructor|left; now apply contains_true]|]);
    unfold bind at 1, os_path_exists at 1;
    (destruct (path_exists C (world s1) lg) eqn:Hp;
     [intros [= <-]; exists [], lines; split; [apply grows_by_launched|];
      split; [constructor|now right]|]);
    unfold bind at 1, time_sleep at 1; [discriminate|].
  intros H. apply IH in H. destruct H as (pre & lines2 & Hg & Hpre & Hev).
  exists ([EvPopen (qstat_argv C) None (Some lines); EvSleep 5] ++ pre)%list, lines2.
  split; [|split; [|exact Hev]].
  - unfold grows_by in *. rewrite Hg. simpl. rewrite <- !app_assoc. reflexivity.
  - apply Forall_app. split; [repeat constructor|exact Hpre].
Qed.

(** X8. When [start()] returns from a new submission, the last thing it did
    was a queue listing, and either that listing reports the new identifier
    or the log file [<name>.o<id>] exists: it does not return on a job of
    which there is no trace yet. *)
Theorem start_returns_on_evidence (fuel : nat) (j j' : QsubJob) (s s' : St W)
  (r : option string) :
  submitted j = false -> finished j = false ->
  start C fuel (j, s) = (Ret r, (j', s')) ->
  exists i d lines,
    r = Some i /\
    grows_by s s' (d ++ [EvPopen (qstat_argv C) None (Some lines)]) /\
    (In i (qstat_job_ids lines) \/
     path_exists C (world s') (name j ++ ".o" ++ i) = true).
Proof.
  intros Hs Hf. rewrite (start_eq _ _ _ _ Hs Hf).
  destruct (popen C (world s) (qsub_of j) (Some (getcwd C))) as [[lines|] w1];
    [|discriminate].
  destruct (qsub_job_id lines None) as [[i|]| |]; try discriminate.
  cbv zeta.
  destruct (wait_started C fuel (Some i) (name j ++ ".o" ++ i)
              (launched s (qsub_of j) (Some (getcwd C)) (Some lines) w1))
    as [[[]| |] s2] eqn:Hw; try discriminate.
  intros [= <- <- <-].
  apply wait_started_evidence in Hw. destruct Hw as (pre & lines2 & Hg & _ & Hev).
  exists i, (EvPopen (qsub_of j) (Some (getcwd C)) (Some lines) :: pre), lines2.
  split; [reflexivity|]. split; [|exact Hev].
  change ((EvPopen (qsub_of j) (Some (getcwd C)) (Some lines) :: pre) ++
          [EvPopen (qstat_argv C) None (Some lines2)])%list
    with ([EvPopen (qsub_of j) (Some (getcwd C)) (Some lines)] ++
          (pre ++ [EvPopen (qstat_argv C) None (Some lines2)]))%list.
  eapply grows_by_trans; [apply grows_by_launched|exact Hg].
Qed.

Lemma launches_no_refl (tool : string) (s : St W) : launches_no tool s s.
Proof. exists []. split; [apply grows_by_refl|constructor]. Qed.

Lemma launches_no_trans (tool : string) (s1 s2 s3 : St W) :
  launches_no tool s1 s2 -> launches_no tool s2 s3 -> launches_no tool s1 s3.
Proof.
  intros (d1 & H1 & P1) (d2 & H2 & P2). exists (d1 ++ d2)%list.
  split; [now apply grows_by_trans with s2|now apply Forall_app].
Qed.

Lemma is_launch_qsub_of_other (tool : string) (j : QsubJob)
  (cwd : option string) (out : option (list string)) :
  String.eqb "qsub" tool = false ->
  is_launch tool (EvPopen (qsub_of j) cwd out) = false.
Proof.
  intros H. unfold qsub_of, qsub_argv.
  destruct (working_dir j) as [d|]; [destruct (Py.truthy d)|]; exact H.
Qed.

Lemma start_launches_no (tool : string) (fuel : nat) (j j' : QsubJob)
  (s s' : St W) (o : outcome (option string)) :
  String.eqb "qsub" tool = false -> String.eqb "qstat" tool = false ->
  start C fuel (j, s) = (o, (j', s')) -> launches_no tool s s'.
Proof.
  intros Hq Ht H.
  destruct (negb (submitted j) && negb (finished j)) eqn:Hc.
  - apply andb_prop in Hc. destruct Hc as [Hs Hf].
    apply negb_true_iff in Hs, Hf.
    destruct (start_shape _ _ _ _ _ _ _ Hs Hf H) as (_ & _ & out & w1 & _ & Hp & _).
    eapply launches_no_trans; [|apply (polled_no_launch _ _ _ Ht Hp)].
    eexists. split; [apply grows_by_launched|].
    constructor; [|constructor]. now apply is_launch_qsub_of_other.
  - rewrite (start_noop _ _ _ _ Hc) in H. injection H as _ _ <-.
    apply launches_no_refl.
Qed.

(** What [isRunning] has seen when it answers about a live job: one
    listing of the queue, which reports the job or not. *)
Lemma isRunning_listing (j j' : QsubJob) (s s' : St W) (r : bool) (i : string) :
  live j -> job_id j = Some i ->
  isRunning C (j, s) = (Ret r, (j', s')) ->
  exists lines w',
    s' = launched s (qstat_argv C) None (Some lines) w' /\
    if r then j' = j else ~ In i (qstat_job_ids lines).
Proof.
  intros [Hs Hf] Hi. rewrite isRunning_eq, Hs, Hf, Hi. cbn [negb].
  destruct (popen C (world s) (qstat_argv C) None) as [[lines|] w'];
    [|discriminate].
  destruct (Py.contains (qstat_job_ids lines) (Some i)) eqn:Hc;
    intros [= <- <- <-]; exists lines, w'; (split; [reflexivity|]);
    [reflexivity|now apply contains_false].
Qed.

Lemma wait_stopped_left (fuel : nat) :
  forall (j j' : QsubJob) (s s' : St W) (i : string),
    live j -> job_id j = Some i ->
    wait_stopped C fuel (j, s) = (Ret tt, (j', s')) ->
    exists pre q,
      grows_by s s' (pre ++ [q]) /\
      Forall (fun e => is_poll e = true) pre /\ lists_without i q.
Proof.
  induction fuel as [|fuel IH]; intros j j' s s' i Hl Hi; cbn [wait_stopped];
    unfold bind at 1;
    destruct (isRunning C (j, s)) as [[[|]| |] [j1 s1]] eqn:Hr; try discriminate;
    destruct (isRunning_listing _ _ _ _ _ _ Hl Hi Hr) as (lines & w1 & -> & Hq);
    try (intros [= <- <-];
         exists [], (EvPopen (qstat_argv C) None (Some lines));
         split; [reflexivity|]; split; [constructor|]; split;
         [reflexivity|exact Hq]);
    subst j1; unfold bind at 1, on_cluster at 1, time_sleep at 1; simpl.
  intros H. apply (IH _ _ _ _ i Hl Hi) in H.
  destruct H as (pre & q & Hg & Hp & Hw).
  exists (EvPopen (qstat_argv C) None (Some lines) :: EvSleep 5 :: pre), q.
  split; [|split; [repeat constructor; exact Hp|exact Hw]].
  unfold grows_by in *. rewrite Hg. simpl. rewrite <- !app_assoc. reflexivity.
Qed.

(** The first half of [resubmit] returns for a live job only on a listing
    that does not report it. *)
Lemma resubmit_stop_left (m : run_mode) (fuel : nat) (j j' : QsubJob)
  (s s' : St W) (i : string) :
  live j -> job_id j = Some i ->
  resubmit_stop C (globals m) fuel (j, s) = (Ret tt, (j', s')) ->
  exists pre q,
    grows_by s s' (pre ++ [q]) /\
    Forall (fun e => is_poll e = true) pre /\ lists_without i q.
Proof.
  intros Hl Hi. unfold resubmit_stop, bind.
  destruct (isRunning C (j, s)) as [[[|]| |] [j1 s1]] eqn:Hr; try discriminate;
    destruct (isRunning_listing _ _ _ _ _ _ Hl Hi Hr) as (lines & w1 & -> & Hq).
  - subst j1.
    destruct (terminate C (globals m)
                (j, launched s (qstat_argv C) None (Some lines) w1))
      as [[[]| |] [j2 s2]] eqn:Ht; try discriminate.
    destruct (terminate_polls _ _ _ _ _ _ _ Ht) as [_ (d2 & Hd2 & Hp2)].
    apply terminate_returns in Ht. destruct Ht as (-> & _).
    intros H. apply (wait_stopped_left _ _ _ _ _ i Hl Hi) in H.
    destruct H as (pre & q & Hg & Hp & Hw).
    exists (EvPopen (qstat_argv C) None (Some lines) :: d2 ++ pre)%list, q.
    split; [|split; [constructor; [reflexivity|now apply Forall_app]|exact Hw]].
    unfold grows_by in *. rewrite Hg, Hd2. simpl. rewrite <- !app_assoc.
    reflexivity.
  - intros [= <- <-].
    exists [], (EvPopen (qstat_argv C) None (Some lines)).
    split; [reflexivity|]. split; [constructor|]. split; [reflexivity|exact Hq].
Qed.

(** Where the one launch that is not a poll stands in a trace. *)
Lemma launch_position (d1 : list event) :
  forall (d3 pre post : list event) (x e : event),
    Forall (fun e => is_poll e = true) d1 ->
    Forall (fun e => is_poll e = true) d3 ->
    (d1 ++ x :: d3 = pre ++ e :: post)%list ->
    is_launch "qsub" e = true -> pre = d1.
Proof.
  assert (Hno : forall e, is_poll e = true -> is_launch "qsub" e = true -> False).
  { intros e Hp Hq. rewrite (is_poll_not_launch "qsub" e eq_refl Hp) in Hq.
    discriminate. }
  induction d1 as [|a d1 IH]; intros d3 pre post x e H1 H3 E Hq.
  - destruct pre as [|y pre]; [reflexivity|]. simpl in E. injection E as _ E.
    exfalso. apply (Hno e); [|exact Hq].
    rewrite Forall_forall in H3. apply H3. rewrite E. apply in_elt.
  - inversion H1 as [|? ? Ha H1']; subst.
    destruct pre as [|y pre]; simpl in E; injection E as <- E.
    + exfalso. now apply (Hno a).
    + f_equal. now apply (IH d3 pre post x e).
Qed.

(** [resubmit] on a live job submits it again only right after a listing
    of the queue that does not report it any more. *)
Lemma resubmit_waits (m : run_mode) (fuel : nat) (j j' : QsubJob)
  (s s' : St W) (o : outcome (option string)) (i : string) (d : list event) :
  live j -> job_id j = Some i ->
  resubmit C (globals m) fuel (j, s) = (o, (j', s')) ->
  grows_by s s' d ->
  forall pre e post,
    d = (pre ++ e :: post)%list -> is_launch "qsub" e = true ->
    exists pre' q, pre = (pre' ++ [q])%list /\ lists_without i q.
Proof.
  intros Hl Hi. rewrite resubmit_eq.
  destruct (resubmit_stop C (globals m) fuel (j, s)) as [o1 [j1 s1]] eqn:H1.
  assert (Hpolls : (o, (j', s')) = (o, (j1, s1)) -> grows_by s s' d ->
            forall pre e post,
              d = (pre ++ e :: post)%list -> is_launch "qsub" e = true ->
              exists pre' q, pre = (pre' ++ [q])%list /\ lists_without i q).
  { intros [= -> ->] Hd pre e post E Hq. exfalso.
    destruct (resubmit_stop_polls _ _ _ _ _ _ _ _ H1) as [_ (d1 & Hd1 & Hp1)].
    unfold grows_by in Hd, Hd1. rewrite Hd1 in Hd. apply app_inv_head in Hd.
    subst d1. rewrite Forall_forall in Hp1.
    assert (Hp : is_poll e = true) by (apply Hp1; rewrite E; apply in_elt).
    rewrite (is_poll_not_launch "qsub" e eq_refl Hp) in Hq. discriminate. }
  destruct o1 as [[]| |]; try (intros [= <- <- <-]; now apply Hpolls).
  clear Hpolls.
  destruct (resubmit_stop_left _ _ _ _ _ _ _ Hl Hi H1)
    as (pre1 & q1 & Hg1 & Hp1 & Hw1).
  intros H Hd pre e post E Hq.
  assert (Hs : submitted (reset_flags j1) = false) by reflexivity.
  assert (Hf : finished (reset_flags j1) = false) by reflexivity.
  destruct (start_shape _ _ _ _ _ _ _ Hs Hf H)
    as (_ & _ & out & w1 & _ & (d3 & Hd3 & Hp3) & _).
  assert (Ed : d = ((pre1 ++ [q1]) ++
                    EvPopen (qsub_of (reset_flags j1)) (Some (getcwd C)) out :: d3)%list).
  { unfold grows_by in Hd, Hg1, Hd3. rewrite Hd3 in Hd. simpl in Hd.
    rewrite Hg1, <- !app_assoc in Hd. apply app_inv_head in Hd.
    rewrite <- Hd, <- !app_assoc. reflexivity. }
  assert (Hq1 : is_poll q1 = true).
  { destruct q1 as [argv cwd [lines|]|z]; simpl in Hw1; try contradiction.
    exact (proj1 Hw1). }
  assert (Hpre : pre = (pre1 ++ [q1])%list).
  { apply (launch_position (pre1 ++ [q1]) d3 pre post
             (EvPopen (qsub_of (reset_flags j1)) (Some (getcwd C)) out) e);
      [apply Forall_app; split; [exact Hp1|repeat constructor; exact Hq1]
      |exact Hp3|now rewrite <- Ed|exact Hq]. }
  now exists pre1, q1.
Qed.

(** X9. No operation of a job ever launches qdel, whatever its outcome:
    [terminate()] cancels nothing, and [resubmit()] on a job that is still
    in the queue does not cancel it but waits for it to leave: it submits
    the job again only right after a listing of the queue that does not
    report the old identifier any more. *)
Theorem job_never_cancelled (m : run_mode) (op : operation) (j j' : QsubJob)
  (s s' : St W) (o : outcome unit) :
  perform C (globals m) op (j, s) = (o, (j', s')) ->
  exists d,
    grows_by s s' d /\
    Forall (fun e => is_launch "qdel" e = false) d /\
    forall fuel i pre e post,
      op = Resubmit fuel -> live j -> job_id j = Some i ->
      d = (pre ++ e :: post)%list -> is_launch "qsub" e = true ->
      exists pre' q, pre = (pre' ++ [q])%list /\ lists_without i q.
Proof.
  intros H.
  assert (Hp : forall s1 s2 : St W, polled s1 s2 -> launches_no "qdel" s1 s2)
    by (intros s1 s2; now apply polled_no_launch).
  assert (Hno : launches_no "qdel" s s').
  { revert H. destruct op as [fuel| |fuel|]; unfold perform, ignore, bind.
    - destruct (start C fuel (j, s)) as [o1 [j1 s1]] eqn:H1.
      apply (start_launches_no "qdel") in H1; try reflexivity.
      destruct o1; intros [= <- <- <-]; exact H1.
    - intros H. apply terminate_polls in H. now apply Hp.
    - rewrite resubmit_eq.
      destruct (resubmit_stop C (globals m) fuel (j, s)) as [o1 [j1 s1]] eqn:H1.
      apply resubmit_stop_polls in H1. destruct H1 as [_ H1]. apply Hp in H1.
      destruct o1 as [[]| |]; try (intros [= <- <- <-]; exact H1).
      destruct (start C fuel (reset_flags j1, s1)) as [o2 [j2 s2]] eqn:H2.
      apply (start_launches_no "qdel") in H2; try reflexivity.
      pose proof (launches_no_trans _ _ _ _ H1 H2) as H12.
      destruct o2; intros [= <- <- <-]; exact H12.
    - destruct (isRunning C (j, s)) as [o1 [j1 s1]] eqn:H1.
      apply isRunning_polls in H1. destruct H1 as [_ H1]. apply Hp in H1.
      destruct o1; intros [= <- <- <-]; exact H1. }
  destruct Hno as (d & Hd & Hq). exists d. split; [exact Hd|].
  split; [exact Hq|].
  intros fuel i pre e post -> Hl Hi E He.
  assert (Hr : exists o', resubmit C (globals m) fuel (j, s) = (o', (j', s'))).
  { revert H. unfold perform, ignore, bind.
    destruct (resubmit C (globals m) fuel (j, s)) as [o1 [j1 s1]].
    destruct o1; intros [= <- <- <-]; eexists; reflexivity. }
  destruct Hr as (o' & Hr).
  exact (resubmit_waits m fuel j j' s s' o' i d Hl Hi Hr Hd pre e post E He).
Qed.

(** ** UpdateRunningJobs *)

(** X10. When [UpdateRunningJobs] returns, its result is the list it was
    given with some jobs left out: the jobs kept are unchanged, in the same
    order, and each of them is submitted and not finished. *)
Theorem UpdateRunningJobs_keeps (running : list QsubJob) :
  forall (out : list QsubJob) (s s' : St W),
    UpdateRunningJobs C running s = (Ret out, s') ->
    subseq out running /\ Forall live out.
Proof.
  induction running as [|job rest IH]; intros out s s'; cbn [UpdateRunningJobs].
  { intros [= <- <-]. split; constructor. }
  unfold bind at 1, call.
  destruct (isRunning C (job, s)) as [[r| |] [j1 s1]] eqn:Hr; try discriminate.
  unfold bind at 1.
  destruct (UpdateRunningJobs C rest s1) as [[u| |] s2] eqn:Hu; try discriminate.
  apply IH in Hu. destruct Hu as [Hsub Hlive].
  intros [= <- <-]. simpl. destruct r.
  - apply isRunning_true in Hr. destruct Hr as (-> & Hs & Hf).
    split; [now constructor|]. constructor; [now split|exact Hlive].
  - split; [now constructor|exact Hlive].
Qed.

Lemma isRunning_listings (j j' : QsubJob) (s s' : St W) (r : bool) :
  isRunning C (j, s) = (Ret r, (j', s')) ->
  exists d, grows_by s s' d /\ Forall (fun e => is_listing e = true) d /\
            List.length d = if is_live j then 1%nat else 0%nat.
Proof.
  rewrite isRunning_eq. unfold is_live.
  destruct (submitted j); simpl.
  2:{ intros [= <- <- <-]. exists []. split; [apply grows_by_refl|]. now split. }
  destruct (finished j); simpl.
  { intros [= <- <- <-]. exists []. split; [apply grows_by_refl|]. now split. }
  destruct (popen C (world s) (qstat_argv C) None) as [[lines|] w'];
    [|discriminate].
  destruct (Py.contains (qstat_job_ids lines) (job_id j));
    intros [= <- <- <-]; eexists; (split; [apply grows_by_launched|]);
    (split; [repeat constructor|reflexivity]).
Qed.

(** X11. When [UpdateRunningJobs] returns, all it did on the cluster is one
    queue listing for each job of its list that is submitted and not
    finished: no listing for the other jobs, no sleep, no other launch. *)
Theorem UpdateRunningJobs_one_listing_each (running : list QsubJob) :
  forall (out : list QsubJob) (s s' : St W),
    UpdateRunningJobs C running s = (Ret out, s') ->
    exists d, grows_by s s' d /\ Forall (fun e => is_listing e = true) d /\
              List.length d = List.length (filter is_live running).
Proof.
  induction running as [|job rest IH]; intros out s s'; cbn [UpdateRunningJobs].
  { intros [= <- <-]. exists []. split; [apply grows_by_refl|]. now split. }
  unfold bind at 1, call.
  destruct (isRunning C (job, s)) as [[r| |] [j1 s1]] eqn:Hr; try discriminate.
  unfold bind at 1.
  destruct (UpdateRunningJobs C rest s1) as [[u| |] s2] eqn:Hu; try discriminate.
  apply IH in Hu. destruct Hu as (d2 & H2 & P2 & L2).
  apply isRunning_listings in Hr. destruct Hr as (d1 & H1 & P1 & L1).
  intros [= <- <-]. exists (d1 ++ d2)%list.
  split; [now apply grows_by_trans with s1|].
  split; [now apply Forall_app|].
  rewrite length_app, L1, L2. cbn [filter].
  destruct (is_live job); reflexivity.
Qed.

(** ** RunPipeline *)

(** X12. On an empty batch [RunPipeline] returns at once: nothing is asked
    of the cluster, no global is read, whatever the ceiling. *)
Theorem RunPipeline_empty_batch (g : namespace) (fuel : nat) (sc : string)
  (wd : option string) (max : Z) (s : St W) :
  RunPipeline C g fuel sc [] wd max s = (Ret tt, s).
Proof. destruct fuel; reflexivity. Qed.

Lemma wait_for_space_no_room (g : namespace) (max : Z) (fuel : nat) :
  (max <= 0)%Z ->
  forall (s s' : St W) (o : outcome unit),
    wait_for_space C g fuel max s = (o, s') -> returned o = false.
Proof.
  intros Hmax. induction fuel as [|fuel IH]; intros s s' o;
    cbn [wait_for_space]; unfold bind at 1; rewrite Qstat_njobs_default;
    destruct (popen C (world s) (qstat_argv C) None) as [[lines|] w'];
    try (intros [= <- <-]; reflexivity);
    (assert (Hge : (Z.of_nat (List.length (qstat_job_ids lines)) >=? max)%Z = true)
       by (apply Z.geb_le; lia));
    rewrite Hge; unfold bind at 1;
    match goal with
    | |- context [sleep_poll_interval C g ?x] =>
        destruct (sleep_poll_interval C g x) as [[[]| |] s2]
    end; try (intros [= <- <-]; reflexivity).
  apply IH.
Qed.

(** X13. With a ceiling of zero or less and a batch that is not empty,
    [RunPipeline] submits nothing and does not return: it polls until it
    raises or exceeds its bound. *)
Theorem RunPipeline_no_room (g : namespace) (fuel : nat) (sc : string)
  (run_data : list (list string)) (wd : option string) (max : Z) (s : St W) :
  (max <= 0)%Z -> run_data <> [] ->
  returned (fst (RunPipeline C g fuel sc run_data wd max s)) = false /\
  polled s (snd (RunPipeline C g fuel sc run_data wd max s)).
Proof.
  intros Hmax Hne. destruct run_data as [|data rest]; [contradiction|].
  destruct (RunPipeline C g fuel sc (data :: rest) wd max s) as [o s'] eqn:E.
  simpl. revert E.
  unfold RunPipeline. unfold bind at 1. cbn [submit_all]. unfold bind at 1.
  destruct (UpdateRunningJobs C [] s) as [o1 s1] eqn:H1.
  apply UpdateRunningJobs_polls in H1.
  destruct o1 as [u| |]; try (intros [= <- <-]; split; [reflexivity|exact H1]).
  unfold bind at 1.
  destruct (wait_for_space C g fuel max s1) as [o2 s2] eqn:H2.
  pose proof (wait_for_space_no_room _ _ _ Hmax _ _ _ H2) as Hr.
  apply wait_for_space_shape in H2. destruct H2 as (d2 & H2 & P2 & _).
  assert (Hp : polled s s2).
  { eapply polled_trans; [exact H1|]. now exists d2. }
  destruct o2 as [[]| |]; try discriminate;
    intros [= <- <-]; (split; [reflexivity|exact Hp]).
Qed.

Lemma submit_all_in_order (g : namespace) (fuel : nat) (sc jn : string)
  (wd : option string) (max : Z) (run_data : list (list string)) :
  forall (running : list QsubJob) (s s' : St W) (o : outcome (list QsubJob)),
    submit_all C g fuel sc jn wd max run_data running s = (o, s') ->
    exists d k,
      grows_by s s' d /\ (k <= List.length run_data)%nat /\
      qsub_launches d = map (qsub_argv jn wd sc) (firstn k run_data) /\
      Forall (fun e => is_poll e = true \/ is_launch "qsub" e = true) d.
Proof.
  assert (Hpoll : forall d, Forall (fun e => is_poll e = true) d ->
            Forall (fun e => is_poll e = true \/ is_launch "qsub" e = true) d).
  { intros d. apply Forall_impl. intros e He. now left. }
  induction run_data as [|data rest IH]; intros running s s' o; cbn [submit_all].
  { intros [= <- <-]. exists [], 0%nat. split; [apply grows_by_refl|].
    split; [apply Nat.le_refl|]. split; [reflexivity|constructor]. }
  unfold bind at 1.
  destruct (UpdateRunningJobs C running s) as [o1 s1] eqn:H1.
  apply UpdateRunningJobs_polls in H1. destruct H1 as (d1 & H1 & P1).
  destruct o1 as [u| |];
    try (intros [= <- <-]; exists d1, 0%nat; split; [exact H1|];
         split; [apply Nat.le_0_l|]; split; [now apply qsub_launches_polls|auto]).
  unfold bind at 1.
  destruct (wait_for_space C g fuel max s1) as [o2 s2] eqn:H2.
  apply wait_for_space_shape in H2. destruct H2 as (d2 & H2 & P2 & _).
  pose proof (grows_by_trans _ _ _ _ _ H1 H2) as H12.
  assert (P12 : Forall (fun e => is_poll e = true) (d1 ++ d2))
    by now apply Forall_app.
  destruct o2 as [[]| |];
    try (intros [= <- <-]; exists (d1 ++ d2)%list, 0%nat; split; [exact H12|];
         split; [apply Nat.le_0_l|]; split; [now apply qsub_launches_polls|auto]).
  unfold bind at 1, QsubJob_init at 1, os_getcwd, bind at 1, ret at 1 2.
  set (job := mkJob jn wd sc data None None false false false (getcwd C)).
  unfold bind at 1.
  destruct (call (start C fuel) job s2) as [o3 s3] eqn:H3.
  apply call_start_shape in H3; try reflexivity.
  destruct H3 as (out & w1 & _ & (d4 & H4 & P4) & _).
  set (e := EvPopen (qsub_of job) (Some (getcwd C)) out) in *.
  assert (H14 : grows_by s s3 ((d1 ++ d2) ++ [e] ++ d4)).
  { eapply grows_by_trans; [exact H12|].
    eapply grows_by_trans; [apply grows_by_launched|exact H4]. }
  assert (Q14 : qsub_launches ((d1 ++ d2) ++ [e] ++ d4) = [qsub_argv jn wd sc data]).
  { rewrite !qsub_launches_app, (qsub_launches_polls _ P1),
      (qsub_launches_polls _ P2), (qsub_launches_polls _ P4).
    unfold e. rewrite qsub_launches_qsub. reflexivity. }
  assert (F14 : Forall (fun e => is_poll e = true \/ is_launch "qsub" e = true)
                  ((d1 ++ d2) ++ [e] ++ d4)).
  { apply Forall_app. split; [auto|]. apply Forall_app. split; [|auto].
    constructor; [|constructor]. right. apply is_launch_qsub_of. }
  destruct o3 as [r| |];
    try (intros [= <- <-]; eexists; exists 1%nat; split; [exact H14|];
         split; [simpl; lia|]; split; [exact Q14|exact F14]).
  intros H. apply IH in H. destruct H as (d5 & k & H5 & Hk & Q5 & F5).
  exists (((d1 ++ d2) ++ [e] ++ d4) ++ d5)%list, (S k).
  split; [eapply grows_by_trans; eassumption|].
  split; [simpl; lia|].
  split; [rewrite qsub_launches_app, Q14, Q5; reflexivity|].
  now apply Forall_app.
Qed.

(** X14. Whatever the outcome of [RunPipeline] (return, exception or bound
    exceeded), the submissions it has launched are those of the first tasks
    of the batch, one each, in the order of the batch: a task is never
    submitted before an earlier one, twice, or with other arguments. *)
Theorem RunPipeline_submits_in_order (g : namespace) (fuel : nat) (sc : string)
  (run_data : list (list string)) (wd : option string) (max : Z) (s : St W) :
  exists d k,
    grows_by s (snd (RunPipeline C g fuel sc run_data wd max s)) d /\
    (k <= List.length run_data)%nat /\
    qsub_launches d =
      map (qsub_argv (job_name_of sc) wd sc) (firstn k run_data).
Proof.
  unfold RunPipeline, bind.
  destruct (submit_all C g fuel sc (job_name_of sc) wd max run_data [] s)
    as [o1 s1] eqn:H1.
  apply submit_all_in_order in H1. destruct H1 as (d1 & k & H1 & Hk & Q1 & _).
  destruct o1 as [running| |]; try (exists d1, k; repeat split; assumption).
  destruct (wait_for_jobs C g fuel running s1) as [o2 s2] eqn:H2.
  apply wait_for_jobs_polls in H2. destruct H2 as (d2 & H2 & P2).
  exists (d1 ++ d2)%list, k. split; [now apply grows_by_trans with s1|].
  split; [exact Hk|].
  now rewrite qsub_launches_app, (qsub_launches_polls _ P2), app_nil_r.
Qed.

(** X15. [RunPipeline] does nothing on the cluster but list the queue,
    submit and sleep, whatever its outcome: it never launches qdel, so the
    jobs it has submitted stay in the queue when it fails. *)
Theorem RunPipeline_only_lists_and_submits (g : namespace) (fuel : nat)
  (sc : string) (run_data : list (list string)) (wd : option string) (max : Z)
  (s : St W) :
  exists d,
    grows_by s (snd (RunPipeline C g fuel sc run_data wd max s)) d /\
    Forall (fun e => is_poll e = true \/ is_launch "qsub" e = true) d /\
    Forall (fun e => is_launch "qdel" e = false) d.
Proof.
  assert (H : exists d,
             grows_by s (snd (RunPipeline C g fuel sc run_data wd max s)) d /\
             Forall (fun e => is_poll e = true \/ is_launch "qsub" e = true) d).
  { unfold RunPipeline, bind.
    destruct (submit_all C g fuel sc (job_name_of sc) wd max run_data [] s)
      as [o1 s1] eqn:H1.
    apply submit_all_in_order in H1. destruct H1 as (d1 & k & H1 & _ & _ & F1).
    destruct o1 as [running| |]; try (exists d1; split; assumption).
    destruct (wait_for_jobs C g fuel running s1) as [o2 s2] eqn:H2.
    apply wait_for_jobs_polls in H2. destruct H2 as (d2 & H2 & P2).
    exists (d1 ++ d2)%list. split; [now apply grows_by_trans with s1|].
    apply Forall_app. split; [exact F1|].
    eapply Forall_impl; [|exact P2]. intros e He. now left. }
  destruct H as (d & Hd & F). exists d. split; [exact Hd|]. split; [exact F|].
  eapply Forall_impl; [|exact F]. intros e [He|He].
  - now apply is_poll_not_launch.
  - destruct e as [[|a argv] cwd out|z]; simpl in *; try reflexivity.
    apply String.eqb_eq in He. now subst a.
Qed.

End MoreFacts.



(** * Finding the input files *)

(** ** Sorting *)

Lemma In_insert (x a : string) (l : list string) :
  In x (PyPath.insert a l) <-> x = a \/ In x l.
Proof.
  induction l as [|y l IH]; simpl.
  - intuition.
  - destruct (String.leb a y); simpl; [intuition|]. rewrite IH. intuition.
Qed.

Lemma In_sort (x : string) (l : list string) : In x (PyPath.sort l) <-> In x l.
Proof.
  induction l as [|y l IH]; simpl; [tauto|].
  rewrite In_insert, IH. intuition.
Qed.

Lemma leb_trans (a b c : string) :
  String.leb a b = true -> String.leb b c = true -> String.leb a c = true.
Proof.
  unfold String.leb.
  destruct (String.compare a b) eqn:Hab; try discriminate;
    destruct (String.compare b c) eqn:Hbc; try discriminate; intros _ _.
  - apply OrderedTypeEx.String_as_OT.cmp_eq in Hab, Hbc. subst.
    assert (E : String.compare c c = Eq)
      by (now apply OrderedTypeEx.String_as_OT.cmp_eq).
    now rewrite E.
  - apply OrderedTypeEx.String_as_OT.cmp_eq in Hab. subst. now rewrite Hbc.
  - apply OrderedTypeEx.String_as_OT.cmp_eq in Hbc. subst. now rewrite Hab.
  - apply OrderedTypeEx.String_as_OT.cmp_lt in Hab, Hbc.
    pose proof (OrderedTypeEx.String_as_OT.lt_trans _ _ _ Hab Hbc) as Hac.
    apply OrderedTypeEx.String_as_OT.cmp_lt in Hac.
    unfold OrderedTypeEx.String_as_OT.cmp in Hac. now rewrite Hac.
Qed.

Lemma insert_sorted (x : string) (l : list string) :
  StronglySorted (fun a b => String.leb a b = true) l ->
  StronglySorted (fun a b => String.leb a b = true) (PyPath.insert x l).
Proof.
  induction 1 as [|y l Hl IH Hy]; simpl; [repeat constructor|].
  destruct (String.leb x y) eqn:Hxy.
  - constructor; [now constructor|].
    constructor; [exact Hxy|].
    eapply Forall_impl; [|exact Hy]. intros z Hz. now apply leb_trans with y.
  - constructor; [exact IH|].
    apply Forall_forall. intros z Hz. apply In_insert in Hz.
    destruct Hz as [->|Hz].
    + destruct (String.leb_total x y) as [H|H]; [congruence|exact H].
    + now apply (proj1 (Forall_forall _ _) Hy).
Qed.

Lemma sort_sorted (l : list string) :
  StronglySorted (fun a b => String.leb a b = true) (PyPath.sort l).
Proof.
  induction l as [|x l IH]; simpl; [constructor|now apply insert_sorted].
Qed.

Lemma subseq_Forall {A : Type} (P : A -> Prop) (l1 l2 : list A) :
  subseq l1 l2 -> Forall P l2 -> Forall P l1.
Proof.
  induction 1 as [|x l1 l2 _ IH|x l1 l2 _ IH]; intros H;
    [constructor| |]; inversion H; subst; [constructor|]; auto.
Qed.

Lemma subseq_sorted {A : Type} (R : A -> A -> Prop) (l1 l2 : list A) :
  subseq l1 l2 -> StronglySorted R l2 -> StronglySorted R l1.
Proof.
  induction 1 as [|x l1 l2 Hs IH|x l1 l2 Hs IH]; intros H;
    [constructor| |]; apply StronglySorted_inv in H; destruct H as [H1 H2].
  - constructor; [now apply IH|now apply (subseq_Forall _ _ _ Hs)].
  - now apply IH.
Qed.

Lemma subseq_In {A : Type} (x : A) (l1 l2 : list A) :
  subseq l1 l2 -> In x l1 -> In x l2.
Proof.
  induction 1 as [|y l1 l2 _ IH|y l1 l2 _ IH]; simpl; intuition.
Qed.


(** ** Strings and paths *)

Lemma length_app_string (a b : string) :
  String.length (a ++ b) = (String.length a + String.length b)%nat.
Proof. induction a as [|c a IH]; simpl; [reflexivity|now rewrite IH]. Qed.

Lemma append_empty_r (a : string) : a ++ "" = a.
Proof. induction a as [|c a IH]; simpl; [reflexivity|now rewrite IH]. Qed.

Lemma take_app (a b : string) (k : nat) :
  PyPath.take (String.length a + k) (a ++ b) = a ++ PyPath.take k b.
Proof. induction a as [|c a IH]; simpl; [reflexivity|now rewrite IH]. Qed.

Lemma drop_app (a b : string) (k : nat) :
  PyPath.drop (String.length a + k) (a ++ b) = PyPath.drop k b.
Proof. induction a as [|c a IH]; simpl; [reflexivity|exact IH]. Qed.

Lemma drop_app_le (a b : string) :
  forall n, (n <= String.length a)%nat ->
            PyPath.drop n (a ++ b) = PyPath.drop n a ++ b.
Proof.
  induction a as [|c a IH]; intros [|n] Hn; simpl in *; try reflexivity; try lia.
  apply IH. lia.
Qed.

Lemma length_drop (a : string) :
  forall n, String.length (PyPath.drop n a) = (String.length a - n)%nat.
Proof.
  induction a as [|c a IH]; intros [|n]; simpl; try reflexivity. apply IH.
Qed.

Lemma all_dots_app (a b : string) :
  PyPath.all_dots (a ++ b) = PyPath.all_dots a && PyPath.all_dots b.
Proof.
  induction a as [|c a IH]; simpl; [reflexivity|].
  now rewrite IH, andb_assoc.
Qed.

Lemma rfind_from_app (c : ascii) (a b : string) :
  forall i last,
    PyPath.rfind_from c (a ++ b) i last =
    PyPath.rfind_from c b (i + String.length a) (PyPath.rfind_from c a i last).
Proof.
  induction a as [|x a IH]; intros i last; simpl.
  - now rewrite Nat.add_0_r.
  - rewrite IH. f_equal. lia.
Qed.

Lemma rfind_from_bound (c : ascii) (s : string) :
  forall i last k,
    PyPath.rfind_from c s i last = Some k ->
    last = Some k \/ (i <= k < i + String.length s)%nat.
Proof.
  induction s as [|x s IH]; intros i last k; simpl; [now left|].
  intros H. apply IH in H. destruct H as [H|H]; [|right; lia].
  destruct (Ascii.eqb x c); [|now left].
  injection H as <-. right. lia.
Qed.

Lemma rindex_from_QV (base : string) :
  forall i last,
    PyPath.rindex_from "_QV" (base ++ "_QV") i last =
    Some (i + String.length base)%nat.
Proof.
  induction base as [|c base IH]; intros i last.
  - simpl. now rewrite Nat.add_0_r.
  - cbn [append PyPath.rindex_from String.length]. rewrite IH. f_equal. lia.
Qed.

(** The root of '<base>_QV' gives '<base>.csfasta'. *)
Lemma csfasta_of_QV (base : string) :
  csfasta_of (base ++ "_QV") = Ok (base ++ ".csfasta").
Proof.
  unfold csfasta_of, PyPath.rindex. rewrite rindex_from_QV. simpl.
  rewrite <- (Nat.add_0_r (String.length base)) at 1. rewrite take_app.
  rewrite drop_app. simpl. now rewrite append_empty_r.
Qed.

Lemma rfind_dot_QV_qual (i : nat) (last : option nat) :
  PyPath.rfind_from "." "_QV.qual" i last = Some (i + 3)%nat.
Proof. simpl. f_equal. lia. Qed.

Lemma rfind_slash_QV_qual (i : nat) (last : option nat) :
  PyPath.rfind_from "/" "_QV.qual" i last = last.
Proof. reflexivity. Qed.

(** [os.path.splitext('<base>_QV.qual')] is [('<base>_QV', '.qual')],
    whatever [base], dots and slashes included. *)
Lemma splitext_QV_qual (base : string) :
  PyPath.splitext (base ++ "_QV.qual") = (base ++ "_QV", ".qual").
Proof.
  unfold PyPath.splitext, PyPath.rfind.
  rewrite !rfind_from_app, rfind_dot_QV_qual, rfind_slash_QV_qual.
  rewrite Nat.add_0_l.
  set (n := String.length base).
  assert (Ht : PyPath.take (n + 3) (base ++ "_QV.qual") = base ++ "_QV")
    by (unfold n; now rewrite take_app).
  assert (Hd : PyPath.drop (n + 3) (base ++ "_QV.qual") = ".qual")
    by (unfold n; now rewrite drop_app).
  rewrite Ht, Hd.
  assert (Hgo : forall start, (start <= n)%nat ->
            (start <=? n + 3)%nat &&
            negb (PyPath.all_dots
                    (PyPath.take (n + 3 - start)
                       (PyPath.drop start (base ++ "_QV.qual")))) = true).
  { intros start Hs.
    rewrite (proj2 (Nat.leb_le _ _)) by lia.
    rewrite (drop_app_le base "_QV.qual" start) by (fold n; lia).
    replace (n + 3 - start)%nat
      with (String.length (PyPath.drop start base) + 3)%nat
      by (rewrite length_drop; fold n; lia).
    rewrite take_app, all_dots_app.
    change (PyPath.all_dots (PyPath.take 3 "_QV.qual")) with false.
    now rewrite andb_false_r. }
  destruct (PyPath.rfind_from "/" base 0 None) as [sep|] eqn:Hsep.
  - apply rfind_from_bound in Hsep. destruct Hsep as [Hsep|Hsep]; [discriminate|].
    fold n in Hsep. rewrite Hgo by lia. reflexivity.
  - rewrite Hgo by lia. reflexivity.
Qed.

(** ** GetSolidDataFiles and GetFastqFiles *)

Section DiscoveryFacts.

Context {W : Type} (C : Cluster W).
Variable listdir : W -> string -> option (list string).

Lemma sorted_listing_bound (g : namespace) (w : W) (d : string)
  (files : list string) :
  lookup g "data_dir" = Some (VStr d) -> listdir w d = Some files ->
  sorted_listing listdir g w = Ok (d, PyPath.sort files).
Proof. intros Hg Hl. unfold sorted_listing. now rewrite Hg, Hl. Qed.

(** X16. [GetSolidDataFiles] and [GetFastqFiles] read the directory named by
    the global [data_dir], which only the loop of the [__main__] block
    binds: with that name unbound (the module was imported) both raise
    [NameError], whatever directory they are given. *)
Theorem discovery_needs_data_dir (g : namespace) (dirn : string) (w : W) :
  lookup g "data_dir" = None ->
  GetSolidDataFiles C listdir g dirn w = Error (Std (NameError "data_dir")) /\
  GetFastqFiles listdir g dirn w = Error (Std (NameError "data_dir")).
Proof.
  intros Hg. unfold GetSolidDataFiles, GetFastqFiles, sorted_listing.
  rewrite Hg. now split.
Qed.



Lemma csfasta_of_error (root : string) (e : error) :
  csfasta_of root = Error e -> e = ValueError.
Proof.
  unfold csfasta_of. destruct (PyPath.rindex root "_QV"); [discriminate|].
  now intros [= <-].
Qed.

Lemma solid_pairs_error (present : string -> bool) (d : string)
  (files : list string) (f : string) :
  In f files ->
  snd (PyPath.splitext f) = ".qual" ->
  PyPath.rindex (fst (PyPath.splitext f)) "_QV" = None ->
  forall acc, solid_pairs present d files acc = Error ValueError.
Proof.
  intros Hin Hext Hr. induction files as [|x files IH]; [destruct Hin|].
  intros acc. cbn [solid_pairs].
  destruct (String.eqb (snd (PyPath.splitext x)) ".qual") eqn:Hx.
  - destruct (csfasta_of (fst (PyPath.splitext x))) as [c|e] eqn:Hc.
    + destruct Hin as [->|Hin].
      * unfold csfasta_of in Hc. rewrite Hr in Hc. discriminate.
      * destruct (present (PyPath.join d c)); now apply IH.
    + now rewrite (csfasta_of_error _ _ Hc).
  - destruct Hin as [->|Hin]; [|now apply IH].
    rewrite Hext in Hx. discriminate.
Qed.

(** X18. A file with extension '.qual' whose name has no '_QV' makes
    [GetSolidDataFiles] raise [ValueError], whatever else the directory
    holds: the handler meant for it catches [IndexError], which
    [str.rindex] does not raise. *)
Theorem GetSolidDataFiles_qual_without_QV (g : namespace) (dirn : string)
  (w : W) (d : string) (files : list string) (f : string) :
  lookup g "data_dir" = Some (VStr d) -> listdir w d = Some files ->
  In f files ->
  snd (PyPath.splitext f) = ".qual" ->
  PyPath.rindex (fst (PyPath.splitext f)) "_QV" = None ->
  GetSolidDataFiles C listdir g dirn w = Error ValueError.
Proof.
  intros Hg Hl Hin Hext Hr. unfold GetSolidDataFiles.
  rewrite (sorted_listing_bound _ _ _ _ Hg Hl).
  apply (solid_pairs_error _ _ _ f); try assumption. now apply In_sort.
Qed.

Lemma solid_pairs_ok (present : string -> bool) (d : string)
  (files : list string) :
  forall acc out,
    solid_pairs present d files acc = Ok out ->
    exists new,
      out = (acc ++ new)%list /\
      subseq (map (fun t => nth 1 t "") new) files /\
      forall t, In t new <->
        exists q c,
          In q files /\ snd (PyPath.splitext q) = ".qual" /\
          csfasta_of (fst (PyPath.splitext q)) = Ok c /\
          present (PyPath.join d c) = true /\ t = [c; q].
Proof.
  induction files as [|f files IH]; intros acc out; cbn [solid_pairs].
  { intros [= <-]. exists []. split; [now rewrite app_nil_r|].
    split; [constructor|]. intros t. split; [intros []|].
    intros (q & c & [] & _). }
  destruct (String.eqb (snd (PyPath.splitext f)) ".qual") eqn:Hx.
  - destruct (csfasta_of (fst (PyPath.splitext f))) as [c|e] eqn:Hc;
      [|discriminate].
    destruct (present (PyPath.join d c)) eqn:Hp; intros H; apply IH in H;
      destruct H as (new & -> & Hsub & Hin).
    + exists ([c; f] :: new). split; [now rewrite <- app_assoc|].
      split; [simpl; now constructor|].
      intros t. simpl. rewrite Hin. split.
      * intros [<-|(q & c' & Hq & H)].
        -- exists f, c. apply String.eqb_eq in Hx. repeat split; auto.
        -- exists q, c'. split; [now right|exact H].
      * intros (q & c' & [<-|Hq] & He & Hc' & Hp' & ->).
        -- left. congruence.
        -- right. now exists q, c'.
    + exists new. split; [reflexivity|]. split; [now constructor|].
      intros t. rewrite Hin. split.
      * intros (q & c' & Hq & H). exists q, c'. split; [now right|exact H].
      * intros (q & c' & [<-|Hq] & He & Hc' & Hp' & ->).
        -- rewrite Hc in Hc'. injection Hc' as <-. congruence.
        -- now exists q, c'.
  - intros H. apply IH in H. destruct H as (new & -> & Hsub & Hin).
    exists new. split; [reflexivity|]. split; [now constructor|].
    intros t. rewrite Hin. split.
    * intros (q & c' & Hq & H). exists q, c'. split; [now right|exact H].
    * intros (q & c' & [<-|Hq] & He & Hc' & Hp' & ->).
      -- rewrite He in Hx. discriminate.
      -- now exists q, c'.
Qed.

(** X19. When [GetSolidDataFiles] returns, its result holds exactly the
    pairs (csfasta, qual) such that qual is a name of the directory with
    extension '.qual', csfasta is that name without its last '_QV' and with
    extension '.csfasta', and csfasta exists in the directory; the pairs
    come in ascending order of the qual names. *)
Theorem GetSolidDataFiles_pairs (g : namespace) (dirn : string) (w : W)
  (d : string) (files : list string) (pairs : list (list string)) :
  lookup g "data_dir" = Some (VStr d) -> listdir w d = Some files ->
  GetSolidDataFiles C listdir g dirn w = Ok pairs ->
  (forall t, In t pairs <->
     exists q c,
       In q files /\ snd (PyPath.splitext q) = ".qual" /\
       csfasta_of (fst (PyPath.splitext q)) = Ok c /\
       path_exists C w (PyPath.join d c) = true /\ t = [c; q]) /\
  StronglySorted (fun a b => String.leb a b = true)
                 (map (fun t => nth 1 t "") pairs).
Proof.
  intros Hg Hl. unfold GetSolidDataFiles.
  rewrite (sorted_listing_bound _ _ _ _ Hg Hl). intros H.
  apply solid_pairs_ok in H. destruct H as (new & -> & Hsub & Hin).
  simpl. split.
  - intros t. rewrite Hin. split; intros (q & c & Hq & H); exists q, c;
      (split; [now apply In_sort|exact H]).
  - eapply subseq_sorted; [exact Hsub|apply sort_sorted].
Qed.

(** X20. When [GetSolidDataFiles] returns, a file '<base>_QV.qual' of the
    directory is paired with '<base>.csfasta' as soon as that file exists in
    the directory, whatever [base] is. *)
Theorem GetSolidDataFiles_pairs_QV (g : namespace) (dirn : string) (w : W)
  (d : string) (files : list string) (pairs : list (list string))
  (base : string) :
  lookup g "data_dir" = Some (VStr d) -> listdir w d = Some files ->
  GetSolidDataFiles C listdir g dirn w = Ok pairs ->
  In (base ++ "_QV.qual") files ->
  path_exists C w (PyPath.join d (base ++ ".csfasta")) = true ->
  In [base ++ ".csfasta"; base ++ "_QV.qual"] pairs.
Proof.
  intros Hg Hl. unfold GetSolidDataFiles.
  rewrite (sorted_listing_bound _ _ _ _ Hg Hl). intros H Hin Hp.
  apply solid_pairs_ok in H. destruct H as (new & -> & _ & Hnew).
  simpl. apply Hnew.
  exists (base ++ "_QV.qual"), (base ++ ".csfasta").
  rewrite splitext_QV_qual. simpl.
  split; [now apply In_sort|]. split; [reflexivity|].
  split; [apply csfasta_of_QV|]. now split.
Qed.

End DiscoveryFacts.

(** ** The properties on the scripted cluster *)

Lemma qsub_job_id_last_line_witness :
  qsub_job_id ["Your job 41 (qc) has been submitted"] None = Ret (Some "41") /\
  Py.startswith "Your job 42 (qc) has been submitted" "Your job" = true /\
  nth_error (Py.split "Your job 42 (qc) has been submitted") 2 = Some "42" /\
  no_job_line ["bye"] /\
  qsub_job_id (["Your job 41 (qc) has been submitted"] ++
               "Your job 42 (qc) has been submitted" :: ["bye"]) None =
  Ret (Some "42").
Proof.
  assert (H : no_job_line ["bye"]) by (repeat constructor).
  repeat (split; [first [reflexivity | exact H]|]).
  apply (qsub_job_id_last_line ["Your job 41 (qc) has been submitted"] ["bye"]
           "Your job 42 (qc) has been submitted" "42" None (Some "41")
           eq_refl eq_refl eq_refl H).
Defined.

Lemma qsub_job_id_short_line_witness :
  In "Your job" ["Your job 41 (qc) has been submitted"; "Your job"] /\
  Py.startswith "Your job" "Your job" = true /\
  nth_error (Py.split "Your job") 2 = None /\
  qsub_job_id ["Your job 41 (qc) has been submitted"; "Your job"] None =
  Raise IndexError.
Proof.
  assert (H : In "Your job" ["Your job 41 (qc) has been submitted"; "Your job"])
    by (right; left; reflexivity).
  split; [exact H|]. split; [reflexivity|]. split; [reflexivity|].
  apply (qsub_job_id_short_line _ "Your job" None H eq_refl eq_refl).
Defined.

Lemma isRunning_never_submitted_witness :
  submitted new_job = false /\
  isRunning scripted (new_job, on_tape [queued ["42"]]) =
  (Ret false, (new_job, on_tape [queued ["42"]])).
Proof.
  split; [reflexivity|].
  apply (isRunning_never_submitted scripted new_job (on_tape [queued ["42"]]) eq_refl).
Defined.

Lemma isRunning_false_for_good_witness :
  isRunning scripted (running_job, on_tape [queued []]) =
    (Ret false, (set_finished true running_job,
                 launched (on_tape [queued []]) (qstat_argv scripted) None (queued []) [])) /\
  isRunning scripted (set_finished true running_job, on_tape [queued ["42"]]) =
    (Ret false, (set_finished true running_job, on_tape [queued ["42"]])).
Proof.
  assert (H : isRunning scripted (running_job, on_tape [queued []]) =
              (Ret false, (set_finished true running_job,
                           launched (on_tape [queued []]) (qstat_argv scripted)
                             None (queued []) [])))
    by (vm_compute; reflexivity).
  split; [exact H|].
  apply (isRunning_false_for_good scripted _ _ _ _ H (on_tape [queued ["42"]])).
Defined.

Lemma start_once_witness :
  exists s',
    start scripted 0 (new_job, on_tape [accepted "42"; queued ["42"]]) =
      (Ret (Some "42"), (running_job, s')) /\
    start scripted 0 (running_job, on_tape [accepted "43"; queued ["43"]]) =
      (Ret (Some "42"), (running_job, on_tape [accepted "43"; queued ["43"]])).
Proof.
  pose (r := start scripted 0 (new_job, on_tape [accepted "42"; queued ["42"]])).
  assert (H : r = (Ret (Some "42"), (running_job, snd (snd r))))
    by (vm_compute; reflexivity).
  exists (snd (snd r)). split; [exact H|].
  apply (start_once scripted 0 new_job running_job _ _ _ H 0%nat
           (on_tape [accepted "43"; queued ["43"]])).
Defined.

Lemma start_returns_on_evidence_witness :
  exists s',
    submitted new_job = false /\ finished new_job = false /\
    start scripted 0 (new_job, on_tape [accepted "42"; queued ["42"]]) =
      (Ret (Some "42"), (running_job, s')) /\
    exists i d lines,
      Some "42" = Some i /\
      grows_by (on_tape [accepted "42"; queued ["42"]]) s'
        (d ++ [EvPopen (qstat_argv scripted) None (Some lines)]) /\
      (In i (qstat_job_ids lines) \/
       path_exists scripted (world s') (name new_job ++ ".o" ++ i) = true).
Proof.
  pose (r := start scripted 0 (new_job, on_tape [accepted "42"; queued ["42"]])).
  assert (H : r = (Ret (Some "42"), (running_job, snd (snd r))))
    by (vm_compute; reflexivity).
  exists (snd (snd r)). split; [reflexivity|]. split; [reflexivity|].
  split; [exact H|].
  apply (start_returns_on_evidence scripted 0 new_job running_job _ _ _
           eq_refl eq_refl H).
Defined.

Lemma job_never_cancelled_witness :
  exists j' s',
    perform scripted (globals (Main 4 0 "solid")) (Resubmit 0)
      (running_job,
       on_tape [queued ["42"]; queued ["42"]; queued []; accepted "43"; queued ["43"]]) =
      (Ret tt, (j', s')) /\
    exists d,
      grows_by
        (on_tape [queued ["42"]; queued ["42"]; queued []; accepted "43"; queued ["43"]])
        s' d /\
      Forall (fun e => is_launch "qdel" e = false) d /\
      forall pre e post,
        d = (pre ++ e :: post)%list -> is_launch "qsub" e = true ->
        exists pre' q, pre = (pre' ++ [q])%list /\ lists_without "42" q.
Proof.
  pose (t := [queued ["42"]; queued ["42"]; queued []; accepted "43"; queued ["43"]]).
  pose (r := perform scripted (globals (Main 4 0 "solid")) (Resubmit 0)
               (running_job, on_tape t)).
  assert (H : r = (Ret tt, (fst (snd r), snd (snd r))))
    by (vm_compute; reflexivity).
  exists (fst (snd r)), (snd (snd r)). split; [exact H|].
  destruct (job_never_cancelled scripted (Main 4 0 "solid") (Resubmit 0)
              running_job _ (on_tape t) _ _ H) as (d & Hd & Hq & Hw).
  exists d. split; [exact Hd|]. split; [exact Hq|].
  intros pre e post E He.
  exact (Hw 0%nat "42" pre e post eq_refl (conj eq_refl eq_refl) eq_refl E He).
Defined.

Lemma UpdateRunningJobs_keeps_witness :
  exists s',
    UpdateRunningJobs scripted [running_job; new_job; running_job]
      (on_tape [queued ["42"]; queued []]) = (Ret [running_job], s') /\
    subseq [running_job] [running_job; new_job; running_job] /\
    Forall live [running_job].
Proof.
  pose (r := UpdateRunningJobs scripted [running_job; new_job; running_job]
               (on_tape [queued ["42"]; queued []])).
  assert (H : r = (Ret [running_job], snd r)) by (vm_compute; reflexivity).
  exists (snd r). split; [exact H|].
  apply (UpdateRunningJobs_keeps scripted _ _ _ _ H).
Defined.

Lemma UpdateRunningJobs_one_listing_each_witness :
  exists s',
    UpdateRunningJobs scripted [running_job; new_job; running_job]
      (on_tape [queued ["42"]; queued []]) = (Ret [running_job], s') /\
    exists d,
      grows_by (on_tape [queued ["42"]; queued []]) s' d /\
      Forall (fun e => is_listing e = true) d /\
      List.length d = 2%nat.
Proof.
  pose (r := UpdateRunningJobs scripted [running_job; new_job; running_job]
               (on_tape [queued ["42"]; queued []])).
  assert (H : r = (Ret [running_job], snd r)) by (vm_compute; reflexivity).
  exists (snd r). split; [exact H|].
  apply (UpdateRunningJobs_one_listing_each scripted _ _ _ _ H).
Defined.

Lemma RunPipeline_no_room_witness :
  (0 <= 0)%Z /\ [["a.csfasta"; "a_QV.qual"]] <> [] /\
  returned (fst (RunPipeline scripted (globals (Main 0 0 "solid")) 3
                   "/home/me/qc.sh" [["a.csfasta"; "a_QV.qual"]]
                   (Some "/data/run1") 0 (on_tape []))) = false.
Proof.
  split; [lia|]. split; [discriminate|].
  apply (proj1 (RunPipeline_no_room scripted (globals (Main 0 0 "solid")) 3
                  "/home/me/qc.sh" [["a.csfasta"; "a_QV.qual"]]
                  (Some "/data/run1") 0 (on_tape [])
                  ltac:(lia) ltac:(discriminate))).
Defined.

Lemma discovery_needs_data_dir_witness :
  lookup (globals Imported) "data_dir" = None /\
  GetSolidDataFiles stocked run1_listdir (globals Imported) "/data/run1" [] =
    Error (Std (NameError "data_dir")) /\
  GetFastqFiles run1_listdir (globals Imported) "/data/run1" [] =
    Error (Std (NameError "data_dir")).
Proof.
  split; [reflexivity|].
  apply (discovery_needs_data_dir stocked run1_listdir (globals Imported)
           "/data/run1" [] eq_refl).
Defined.


Lemma GetSolidDataFiles_qual_without_QV_witness :
  lookup (in_data_dir "/data/run1" (globals (Main 4 0 "solid"))) "data_dir" =
    Some (VStr "/data/run1") /\
  odd_listdir [] "/data/run1" = Some ["a.csfasta"; "a.qual"] /\
  In "a.qual" ["a.csfasta"; "a.qual"] /\
  snd (PyPath.splitext "a.qual") = ".qual" /\
  PyPath.rindex (fst (PyPath.splitext "a.qual")) "_QV" = None /\
  GetSolidDataFiles stocked odd_listdir
    (in_data_dir "/data/run1" (globals (Main 4 0 "solid"))) "/data/run1" [] =
  Error ValueError.
Proof.
  assert (H : In "a.qual" ["a.csfasta"; "a.qual"]) by (right; left; reflexivity).
  split; [reflexivity|]. split; [reflexivity|]. split; [exact H|].
  split; [reflexivity|]. split; [reflexivity|].
  apply (GetSolidDataFiles_qual_without_QV stocked odd_listdir
           (in_data_dir "/data/run1" (globals (Main 4 0 "solid"))) "/data/run1" []
           "/data/run1" ["a.csfasta"; "a.qual"] "a.qual"
           eq_refl eq_refl H eq_refl eq_refl).
Defined.

Lemma GetSolidDataFiles_pairs_witness :
  lookup (in_data_dir "/data/run1" (globals (Main 4 0 "solid"))) "data_dir" =
    Some (VStr "/data/run1") /\
  run1_listdir [] "/data/run1" = Some run1_files /\
  GetSolidDataFiles stocked run1_listdir
    (in_data_dir "/data/run1" (globals (Main 4 0 "solid"))) "/data/run1" [] =
    Ok [["a.csfasta"; "a_QV.qual"]; ["b.csfasta"; "b_QV.qual"]] /\
  StronglySorted (fun a b => String.leb a b = true)
    (map (fun t => nth 1 t "") [["a.csfasta"; "a_QV.qual"]; ["b.csfasta"; "b_QV.qual"]]).
Proof.
  assert (H : GetSolidDataFiles stocked run1_listdir
                (in_data_dir "/data/run1" (globals (Main 4 0 "solid")))
                "/data/run1" [] =
              Ok [["a.csfasta"; "a_QV.qual"]; ["b.csfasta"; "b_QV.qual"]])
    by (vm_compute; reflexivity).
  split; [reflexivity|]. split; [reflexivity|]. split; [exact H|].
  apply (proj2 (GetSolidDataFiles_pairs stocked run1_listdir
                  (in_data_dir "/data/run1" (globals (Main 4 0 "solid")))
                  "/data/run1" [] "/data/run1" run1_files _ eq_refl eq_refl H)).
Defined.

Lemma GetSolidDataFiles_pairs_QV_witness :
  In ("b" ++ "_QV.qual") run1_files /\
  path_exists stocked [] (PyPath.join "/data/run1" ("b" ++ ".csfasta")) = true /\
  In ["b" ++ ".csfasta"; "b" ++ "_QV.qual"]
     [["a.csfasta"; "a_QV.qual"]; ["b.csfasta"; "b_QV.qual"]].
Proof.
  assert (H : GetSolidDataFiles stocked run1_listdir
                (in_data_dir "/data/run1" (globals (Main 4 0 "solid")))
                "/data/run1" [] =
              Ok [["a.csfasta"; "a_QV.qual"]; ["b.csfasta"; "b_QV.qual"]])
    by (vm_compute; reflexivity).
  assert (I : In ("b" ++ "_QV.qual") run1_files) by (left; reflexivity).
  assert (P : path_exists stocked [] (PyPath.join "/data/run1" ("b" ++ ".csfasta")) = true)
    by (vm_compute; reflexivity).
  split; [exact I|]. split; [exact P|].
  apply (GetSolidDataFiles_pairs_QV stocked run1_listdir
           (in_data_dir "/data/run1" (globals (Main 4 0 "solid")))
           "/data/run1" [] "/data/run1" run1_files _ "b" eq_refl eq_refl H I P).
Defined.


(** * The loop over the data directories *)

Section MainLoopFacts.

Context {W : Type} (C : Cluster W).
Variable listdir : W -> string -> option (list string).

Lemma RunPipeline_launches (g : namespace) (fuel : nat) (sc : string)
  (run_data : list (list string)) (wd : option string) (max : Z) (s : St W) :
  exists d k,
    grows_by s (snd (RunPipeline C g fuel sc run_data wd max s)) d /\
    (k <= List.length run_data)%nat /\
    qsub_launches d =
      map (qsub_argv (job_name_of sc) wd sc) (firstn k run_data).
Proof.
  unfold RunPipeline, bind.
  destruct (submit_all C g fuel sc (job_name_of sc) wd max run_data [] s)
    as [o1 s1] eqn:H1.
  apply submit_all_in_order in H1. destruct H1 as (d1 & k & H1 & Hk & Q1 & _).
  destruct o1 as [running| |]; try (exists d1, k; repeat split; assumption).
  destruct (wait_for_jobs C g fuel running s1) as [o2 s2] eqn:H2.
  apply wait_for_jobs_polls in H2. destruct H2 as (d2 & H2 & P2).
  exists (d1 ++ d2)%list, k. split; [now apply grows_by_trans with s1|].
  split; [exact Hk|].
  now rewrite qsub_launches_app, (qsub_launches_polls _ P2), app_nil_r.
Qed.

Lemma main_loop_launches (limit test : Z) (it sc : string) (fuel : nat)
  (data_dirs : list string) :
  forall (prev : option (list (list string))) (s s' : St W) (o : main_outcome),
    main_loop C listdir limit test it sc fuel data_dirs prev s = (o, s') ->
    exists d,
      grows_by s s' d /\
      ((test > 0)%Z ->
       (List.length (qsub_launches d) <= Z.to_nat test * List.length data_dirs)%nat) /\
      Forall (fun argv => exists dd data,
                In dd data_dirs /\
                argv = qsub_argv (job_name_of sc) (Some dd) sc data)
             (qsub_launches d).
Proof.
  induction data_dirs as [|dd rest IH]; intros prev s s' o; cbn [main_loop].
  { intros [= <- <-]. exists []. split; [apply grows_by_refl|].
    split; [intros _; simpl; lia|constructor]. }
  assert (Hnil : exists d : list event,
             grows_by s s d /\
             ((test > 0)%Z ->
              (List.length (qsub_launches d) <=
               Z.to_nat test * List.length (dd :: rest))%nat) /\
             Forall (fun argv => exists dd0 data,
                       In dd0 (dd :: rest) /\
                       argv = qsub_argv (job_name_of sc) (Some dd0) sc data)
                    (qsub_launches d)).
  { exists []. split; [apply grows_by_refl|].
    split; [intros _; simpl; lia|constructor]. }
  assert (Hrest : forall (p : option (list (list string))) (s1 : St W)
                         (d1 : list event),
             grows_by s s1 d1 ->
             ((test > 0)%Z -> (List.length (qsub_launches d1) <= Z.to_nat test)%nat) ->
             Forall (fun argv => exists data,
                       argv = qsub_argv (job_name_of sc) (Some dd) sc data)
                    (qsub_launches d1) ->
             main_loop C listdir limit test it sc fuel rest p s1 = (o, s') ->
             exists d : list event,
               grows_by s s' d /\
               ((test > 0)%Z ->
                (List.length (qsub_launches d) <=
                 Z.to_nat test * List.length (dd :: rest))%nat) /\
               Forall (fun argv => exists dd0 data,
                         In dd0 (dd :: rest) /\
                         argv = qsub_argv (job_name_of sc) (Some dd0) sc data)
                      (qsub_launches d)).
  { intros p s1 d1 H1 L1 F1 H. apply IH in H. destruct H as (d2 & H2 & L2 & F2).
    exists (d1 ++ d2)%list. split; [now apply grows_by_trans with s1|].
    rewrite qsub_launches_app. split.
    - intros Ht. rewrite length_app. specialize (L1 Ht). specialize (L2 Ht).
      simpl. lia.
    - apply Forall_app. split.
      + eapply Forall_impl; [|exact F1]. intros a (data & ->).
        exists dd, data. split; [now left|reflexivity].
      + eapply Forall_impl; [|exact F2]. intros a (dd0 & data & Hin & ->).
        exists dd0, data. split; [now right|reflexivity]. }
  destruct (collect C listdir it
              (in_data_dir dd (globals (Main limit test it))) dd prev (world s))
    as [[[|t found]|]|e]; try (intros [= <- <-]; exact Hnil).
  { intros H. apply (Hrest _ _ [] (grows_by_refl s)) in H; [exact H| |constructor].
    intros _. simpl. lia. }
  set (batch := if (test >? 0)%Z then firstn (Z.to_nat test) (t :: found)
                else t :: found).
  set (g := in_data_dir dd (globals (Main limit test it))).
  destruct (RunPipeline_launches g fuel sc batch (Some dd) limit s)
    as (d1 & k & H1 & Hk & Q1).
  assert (L1 : (test > 0)%Z -> (List.length (qsub_launches d1) <= Z.to_nat test)%nat).
  { intros Ht. rewrite Q1, length_map, length_firstn.
    assert (Hb : (List.length batch <= Z.to_nat test)%nat).
    { unfold batch. rewrite (proj2 (Z.gtb_lt _ _)) by lia.
      rewrite length_firstn. lia. }
    lia. }
  assert (F1 : Forall (fun argv => exists data,
                         argv = qsub_argv (job_name_of sc) (Some dd) sc data)
                      (qsub_launches d1)).
  { rewrite Q1. apply Forall_forall. intros a Ha. apply in_map_iff in Ha.
    destruct Ha as (data & <- & _). now exists data. }
  destruct (RunPipeline C g fuel sc batch (Some dd) limit s) as [[[]| |] s1];
    simpl in H1.
  - now apply Hrest with (d1 := d1).
  - intros [= <- <-]. exists d1. split; [exact H1|]. split.
    + intros Ht. specialize (L1 Ht). simpl. lia.
    + eapply Forall_impl; [|exact F1]. intros a (data & ->).
      exists dd, data. split; [now left|reflexivity].
  - intros [= <- <-]. exists d1. split; [exact H1|]. split.
    + intros Ht. specialize (L1 Ht). simpl. lia.
    + eapply Forall_impl; [|exact F1]. intros a (data & ->).
      exists dd, data. split; [now left|reflexivity].
Qed.

(** X21. With an input type that is neither 'solid' nor 'fastq', the loop
    fails on the first data directory with [NameError] on [run_data] (no
    branch has bound it), before anything is asked of the cluster. *)
Theorem main_loop_unknown_input_type (limit test : Z) (it sc : string)
  (fuel : nat) (dd : string) (rest : list string) (s : St W) :
  it <> "solid" -> it <> "fastq" ->
  main_loop C listdir limit test it sc fuel (dd :: rest) None s =
  (Failed (Std (NameError "run_data")), s).
Proof.
  intros H1 H2. cbn [main_loop]. unfold collect.
  apply String.eqb_neq in H1, H2. now rewrite H1, H2.
Qed.

(** X22. In test mode (--test=n with n > 0) the loop submits at most n jobs
    for each data directory, whatever its outcome: what it did on the
    cluster is one stretch for each data directory it came to, in order,
    and each stretch holds at most n submissions, all of them with that
    directory as working directory. *)
Theorem main_loop_test_mode (limit test : Z) (it sc : string) (fuel : nat)
  (data_dirs : list string) (prev : option (list (list string)))
  (s s' : St W) (o : main_outcome) :
  (test > 0)%Z ->
  main_loop C listdir limit test it sc fuel data_dirs prev s = (o, s') ->
  exists (visited later : list string) (stretches : list (list event)),
    data_dirs = (visited ++ later)%list /\
    grows_by s s' (List.concat stretches) /\
    Forall2 (fun dd d =>
               (List.length (qsub_launches d) <= Z.to_nat test)%nat /\
               forall argv, In argv (qsub_launches d) ->
                 exists data, argv = qsub_argv (job_name_of sc) (Some dd) sc data)
            visited stretches.
Proof.
  intros Ht. revert prev s s' o.
  induction data_dirs as [|dd rest IH]; intros prev s s' o; cbn [main_loop].
  { intros [= <- <-]. exists [], [], []. split; [reflexivity|].
    split; [apply grows_by_refl|constructor]. }
  set (stretch := fun (dd : string) (d : list event) =>
         (List.length (qsub_launches d) <= Z.to_nat test)%nat /\
         forall argv, In argv (qsub_launches d) ->
           exists data, argv = qsub_argv (job_name_of sc) (Some dd) sc data) in *.
  assert (Hstop : exists visited later stretches,
             dd :: rest = (visited ++ later)%list /\
             grows_by s s (List.concat stretches) /\
             Forall2 stretch visited stretches).
  { exists [], (dd :: rest), []. split; [reflexivity|].
    split; [apply grows_by_refl|constructor]. }
  assert (Hrest : forall (p : option (list (list string))) (s1 : St W)
                         (d1 : list event),
             grows_by s s1 d1 -> stretch dd d1 ->
             main_loop C listdir limit test it sc fuel rest p s1 = (o, s') ->
             exists visited later stretches,
               dd :: rest = (visited ++ later)%list /\
               grows_by s s' (List.concat stretches) /\
               Forall2 stretch visited stretches).
  { intros p s1 d1 H1 S1 H. apply IH in H.
    destruct H as (visited & later & stretches & -> & Hg & F).
    exists (dd :: visited), later, (d1 :: stretches). split; [reflexivity|].
    split; [now apply grows_by_trans with s1|now constructor]. }
  assert (Hnone : stretch dd []) by (split; [simpl; lia|intros argv []]).
  destruct (collect C listdir it
              (in_data_dir dd (globals (Main limit test it))) dd prev (world s))
    as [[[|t found]|]|e]; try (intros [= <- <-]; exact Hstop).
  { intros H. now apply (Hrest _ _ [] (grows_by_refl s) Hnone) in H. }
  set (batch := if (test >? 0)%Z then firstn (Z.to_nat test) (t :: found)
                else t :: found).
  set (g := in_data_dir dd (globals (Main limit test it))).
  destruct (RunPipeline_launches g fuel sc batch (Some dd) limit s)
    as (d1 & k & H1 & Hk & Q1).
  assert (S1 : stretch dd d1).
  { split.
    - rewrite Q1, length_map, length_firstn.
      assert (Hb : (List.length batch <= Z.to_nat test)%nat).
      { unfold batch. rewrite (proj2 (Z.gtb_lt _ _)) by lia.
        rewrite length_firstn. lia. }
      lia.
    - intros argv Ha. rewrite Q1 in Ha. apply in_map_iff in Ha.
      destruct Ha as (data & <- & _). now exists data. }
  assert (Hlast : forall s1 : St W,
             grows_by s s1 d1 ->
             exists visited later stretches,
               dd :: rest = (visited ++ later)%list /\
               grows_by s s1 (List.concat stretches) /\
               Forall2 stretch visited stretches).
  { intros s1 Hg. exists [dd], rest, [d1]. split; [reflexivity|].
    split; [simpl; now rewrite app_nil_r|constructor; [exact S1|constructor]]. }
  destruct (RunPipeline C g fuel sc batch (Some dd) limit s) as [[[]| |] s1];
    simpl in H1.
  - now apply Hrest with (d1 := d1).
  - intros [= <- <-]. now apply Hlast.
  - intros [= <- <-]. now apply Hlast.
Qed.

(** X23. Every job the loop submits is submitted with one of the data
    directories as its working directory, under the job name derived from
    the script and with the script as its command. *)
Theorem main_loop_working_dirs (limit test : Z) (it sc : string) (fuel : nat)
  (data_dirs : list string) (prev : option (list (list string)))
  (s s' : St W) (o : main_outcome) :
  main_loop C listdir limit test it sc fuel data_dirs prev s = (o, s') ->
  exists d,
    grows_by s s' d /\
    forall argv, In argv (qsub_launches d) ->
      exists dd data,
        In dd data_dirs /\ argv = qsub_argv (job_name_of sc) (Some dd) sc data.
Proof.
  intros H. apply main_loop_launches in H. destruct H as (d & Hd & _ & F).
  exists d. split; [exact Hd|]. now apply Forall_forall.
Qed.

(** X24. Data directories in which no input file is found are skipped: when
    none of the directories holds any, the loop ends normally without
    having asked anything of the cluster. *)
Theorem main_loop_no_data (limit test : Z) (it sc : string) (fuel : nat)
  (data_dirs : list string) (s : St W) :
  (forall dd prev, In dd data_dirs ->
     collect C listdir it (in_data_dir dd (globals (Main limit test it)))
             dd prev (world s) = Ok (Some [])) ->
  forall prev,
    main_loop C listdir limit test it sc fuel data_dirs prev s = (AllFinished, s).
Proof.
  induction data_dirs as [|dd rest IH]; intros H prev; cbn [main_loop];
    [reflexivity|].
  rewrite (H dd prev (or_introl eq_refl)).
  apply IH. intros dd0 p Hin. apply H. now right.
Qed.

End MainLoopFacts.

Lemma main_loop_unknown_input_type_witness :
  "bam" <> "solid" /\ "bam" <> "fastq" /\
  main_loop stocked run1_listdir 4 0 "bam" "/home/me/qc.sh" 1
    ["/data/run1"] None (on_tape []) =
  (Failed (Std (NameError "run_data")), on_tape []).
Proof.
  split; [discriminate|]. split; [discriminate|].
  apply (main_loop_unknown_input_type stocked run1_listdir 4 0 "bam"
           "/home/me/qc.sh" 1 "/data/run1" [] (on_tape [])); discriminate.
Defined.

Lemma main_loop_test_mode_witness :
  exists s',
    (1 > 0)%Z /\
    main_loop stocked run1_listdir 4 1 "solid" "/home/me/qc.sh" 1
      ["/data/run1"; "/data/run1"] None
      (on_tape [queued []; accepted "42"; queued ["42"]; queued [];
                queued []; accepted "43"; queued ["43"]; queued []]) =
      (AllFinished, s') /\
    exists visited later stretches,
      ["/data/run1"; "/data/run1"] = (visited ++ later)%list /\
      grows_by
        (on_tape [queued []; accepted "42"; queued ["42"]; queued [];
                  queued []; accepted "43"; queued ["43"]; queued []])
        s' (List.concat stretches) /\
      Forall2 (fun dd d =>
                 (List.length (qsub_launches d) <= Z.to_nat 1)%nat /\
                 forall argv, In argv (qsub_launches d) ->
                   exists data,
                     argv = qsub_argv (job_name_of "/home/me/qc.sh") (Some dd)
                              "/home/me/qc.sh" data)
              visited stretches.
Proof.
  pose (t := [queued []; accepted "42"; queued ["42"]; queued [];
              queued []; accepted "43"; queued ["43"]; queued []]).
  pose (r := main_loop stocked run1_listdir 4 1 "solid" "/home/me/qc.sh" 1
               ["/data/run1"; "/data/run1"] None (on_tape t)).
  assert (H : r = (AllFinished, snd r)) by (vm_compute; reflexivity).
  exists (snd r). split; [lia|]. split; [exact H|].
  apply (main_loop_test_mode stocked run1_listdir 4 1 "solid" "/home/me/qc.sh" 1
           ["/data/run1"; "/data/run1"] None (on_tape t) (snd r) AllFinished
           ltac:(lia) H).
Defined.

Lemma main_loop_working_dirs_witness :
  exists s',
    main_loop stocked run1_listdir 4 1 "solid" "/home/me/qc.sh" 1
      ["/data/run1"] None
      (on_tape [queued []; accepted "42"; queued ["42"]; queued []]) =
      (AllFinished, s') /\
    exists d,
      grows_by (on_tape [queued []; accepted "42"; queued ["42"]; queued []]) s' d /\
      forall argv, In argv (qsub_launches d) ->
        exists dd data,
          In dd ["/data/run1"] /\
          argv = qsub_argv (job_name_of "/home/me/qc.sh") (Some dd)
                   "/home/me/qc.sh" data.
Proof.
  pose (t := [queued []; accepted "42"; queued ["42"]; queued []]).
  pose (r := main_loop stocked run1_listdir 4 1 "solid" "/home/me/qc.sh" 1
               ["/data/run1"] None (on_tape t)).
  assert (H : r = (AllFinished, snd r)) by (vm_compute; reflexivity).
  exists (snd r). split; [exact H|].
  apply (main_loop_working_dirs stocked run1_listdir 4 1 "solid" "/home/me/qc.sh" 1
           ["/data/run1"] None (on_tape t) (snd r) AllFinished H).
Defined.

Lemma main_loop_no_data_witness :
  main_loop scripted (fun _ _ => Some ["notes.txt"]) 4 0 "fastq" "/home/me/qc.sh" 1
    ["/data/run1"; "/data/run2"] None (on_tape [queued ["7"]]) =
  (AllFinished, on_tape [queued ["7"]]).
Proof.
  apply (main_loop_no_data scripted (fun _ _ => Some ["notes.txt"]) 4 0 "fastq"
           "/home/me/qc.sh" 1 ["/data/run1"; "/data/run2"] (on_tape [queued ["7"]])).
  intros dd prev _. reflexivity.
Defined.


(** * build_analysis_dir.py *)

(** ** match and getLinkName *)

Lemma prefix_empty (s : string) : String.prefix "" s = true.
Proof. destruct s; reflexivity. Qed.

Lemma prefix_app (p x : string) : String.prefix p (p ++ x) = true.
Proof.
  induction p as [|c p IH]; simpl; [apply prefix_empty|].
  destruct (ascii_dec c c) as [_|n]; [exact IH|now elim n].
Qed.

Lemma append_assoc_string (a b c : string) : (a ++ b) ++ c = a ++ b ++ c.
Proof. induction a as [|x a IH]; simpl; [reflexivity|now rewrite IH]. Qed.

Lemma take_whole_but_star (q : string) :
  PyPath.take (String.length (q ++ "*") - 1) (q ++ "*") = q.
Proof.
  rewrite length_app_string. simpl String.length.
  replace (String.length q + 1 - 1)%nat with (String.length q + 0)%nat by lia.
  rewrite take_app. apply append_empty_r.
Qed.

Lemma endswith_star (q : string) : PyPath.endswith (q ++ "*") "*" = true.
Proof.
  unfold PyPath.endswith. rewrite length_app_string. simpl String.length.
  replace (String.length q + 1 - 1)%nat with (String.length q + 0)%nat by lia.
  rewrite drop_app. reflexivity.
Qed.

(** X25. [match] accepts every word when there is no pattern, an empty
    pattern or the pattern '*'; a pattern '<q>*' accepts exactly the words
    that start with [q]. *)
Theorem match_wildcard (q word : string) :
  Build.match_ None word = true /\
  Build.match_ (Some "") word = true /\
  Build.match_ (Some (q ++ "*")) word = String.prefix q word.
Proof.
  split; [reflexivity|]. split; [reflexivity|].
  destruct q as [|c q].
  - simpl. now rewrite prefix_empty.
  - unfold Build.match_.
    assert (Hne : String.eqb (String c q ++ "*") "*" = false).
    { apply String.eqb_neq. intros H. apply (f_equal String.length) in H.
      rewrite length_app_string in H. simpl in H. lia. }
    rewrite Hne, endswith_star, take_whole_but_star. reflexivity.
Qed.

(** X26. A pattern that is not empty and does not end with '*' accepts one
    word only, the pattern itself: a '*' elsewhere in it is an ordinary
    character. *)
Theorem match_exact (p word : string) :
  Py.truthy p = true -> PyPath.endswith p "*" = false ->
  (Build.match_ (Some p) word = true <-> word = p).
Proof.
  intros Ht He. unfold Build.match_. rewrite Ht, He. simpl.
  destruct (String.eqb p "*") eqn:Hs.
  - apply String.eqb_eq in Hs. subst. discriminate.
  - apply String.eqb_eq.
Qed.

Lemma join_QV (a b c d : string) :
  Py.join "_" [a; b; c; d; "QV"] = Py.join "_" [a; b; c; d] ++ "_QV".
Proof.
  unfold Py.join. simpl. repeat (rewrite append_assoc_string; simpl).
  reflexivity.
Qed.

(** X27. The two links [getLinkName] names for the qual file and the
    csfasta file of a library are a pair for [GetSolidDataFiles]: the name
    for the qual file has extension '.qual', and the csfasta name derived
    from it is the name for the csfasta file. *)
Theorem getLinkName_pairs (qual csfasta instrument datestamp sample library : string) :
  snd (PyPath.splitext qual) = ".qual" ->
  snd (PyPath.splitext csfasta) = ".csfasta" ->
  let ln_qual := Build.getLinkName qual instrument datestamp sample library in
  let ln_csfasta := Build.getLinkName csfasta instrument datestamp sample library in
  snd (PyPath.splitext ln_qual) = ".qual" /\
  csfasta_of (fst (PyPath.splitext ln_qual)) = Ok ln_csfasta.
Proof.
  intros Hq Hc ln_qual ln_csfasta.
  assert (Eq : ln_qual =
               Py.join "_" [instrument; datestamp; sample; library] ++ "_QV.qual").
  { unfold ln_qual, Build.getLinkName. cbv zeta. rewrite Hq.
    change (String.eqb ".qual" ".qual") with true. cbv iota.
    change ([instrument; datestamp; sample; library] ++ ["QV"])%list
      with [instrument; datestamp; sample; library; "QV"].
    now rewrite join_QV, append_assoc_string. }
  assert (Ec : ln_csfasta =
               Py.join "_" [instrument; datestamp; sample; library] ++ ".csfasta").
  { unfold ln_csfasta, Build.getLinkName. cbv zeta. rewrite Hc.
    change (String.eqb ".csfasta" ".qual") with false. reflexivity. }
  rewrite Eq, Ec, splitext_QV_qual.
  split; [reflexivity|apply csfasta_of_QV].
Qed.

Lemma match_exact_witness :
  Py.truthy "PB_JB_pool" = true /\ PyPath.endswith "PB_JB_pool" "*" = false /\
  (Build.match_ (Some "PB_JB_pool") "PB_JB_pool" = true <->
   "PB_JB_pool" = "PB_JB_pool").
Proof.
  split; [reflexivity|]. split; [reflexivity|].
  apply (match_exact "PB_JB_pool" "PB_JB_pool" eq_refl eq_refl).
Defined.

Lemma getLinkName_pairs_witness :
  snd (PyPath.splitext "/runs/r1/PB_F3_QV.qual") = ".qual" /\
  snd (PyPath.splitext "/runs/r1/PB_F3.csfasta") = ".csfasta" /\
  csfasta_of (fst (PyPath.splitext
                     (Build.getLinkName "/runs/r1/PB_F3_QV.qual" "solid0127"
                        "20110914" "PB" "PB1"))) =
  Ok (Build.getLinkName "/runs/r1/PB_F3.csfasta" "solid0127" "20110914" "PB" "PB1").
Proof.
  split; [reflexivity|]. split; [reflexivity|].
  apply (proj2 (getLinkName_pairs "/runs/r1/PB_F3_QV.qual" "/runs/r1/PB_F3.csfasta"
                  "solid0127" "20110914" "PB" "PB1" eq_refl eq_refl)).
Defined.

(** ** The command line of build_analysis_dir.py *)

Lemma split_on_from_no_sep (c : ascii) (a : string) :
  forall cur rest,
    Build.has_char c a = false ->
    Build.split_on_from c cur (a ++ rest) = Build.split_on_from c (cur ++ a) rest.
Proof.
  induction a as [|x a IH]; intros cur rest H; simpl in *.
  - now rewrite append_empty_r.
  - apply orb_false_elim in H. destruct H as [Hx Ha]. rewrite Hx.
    rewrite IH by exact Ha. now rewrite append_assoc_string.
Qed.

Lemma split_on_from_nonempty (c : ascii) (s : string) :
  forall cur, exists x l, Build.split_on_from c cur s = x :: l.
Proof.
  induction s as [|y s IH]; intros cur; simpl; [now exists cur, []|].
  destruct (Ascii.eqb y c); [|apply IH].
  now exists cur, (Build.split_on_from c "" s).
Qed.

(** The two pieces of '<a><c><b>' when [c] occurs in neither. *)
Lemma split_on_two (c : ascii) (a b : string) :
  Build.has_char c a = false -> Build.has_char c b = false ->
  Build.split_on c (a ++ String c b) = [a; b].
Proof.
  intros Ha Hb. unfold Build.split_on.
  rewrite (split_on_from_no_sep c a "" _ Ha). simpl.
  rewrite Ascii.eqb_refl.
  rewrite <- (append_empty_r b) at 1.
  rewrite (split_on_from_no_sep c b "" "" Hb). reflexivity.
Qed.

Lemma prefix_split (p s : string) :
  String.prefix p s = true -> exists r, s = p ++ r.
Proof.
  revert s. induction p as [|c p IH]; intros s H; [now exists s|].
  destruct s as [|x s]; [discriminate|]. simpl in H.
  destruct (ascii_dec c x) as [->|]; [|discriminate].
  apply IH in H. destruct H as (r & ->). now exists r.
Qed.

Lemma prefix_weaken (a b s : string) :
  String.prefix (a ++ b) s = true -> String.prefix a s = true.
Proof.
  intros H. apply prefix_split in H. destruct H as (r & ->).
  rewrite append_assoc_string. apply prefix_app.
Qed.

(** An argument that starts with '<option>=' has a value. *)
Lemma value_of_option (opt arg : string) :
  Build.has_char "=" opt = false ->
  Py.startswith arg (opt ++ "=") = true ->
  exists v, Build.value_of arg = Ok v.
Proof.
  intros Ho H. apply prefix_split in H. destruct H as (r & ->).
  unfold Build.value_of, Build.split_on.
  rewrite append_assoc_string, (split_on_from_no_sep "=" opt "" _ Ho). simpl.
  destruct (split_on_from_nonempty "=" r "") as (x & l & ->). now exists x.
Qed.

Lemma value_of_plain (opt v : string) :
  Build.has_char "=" opt = false -> Build.has_char "=" v = false ->
  Build.value_of (opt ++ "=" ++ v) = Ok v.
Proof.
  intros Ho Hv. unfold Build.value_of.
  change (opt ++ "=" ++ v) with (opt ++ String "=" v).
  now rewrite split_on_two.
Qed.

Lemma parse_arg_error (st : Build.Options) (arg : string) (e : error) :
  Build.parse_arg st arg = Error e -> e = SystemExit 1.
Proof.
  unfold Build.parse_arg.
  destruct (Build.solid_run_dir st); [now intros [= <-]|].
  destruct (Py.startswith arg "--name=") eqn:Hn.
  { destruct (value_of_option "--name" arg eq_refl Hn) as (v & ->). discriminate. }
  destruct (Py.startswith arg "--type=") eqn:Ht.
  { destruct (value_of_option "--type" arg eq_refl Ht) as (v & ->).
    destruct (Build.last_expt (Build.expts st)); [|now intros [= <-]].
    destruct (negb (Build.truthy (Build.type e0))); [discriminate|now intros [= <-]]. }
  destruct (Py.startswith arg "--source=") eqn:Hs.
  { destruct (value_of_option "--source" arg eq_refl Hs) as (v & ->).
    destruct (Build.last_expt (Build.expts st)); [discriminate|now intros [= <-]]. }
  destruct (String.eqb arg "--dry-run"); [discriminate|].
  destruct (String.eqb arg "--debug"); [discriminate|].
  destruct (negb (Py.startswith arg "--")); [discriminate|now intros [= <-]].
Qed.

Lemma parse_loop_error (args : list string) :
  forall st e, Build.parse_loop st args = Error e -> e = SystemExit 1.
Proof.
  induction args as [|arg rest IH]; intros st e; simpl; [discriminate|].
  destruct (Build.parse_arg st arg) as [st'|e'] eqn:H; [apply IH|].
  intros [= <-]. now apply parse_arg_error in H.
Qed.

Lemma parse_loop_app (l1 l2 : list string) :
  forall st,
    Build.parse_loop st (l1 ++ l2) =
    match Build.parse_loop st l1 with
    | Ok st' => Build.parse_loop st' l2
    | Error e => Error e
    end.
Proof.
  induction l1 as [|a l1 IH]; intros st; simpl; [reflexivity|].
  destruct (Build.parse_arg st a); [apply IH|reflexivity].
Qed.

(** An argument that does not start with '--' is taken as the run
    directory, if none was read yet. *)
Lemma parse_arg_run_dir (st : Build.Options) (dir : string) :
  Build.solid_run_dir st = None -> Py.startswith dir "--" = false ->
  Build.parse_arg st dir =
  Ok (Build.mkOptions (Build.expts st) (Build.dry_run st) (Some dir)).
Proof.
  intros Hn Hd. unfold Build.parse_arg. rewrite Hn.
  assert (Hp : forall rest, Py.startswith dir ("--" ++ rest) = false).
  { intros rest. destruct (Py.startswith dir ("--" ++ rest)) eqn:H; [|reflexivity].
    apply prefix_weaken in H. unfold Py.startswith in Hd. congruence. }
  pose proof (Hp "name=") as H1. pose proof (Hp "type=") as H2.
  pose proof (Hp "source=") as H3. cbn [append] in H1, H2, H3.
  rewrite H1, H2, H3.
  assert (He : forall rest, String.eqb dir ("--" ++ rest) = false).
  { intros rest. apply String.eqb_neq. intros ->.
    unfold Py.startswith in Hd. now rewrite prefix_app in Hd. }
  pose proof (He "dry-run") as H4. pose proof (He "debug") as H5.
  cbn [append] in H4, H5. rewrite H4, H5, Hd. reflexivity.
Qed.

(** X28. Nothing may follow the run directory on the command line: as soon
    as an argument that does not start with '--' is followed by any other
    argument, even an option, the program exits with status 1. *)
Theorem parse_args_after_run_dir (prog dir extra : string) (pre post : list string) :
  Py.startswith dir "--" = false ->
  Build.parse_args (prog :: pre ++ dir :: extra :: post) = Error (SystemExit 1).
Proof.
  intros Hd. unfold Build.parse_args.
  assert (Hl : Nat.ltb (List.length (prog :: pre ++ dir :: extra :: post)) 2 = false).
  { apply Nat.ltb_ge. simpl. rewrite length_app. simpl. lia. }
  rewrite Hl. cbn [tl].
  assert (H : Build.parse_loop (Build.mkOptions [] false None)
                (pre ++ dir :: extra :: post) = Error (SystemExit 1)).
  { rewrite parse_loop_app.
    destruct (Build.parse_loop (Build.mkOptions [] false None) pre)
      as [st|e] eqn:Hpre; [|now rewrite (parse_loop_error _ _ _ Hpre)].
    cbn [Build.parse_loop].
    destruct (Build.solid_run_dir st) as [d|] eqn:Hs.
    - unfold Build.parse_arg at 1. now rewrite Hs.
    - rewrite (parse_arg_run_dir _ _ Hs Hd). reflexivity. }
  now rewrite H.
Qed.

(** Without a --name option no experiment is defined. *)
Lemma parse_arg_no_name (st st' : Build.Options) (arg : string) :
  Py.startswith arg "--name=" = false -> Build.expts st = [] ->
  Build.parse_arg st arg = Ok st' -> Build.expts st' = [].
Proof.
  intros Hn He. unfold Build.parse_arg. rewrite Hn, He.
  change (Build.last_expt []) with (@None Build.Experiment).
  destruct (Build.solid_run_dir st); [discriminate|].
  destruct (Py.startswith arg "--type="); [discriminate|].
  destruct (Py.startswith arg "--source="); [discriminate|].
  destruct (String.eqb arg "--dry-run"); [now intros [= <-]|].
  destruct (String.eqb arg "--debug"); [now intros [= <-]|].
  destruct (negb (Py.startswith arg "--")); [now intros [= <-]|discriminate].
Qed.

Lemma parse_loop_no_name (args : list string) :
  forall st st',
    Forall (fun a => Py.startswith a "--name=" = false) args ->
    Build.expts st = [] ->
    Build.parse_loop st args = Ok st' -> Build.expts st' = [].
Proof.
  induction args as [|arg rest IH]; intros st st' Hf He; cbn [Build.parse_loop].
  - now intros [= <-].
  - inversion Hf as [|? ? Ha Hr]; subst.
    destruct (Build.parse_arg st arg) as [st1|e] eqn:H1; [|discriminate].
    apply (IH st1 st' Hr). exact (parse_arg_no_name st st1 arg Ha He H1).
Qed.

(** X29. A --type or --source option that comes before any --name option
    makes the program exit with status 1, whatever comes before it (other
    options, or a run directory) and after it. *)
Theorem parse_args_option_before_name (prog arg : string) (pre rest : list string) :
  Forall (fun a => Py.startswith a "--name=" = false) pre ->
  Py.startswith arg "--type=" = true \/ Py.startswith arg "--source=" = true ->
  Build.parse_args (prog :: pre ++ arg :: rest) = Error (SystemExit 1).
Proof.
  intros Hpre H. unfold Build.parse_args.
  assert (Hl : Nat.ltb (List.length (prog :: pre ++ arg :: rest)) 2 = false).
  { apply Nat.ltb_ge. simpl. rewrite length_app. simpl. lia. }
  rewrite Hl. cbn [tl].
  assert (E : Build.parse_loop (Build.mkOptions [] false None)
                (pre ++ arg :: rest) = Error (SystemExit 1)).
  { rewrite parse_loop_app.
    destruct (Build.parse_loop (Build.mkOptions [] false None) pre)
      as [st|e] eqn:Hp; [|now rewrite (parse_loop_error _ _ _ Hp)].
    pose proof (parse_loop_no_name pre (Build.mkOptions [] false None) st
                  Hpre eq_refl Hp) as He.
    cbn [Build.parse_loop].
    assert (Ea : Build.parse_arg st arg = Error (SystemExit 1)).
    { unfold Build.parse_arg. rewrite He.
      change (Build.last_expt []) with (@None Build.Experiment).
      destruct (Build.solid_run_dir st); [reflexivity|].
      destruct H as [H|H]; apply prefix_split in H; destruct H as (r & ->).
      - assert (Hn : Py.startswith ("--type=" ++ r) "--name=" = false)
          by reflexivity.
        assert (Ht : Py.startswith ("--type=" ++ r) "--type=" = true)
          by apply prefix_app.
        now rewrite Hn, Ht.
      - assert (Hn : Py.startswith ("--source=" ++ r) "--name=" = false)
          by reflexivity.
        assert (Ht : Py.startswith ("--source=" ++ r) "--type=" = false)
          by reflexivity.
        assert (Hs : Py.startswith ("--source=" ++ r) "--source=" = true)
          by apply prefix_app.
        now rewrite Hn, Ht, Hs. }
    now rewrite Ea. }
  now rewrite E.
Qed.

Lemma has_char_app (c : ascii) (a b : string) :
  Build.has_char c (a ++ b) = Build.has_char c a || Build.has_char c b.
Proof.
  induction a as [|x a IH]; simpl; [reflexivity|]. now rewrite IH, orb_assoc.
Qed.

Lemma no_space_app (a b : string) : no_space (a ++ b) = no_space a && no_space b.
Proof.
  induction a as [|x a IH]; simpl; [reflexivity|]. now rewrite IH, andb_assoc.
Qed.

Lemma plain_facts (s : string) :
  Build.plain s = true ->
  no_space s = true /\ Build.has_char "=" s = false /\ Build.has_char "/" s = false.
Proof.
  induction s as [|c s IH]; simpl; [auto|].
  intros H. apply andb_prop in H. destruct H as [H Hs].
  apply andb_prop in H. destruct H as [H H3].
  apply andb_prop in H. destruct H as [H1 H2].
  destruct (IH Hs) as (I1 & I2 & I3).
  rewrite H1, I1, I2, I3.
  apply negb_true_iff in H2, H3. now rewrite H2, H3.
Qed.

Lemma split_from_word (w : string) :
  forall cur rest,
    no_space w = true ->
    Py.split_from cur (w ++ rest) = Py.split_from (cur ++ w) rest.
Proof.
  induction w as [|c w IH]; intros cur rest H; simpl in *.
  - now rewrite append_empty_r.
  - apply andb_prop in H. destruct H as [Hc Hw].
    apply negb_true_iff in Hc. rewrite Hc, IH by exact Hw.
    now rewrite append_assoc_string.
Qed.

(** Splitting what was joined with spaces gives the words back. *)
Lemma split_join_words (l : list string) :
  Forall (fun w => is_word w = true) l -> Py.split (Py.join " " l) = l.
Proof.
  unfold Py.split, Py.join.
  induction 1 as [|w l Hw Hl IH]; [reflexivity|].
  unfold is_word in Hw. apply andb_prop in Hw. destruct Hw as [Hne Hns].
  destruct l as [|w2 l].
  - simpl. rewrite <- (append_empty_r w) at 1.
    rewrite (split_from_word w "" "" Hns). simpl.
    destruct w; [discriminate|reflexivity].
  - change (String.concat " " (w :: w2 :: l))
      with (w ++ String " " (String.concat " " (w2 :: l))).
    set (rest := String.concat " " (w2 :: l)) in *.
    rewrite (split_from_word w "" _ Hns).
    cbn [Py.split_from append]. change (Py.is_space " ") with true. cbv iota.
    rewrite IH. destruct w; [discriminate|reflexivity].
Qed.

Lemma update_last_ext (f g : Build.Experiment -> Build.Experiment)
  (l : list Build.Experiment) :
  (forall e, f e = g e) -> Build.update_last f l = Build.update_last g l.
Proof.
  intros H. induction l as [|e l IH]; [reflexivity|].
  destruct l as [|e2 l]; [simpl; now rewrite H|].
  change (e :: Build.update_last f (e2 :: l) = e :: Build.update_last g (e2 :: l)).
  now rewrite IH.
Qed.

Lemma parse_arg_name (st : Build.Options) (n : string) :
  Build.solid_run_dir st = None -> Build.has_char "=" n = false ->
  Build.parse_arg st ("--name=" ++ n) =
  Ok (Build.mkOptions
        (Build.expts st ++ [Build.mkExperiment (Some n) None None None])
        (Build.dry_run st) None).
Proof.
  intros Hs Hn. unfold Build.parse_arg. rewrite Hs.
  assert (H1 : Py.startswith ("--name=" ++ n) "--name=" = true) by apply prefix_app.
  rewrite H1. change ("--name=" ++ n) with ("--name" ++ "=" ++ n).
  now rewrite (value_of_plain "--name" n eq_refl Hn).
Qed.

Lemma parse_arg_type (st : Build.Options) (x : Build.Experiment) (t : string) :
  Build.solid_run_dir st = None ->
  Build.last_expt (Build.expts st) = Some x ->
  Build.truthy (Build.type x) = false ->
  Build.has_char "=" t = false ->
  Build.parse_arg st ("--type=" ++ t) =
  Ok (Build.mkOptions
        (Build.update_last
           (fun e => Build.mkExperiment (Build.name e) (Some t)
                       (Build.sample e) (Build.library e))
           (Build.expts st))
        (Build.dry_run st) None).
Proof.
  intros Hs Hx Hty Ht. unfold Build.parse_arg. rewrite Hs.
  assert (H1 : Py.startswith ("--type=" ++ t) "--name=" = false) by reflexivity.
  assert (H2 : Py.startswith ("--type=" ++ t) "--type=" = true) by apply prefix_app.
  rewrite H1, H2, Hx, Hty. cbn [negb].
  change ("--type=" ++ t) with ("--type" ++ "=" ++ t).
  now rewrite (value_of_plain "--type" t eq_refl Ht).
Qed.

Lemma parse_arg_source (st : Build.Options) (x : Build.Experiment)
  (sa li : string) :
  Build.solid_run_dir st = None ->
  Build.last_expt (Build.expts st) = Some x ->
  Build.truthy (Build.sample x) = false ->
  Build.has_char "=" sa = false -> Build.has_char "/" sa = false ->
  Build.has_char "=" li = false -> Build.has_char "/" li = false ->
  Build.parse_arg st ("--source=" ++ sa ++ "/" ++ li) =
  Ok (Build.mkOptions
        (Build.update_last
           (fun e => Build.mkExperiment (Build.name e) (Build.type e)
                       (Some sa) (Some li))
           (Build.expts st))
        (Build.dry_run st) None).
Proof.
  intros Hs Hx Hsa E1 S1 E2 S2. unfold Build.parse_arg. rewrite Hs.
  assert (H1 : Py.startswith ("--source=" ++ sa ++ "/" ++ li) "--name=" = false)
    by reflexivity.
  assert (H2 : Py.startswith ("--source=" ++ sa ++ "/" ++ li) "--type=" = false)
    by reflexivity.
  assert (H3 : Py.startswith ("--source=" ++ sa ++ "/" ++ li) "--source=" = true)
    by apply prefix_app.
  rewrite H1, H2, H3, Hx, Hsa.
  change ("--source=" ++ sa ++ "/" ++ li) with ("--source" ++ "=" ++ sa ++ "/" ++ li).
  assert (Hv : Build.has_char "=" (sa ++ "/" ++ li) = false).
  { rewrite has_char_app, E1. simpl. exact E2. }
  rewrite (value_of_plain "--source" _ eq_refl Hv).
  assert (Hset : forall e,
            Build.set_source (sa ++ "/" ++ li) e =
            Build.mkExperiment (Build.name e) (Build.type e) (Some sa) (Some li)).
  { intros e. unfold Build.set_source.
    assert (Hh : Build.has_char "/" (sa ++ "/" ++ li) = true).
    { rewrite has_char_app. simpl. apply orb_true_r. }
    rewrite Hh. change (sa ++ "/" ++ li) with (sa ++ String "/" li).
    now rewrite (split_on_two "/" sa li S1 S2). }
  cbv zeta. now rewrite (update_last_ext _ _ (Build.expts st) Hset).
Qed.

(** X30. The options [describe] prints for an experiment are read back as
    that experiment.  For an experiment with a name, and whose name, type,
    sample and library hold neither whitespace, '=' nor '/' where they are
    set, processing the words of [describe()] followed by a run directory
    gives one experiment: with the same name; with the same type, an empty
    type being read back as none; and with the sample and the library, '*'
    standing for one that is unset or empty. *)
Theorem describe_parse_round_trip (e : Build.Experiment) (n prog dir : string) :
  Build.name e = Some n -> Build.plain n = true ->
  Build.plain_or_none (Build.type e) = true ->
  Build.plain_or_none (Build.sample e) = true ->
  Build.plain_or_none (Build.library e) = true ->
  Py.truthy dir = true -> Py.startswith dir "--" = false ->
  Build.parse_args (prog :: Py.split (Build.describe e) ++ [dir]) =
  Ok (Build.mkOptions
        [Build.mkExperiment (Some n)
           (if Build.truthy (Build.type e) then Build.type e else None)
           (Some (if Build.truthy (Build.sample e)
                  then Build.str (Build.sample e) else "*"))
           (Some (if Build.truthy (Build.library e)
                  then Build.str (Build.library e) else "*"))]
        false (Some dir)).
Proof.
  intros Hname Hn Hty Hsa Hli Hdir Hdd.
  destruct e as [nm ty sa li]. simpl in Hname, Hty, Hsa, Hli. subst nm.
  unfold Build.describe.
  cbn [Build.name Build.type Build.sample Build.library]. cbv zeta.
  change (Build.str (Some n)) with n.
  set (S := if Build.truthy sa then Build.str sa else "*").
  set (L := if Build.truthy li then Build.str li else "*").
  assert (HS : Build.plain S = true).
  { unfold S. destruct sa as [x|]; [|reflexivity]. simpl.
    destruct (Py.truthy x); [exact Hsa|reflexivity]. }
  assert (HL : Build.plain L = true).
  { unfold L. destruct li as [x|]; [|reflexivity]. simpl.
    destruct (Py.truthy x); [exact Hli|reflexivity]. }
  destruct (plain_facts _ Hn) as (Nn & En & _).
  destruct (plain_facts _ HS) as (NS & ES & SS).
  destruct (plain_facts _ HL) as (NL & EL & SL).
  assert (W1 : is_word ("--name=" ++ n) = true) by (unfold is_word; simpl; exact Nn).
  assert (W3 : is_word ("--source=" ++ S ++ "/" ++ L) = true).
  { unfold is_word. simpl. rewrite no_space_app, NS. simpl. exact NL. }
  assert (Hrun : forall ty',
            Build.parse_arg
              (Build.mkOptions [Build.mkExperiment (Some n) ty' (Some S) (Some L)]
                 false None) dir =
            Ok (Build.mkOptions [Build.mkExperiment (Some n) ty' (Some S) (Some L)]
                  false (Some dir))).
  { intros ty'. now apply parse_arg_run_dir. }
  destruct (Build.truthy ty) eqn:Tty.
  - destruct ty as [t|]; [|discriminate]. simpl in Tty, Hty.
    destruct (plain_facts _ Hty) as (Nt & Et & _).
    cbn [Build.str List.app].
    assert (W2 : is_word ("--type=" ++ t) = true)
      by (unfold is_word; simpl; exact Nt).
    rewrite split_join_words by (repeat constructor; assumption).
    unfold Build.parse_args. cbn [List.length List.app Nat.ltb Nat.leb tl].
    cbn [Build.parse_loop].
    rewrite (parse_arg_name (Build.mkOptions [] false None) n eq_refl En).
    cbn [Build.expts Build.dry_run List.app].
    rewrite (parse_arg_type
               (Build.mkOptions [Build.mkExperiment (Some n) None None None]
                  false None)
               (Build.mkExperiment (Some n) None None None) t
               eq_refl eq_refl eq_refl Et).
    cbn [Build.expts Build.dry_run Build.update_last Build.name Build.sample
         Build.library].
    rewrite (parse_arg_source
               (Build.mkOptions [Build.mkExperiment (Some n) (Some t) None None]
                  false None)
               (Build.mkExperiment (Some n) (Some t) None None)
               S L eq_refl eq_refl eq_refl ES SS EL SL).
    cbn [Build.expts Build.dry_run Build.update_last Build.name Build.type].
    rewrite Hrun. cbn [Build.solid_run_dir Build.truthy Build.expts].
    now rewrite Hdir.
  - rewrite split_join_words by (repeat constructor; assumption).
    unfold Build.parse_args. cbn [List.length List.app Nat.ltb Nat.leb tl].
    cbn [Build.parse_loop].
    rewrite (parse_arg_name (Build.mkOptions [] false None) n eq_refl En).
    cbn [Build.expts Build.dry_run List.app].
    rewrite (parse_arg_source
               (Build.mkOptions [Build.mkExperiment (Some n) None None None]
                  false None)
               (Build.mkExperiment (Some n) None None None)
               S L eq_refl eq_refl eq_refl ES SS EL SL).
    cbn [Build.expts Build.dry_run Build.update_last Build.name Build.type].
    rewrite Hrun. cbn [Build.solid_run_dir Build.truthy Build.expts].
    now rewrite Hdir.
Qed.

Lemma parse_args_after_run_dir_witness :
  Py.startswith "run_dir" "--" = false /\
  Build.parse_args ("prog" :: ["--name=PB"; "--source=s/l"] ++
                    "run_dir" :: "--dry-run" :: []) = Error (SystemExit 1).
Proof.
  split; [reflexivity|].
  apply (parse_args_after_run_dir "prog" "run_dir" "--dry-run"
           ["--name=PB"; "--source=s/l"] [] eq_refl).
Defined.

Lemma parse_args_option_before_name_witness :
  Forall (fun a => Py.startswith a "--name=" = false) ["--dry-run"; "--debug"] /\
  Py.startswith "--type=ChIP-seq" "--type=" = true /\
  Build.parse_args
    ["prog"; "--dry-run"; "--debug"; "--type=ChIP-seq"; "--name=PB"; "run_dir"] =
  Error (SystemExit 1).
Proof.
  assert (H : Forall (fun a => Py.startswith a "--name=" = false)
                ["--dry-run"; "--debug"]) by (repeat constructor).
  split; [exact H|]. split; [reflexivity|].
  apply (parse_args_option_before_name "prog" "--type=ChIP-seq"
           ["--dry-run"; "--debug"] ["--name=PB"; "run_dir"] H (or_introl eq_refl)).
Defined.

Lemma describe_parse_round_trip_witness :
  Build.plain "PB" = true /\ Build.plain_or_none (Some "ChIP-seq") = true /\
  Build.plain_or_none (Some "PB_JB_pool") = true /\
  Build.plain_or_none None = true /\
  Py.truthy "solid0127_20110914_FRAG_BC" = true /\
  Py.startswith "solid0127_20110914_FRAG_BC" "--" = false /\
  Build.parse_args
    ("build_analysis_dir.py" ::
     Py.split (Build.describe
                 (Build.mkExperiment (Some "PB") (Some "ChIP-seq")
                    (Some "PB_JB_pool") None)) ++
     ["solid0127_20110914_FRAG_BC"]) =
  Ok (Build.mkOptions
        [Build.mkExperiment (Some "PB") (Some "ChIP-seq") (Some "PB_JB_pool")
           (Some "*")]
        false (Some "solid0127_20110914_FRAG_BC")).
Proof.
  repeat (split; [reflexivity|]).
  apply (describe_parse_round_trip
           (Build.mkExperiment (Some "PB") (Some "ChIP-seq") (Some "PB_JB_pool") None)
           "PB" "build_analysis_dir.py" "solid0127_20110914_FRAG_BC"
           eq_refl eq_refl eq_refl eq_refl eq_refl eq_refl eq_refl).
Defined.
